(** * Gainsight API toolkit: the scripts' logic, embedded and verified

    The repository is five command-line scripts
    ([contacts-lookup.py], [csm-dashboard.py], [timeline-viewer.py],
    [company-lookup.py], [gainsight-api-hello-world.py]).  Each one posts a
    fixed JSON query to a remote service, inspects the reply and prints
    text.  This file embeds them function by function:

    - [Py]: the Python values the scripts handle (decoded JSON) and the
      string, list and dict operations they use;
    - [Net]: the remote service as an oracle, the console, exceptions and
      the monad that threads them;
    - one module per script, with the source's function names.

    Conventions.  A Python [str] is a [string]; each [ascii] stands for one
    character.  The non-ASCII characters of the scripts' own messages are
    kept as written in the source (their UTF-8 bytes), since no length is
    ever taken of them.  [while True] is run with a fuel counter and the
    outcome [OutOfFuel] when the counter runs out.

    The files as stored.  In four of the five files (all but
    [gainsight-api-hello-world.py]) every newline that a statement prints
    or joins with is stored as a line feed between the quotes of its
    literal, so the literal is left open at the end of its line and
    Python refuses the file.  The functions are embedded as their lines
    read with such a literal taken for the newline it stands for, which
    is said at each definition it concerns, and each [main] is embedded
    from the statement after [parse_args] on.  [Stored] holds the lines
    in question, the scan that finds them open, the command line, and the
    four scripts as the files stand; what is stated of a run of these
    scripts is stated of those. *)

From Stdlib Require Import String Ascii List ZArith QArith Bool Lia.
From Stdlib Require Import DecimalString.
Import ListNotations.

Local Open Scope string_scope.
Local Open Scope list_scope.
Set Warnings "-register-all".

(** * Part I: the scripts *)

(** ** Python values and built-in operations *)
Module Py.

(** What [json.loads] can return.  A dict is an association list whose
    keys are pairwise distinct, in insertion order. *)
Inductive value : Type :=
| PNone
| PBool (b : bool)
| PInt (z : Z)
| PFloat (q : Q)
| PStr (s : string)
| PList (l : list value)
| PDict (kv : list (string * value)).

(** Exceptions, as far as the scripts tell them apart: the handlers are
    [except requests.RequestException] and [except Exception];
    [sys.exit] raises [SystemExit], which neither catches. *)
Inductive exn : Type :=
| RequestException (msg : string)
| OtherException
| SystemExit (code : Z).

Inductive result (A : Type) : Type :=
| Ret (a : A)
| Raise (e : exn)
| OutOfFuel.
Arguments Ret {A} a.
Arguments Raise {A} e.
Arguments OutOfFuel {A}.

Definition rbind {A B} (r : result A) (k : A -> result B) : result B :=
  match r with
  | Ret a => k a
  | Raise e => Raise e
  | OutOfFuel => OutOfFuel
  end.

(** *** Strings *)

Definition nl : string := String (ascii_of_nat 10) "".

(** [c in s] for a one-character [c]. *)
Fixpoint has_char (c : ascii) (s : string) : bool :=
  match s with
  | EmptyString => false
  | String a s' => Ascii.eqb a c || has_char c s'
  end.

(** [s[:n]] *)
Fixpoint str_take (n : nat) (s : string) : string :=
  match n, s with
  | S n', String a s' => String a (str_take n' s')
  | _, _ => EmptyString
  end.

(** [s.split(c, 1)] when [c] occurs in [s]: the text before the first
    [c] and the text after it. *)
Fixpoint split_first (c : ascii) (s : string) : option (string * string) :=
  match s with
  | EmptyString => None
  | String a s' =>
      if Ascii.eqb a c then Some (EmptyString, s')
      else match split_first c s' with
           | Some (u, d) => Some (String a u, d)
           | None => None
           end
  end.

(** [s.split(c)] *)
Fixpoint split (c : ascii) (s : string) : list string :=
  match s with
  | EmptyString => [EmptyString]
  | String a s' =>
      if Ascii.eqb a c then EmptyString :: split c s'
      else match split c s' with
           | h :: t => String a h :: t
           | [] => [String a EmptyString]
           end
  end.

(** [str.lower] on one character: A-Z, and the upper-case letters of the
    Latin-1 block (0xC0-0xDE without the multiplication sign 0xD7). *)
Definition lower_char (a : ascii) : ascii :=
  let n := nat_of_ascii a in
  if ((65 <=? n) && (n <=? 90))%nat
     || ((192 <=? n) && (n <=? 222) && negb (n =? 215))%nat
  then ascii_of_nat (n + 32) else a.

Fixpoint lower (s : string) : string :=
  match s with
  | EmptyString => EmptyString
  | String a s' => String (lower_char a) (lower s')
  end.

Fixpoint str_rev_onto (s acc : string) : string :=
  match s with
  | EmptyString => acc
  | String a s' => str_rev_onto s' (String a acc)
  end.
Definition str_rev (s : string) : string := str_rev_onto s EmptyString.

Fixpoint drop_while (p : ascii -> bool) (s : string) : string :=
  match s with
  | EmptyString => EmptyString
  | String a s' => if p a then drop_while p s' else s
  end.

(** [s.rstrip('/')] and [s.strip()] *)
Definition rstrip_char (c : ascii) (s : string) : string :=
  str_rev (drop_while (Ascii.eqb c) (str_rev s)).

Definition is_space (a : ascii) : bool :=
  let n := nat_of_ascii a in
  (((9 <=? n) && (n <=? 13)) || ((28 <=? n) && (n <=? 32))
   || (n =? 133) || (n =? 160))%nat.

Definition strip (s : string) : string :=
  str_rev (drop_while is_space (str_rev (drop_while is_space s))).

(** [s.replace(c, t)] for a one-character [c]. *)
Fixpoint replace_char (c : ascii) (t : string) (s : string) : string :=
  match s with
  | EmptyString => EmptyString
  | String a s' =>
      if Ascii.eqb a c then t ++ replace_char c t s'
      else String a (replace_char c t s')
  end.

(** [sep.join(parts)] *)
Fixpoint join (sep : string) (parts : list string) : string :=
  match parts with
  | [] => EmptyString
  | [p] => p
  | p :: rest => p ++ sep ++ join sep rest
  end.

(** [c * n] *)
Fixpoint str_repeat (c : string) (n : nat) : string :=
  match n with
  | O => EmptyString
  | S n' => c ++ str_repeat c n'
  end.

(** [str(n)] for an [int]. *)
Definition str_of_Z (z : Z) : string := NilZero.string_of_int (Z.to_int z).
Definition str_of_nat (n : nat) : string := str_of_Z (Z.of_nat n).

(** *** Values *)

(** Truth value of an object, as [if x], [not x] and [x or y] take it. *)
Definition truthy (v : value) : bool :=
  match v with
  | PNone => false
  | PBool b => b
  | PInt z => negb (z =? 0)%Z
  | PFloat q => negb (Qnum q =? 0)%Z
  | PStr s => negb (String.eqb s EmptyString)
  | PList l => match l with [] => false | _ => true end
  | PDict kv => match kv with [] => false | _ => true end
  end.

(** [x or y] *)
Definition por (x y : value) : value := if truthy x then x else y.

Fixpoint lookup (k : string) (kv : list (string * value)) : option value :=
  match kv with
  | [] => None
  | (k', v) :: rest => if String.eqb k' k then Some v else lookup k rest
  end.

(** [k in d] on a dict. *)
Definition has_key (k : string) (kv : list (string * value)) : bool :=
  match lookup k kv with Some _ => true | None => false end.

(** [x.get(k, default)]: only a dict has the method, anything else
    raises [AttributeError]. *)
Definition get (x : value) (k : string) (default : value) : result value :=
  match x with
  | PDict kv => Ret (match lookup k kv with Some v => v | None => default end)
  | _ => Raise OtherException
  end.

Definition chars (s : string) : list value :=
  map (fun a => PStr (String a EmptyString)) (list_ascii_of_string s).

(** The items a [for] loop or [list.extend] draws from [x]: the elements
    of a list, the characters of a string, the keys of a dict; other
    values are not iterable ([TypeError]). *)
Definition iter (x : value) : result (list value) :=
  match x with
  | PList l => Ret l
  | PStr s => Ret (chars s)
  | PDict kv => Ret (map (fun p => PStr (fst p)) kv)
  | _ => Raise OtherException
  end.

(** [len(x)] *)
Definition len (x : value) : result nat :=
  match x with
  | PList l => Ret (List.length l)
  | PStr s => Ret (String.length s)
  | PDict kv => Ret (List.length kv)
  | _ => Raise OtherException
  end.

(** [x[:n]]: a string or a list gives its prefix; a dict rejects a slice
    as a key, and the other values are not subscriptable. *)
Definition slice_to (n : nat) (x : value) : result value :=
  match x with
  | PStr s => Ret (PStr (str_take n s))
  | PList l => Ret (PList (firstn n l))
  | _ => Raise OtherException
  end.

(** [x + s] for a string [s]: defined on strings only. *)
Definition add_str (x : value) (s : string) : result value :=
  match x with
  | PStr t => Ret (PStr (t ++ s))
  | _ => Raise OtherException
  end.

(** The number a value stands for under [==]: [True == 1], [1 == 1.0]. *)
Definition numeric (v : value) : option Q :=
  match v with
  | PBool b => Some (if b then 1 else 0)%Q
  | PInt z => Some (inject_Z z)
  | PFloat q => Some q
  | _ => None
  end.

(** [a == b] *)
Fixpoint py_eq (a b : value) : bool :=
  match a, b with
  | PNone, PNone => true
  | PStr s, PStr t => String.eqb s t
  | PList l, PList m =>
      (fix all2 (l : list value) (m : list value) : bool :=
         match l, m with
         | [], [] => true
         | x :: l', y :: m' => py_eq x y && all2 l' m'
         | _, _ => false
         end) l m
  | PDict kv, PDict kw =>
      (List.length kv =? List.length kw)%nat
      && (fix sub (kv : list (string * value)) : bool :=
            match kv with
            | [] => true
            | (k, v) :: kv' =>
                match lookup k kw with
                | Some w => py_eq v w
                | None => false
                end && sub kv'
            end) kv
  | _, _ =>
      match numeric a, numeric b with
      | Some p, Some q => Qeq_bool p q
      | _, _ => false
      end
  end.

(** [x in l] on a list. *)
Definition list_mem (x : value) (l : list value) : bool :=
  existsb (py_eq x) l.

(** [c in x] for a one-character string [c]: substring test on a
    string, membership on a list, key test on a dict; the other values
    are not containers ([TypeError]). *)
Definition contains_char (c : ascii) (x : value) : result bool :=
  match x with
  | PStr s => Ret (has_char c s)
  | PList l => Ret (list_mem (PStr (String c EmptyString)) l)
  | PDict kv => Ret (has_key (String c EmptyString) kv)
  | _ => Raise OtherException
  end.

(** [x[0]] *)
Definition index0 (x : value) : result value :=
  match x with
  | PList (v :: _) => Ret v
  | PStr (String a _) => Ret (PStr (String a EmptyString))
  | _ => Raise OtherException
  end.

(** [x == s] and [x != s] against a string literal. *)
Definition is_str (x : value) (s : string) : bool := py_eq x (PStr s).

(** What the interpreter and the libraries supply: [str()] of the
    values whose text is their [repr], [json.dumps(v, indent=2)],
    [datetime.fromisoformat(s).strftime("%Y-%m-%d %H:%M")] ([None] when
    it raises), and the exception [Response.json] raises on a body that
    is not JSON ([Some msg]: a [RequestException] with that text, as in
    requests 2.27 and later; [None]: a plain [ValueError]), and the
    text of the [HTTPError] that [raise_for_status] raises for a status
    code and a url. *)
Class Runtime : Type := {
  repr_other : value -> string;
  json_dumps_indent2 : value -> string;
  iso_to_minute : string -> option string;
  json_decode_error : option string;
  http_error_text : Z -> string -> string
}.

(** [str(v)], as an f-string renders [{v}]. *)
Definition to_str `{Runtime} (v : value) : string :=
  match v with
  | PNone => "None"
  | PBool true => "True"
  | PBool false => "False"
  | PInt z => str_of_Z z
  | PStr s => s
  | _ => repr_other v
  end.

End Py.

(** ** The remote service, the console and the monad of the scripts *)
Module Net.
Import Py.

(** One [requests.post(url, headers=..., data=json.dumps(query),
    timeout=...)]; [data] holds the query before serialisation. *)
Record request : Type := {
  url : string;
  headers : list (string * string);
  data : value;
  timeout : Z
}.

(** A [requests.Response]: [json] is what [resp.json()] decodes, [None]
    when the body is not JSON. *)
Record response : Type := {
  status_code : Z;
  text : string;
  json : option value
}.

(** What a call meets: a transport error (connection, timeout, ...),
    raised by [requests] as a [RequestException], or a response. *)
Inductive reply : Type :=
| Failed (msg : string)
| Replied (r : response).

(** The remote service is a black box: [remote k rq] is its answer to
    the request [rq] when [k] calls were made before.  [calls] logs every
    call with its answer, oldest first; [stdout] holds the strings
    printed so far, one per [print], oldest first. *)
Record world : Type := {
  remote : nat -> request -> reply;
  calls : list (request * reply);
  stdout : list string
}.

Definition M (A : Type) : Type := world -> result A * world.

Definition ret {A} (a : A) : M A := fun w => (Ret a, w).

Definition bind {A B} (m : M A) (k : A -> M B) : M B :=
  fun w =>
    match m w with
    | (Ret a, w') => k a w'
    | (Raise e, w') => (Raise e, w')
    | (OutOfFuel, w') => (OutOfFuel, w')
    end.

Definition raise {A} (e : exn) : M A := fun w => (Raise e, w).

Definition out_of_fuel {A} : M A := fun w => (OutOfFuel, w).

(** A pure computation that may raise. *)
Definition lift {A} (r : result A) : M A := fun w => (r, w).

Definition print (s : string) : M unit :=
  fun w => (Ret tt, {| remote := remote w; calls := calls w;
                       stdout := stdout w ++ [s] |}).

Definition post (rq : request) : M response :=
  fun w =>
    let a := remote w (List.length (calls w)) rq in
    let w' := {| remote := remote w; calls := calls w ++ [(rq, a)];
                 stdout := stdout w |} in
    match a with
    | Failed msg => (Raise (RequestException msg), w')
    | Replied r => (Ret r, w')
    end.

(** [resp.json()] *)
Definition resp_json `{Runtime} (r : response) : M value :=
  match json r with
  | Some v => ret v
  | None =>
      match json_decode_error with
      | Some msg => raise (RequestException msg)
      | None => raise OtherException
      end
  end.

(** [resp.raise_for_status()], for the response to a request sent to
    [url]. *)
Definition raise_for_status `{Runtime} (url : string) (r : response)
  : M unit :=
  if ((400 <=? status_code r) && (status_code r <? 600))%Z
  then raise (RequestException (http_error_text (status_code r) url))
  else ret tt.

(** [try: m except requests.RequestException as e: h(str(e))] *)
Definition try_request {A} (m : M A) (h : string -> M A) : M A :=
  fun w =>
    match m w with
    | (Raise (RequestException msg), w') => h msg w'
    | other => other
    end.

(** [try: m except Exception: h] *)
Definition try_exception {A} (m : M A) (h : M A) : M A :=
  fun w =>
    match m w with
    | (Raise (RequestException _), w') => h w'
    | (Raise OtherException, w') => h w'
    | other => other
    end.

(** [sys.exit(code)] *)
Definition sys_exit {A} (code : Z) : M A := raise (SystemExit code).

(** The status the process ends with: 0 when [main] returns, the
    argument of [sys.exit], 1 after an uncaught exception. *)
Definition exit_code {A} (r : result A) : option Z :=
  match r with
  | Ret _ => Some 0%Z
  | Raise (SystemExit c) => Some c
  | Raise _ => Some 1%Z
  | OutOfFuel => None
  end.

(** The world after one call and the printing of [lines]. *)
Definition logged (w : world) (rq : request) (a : reply)
           (lines : list string) : world :=
  {| remote := remote w; calls := calls w ++ [(rq, a)];
     stdout := stdout w ++ lines |}.

(** A fresh process talking to the service [srv]. *)
Definition boot (srv : nat -> request -> reply) : world :=
  {| remote := srv; calls := []; stdout := [] |}.

Definition json_headers (access_key : string) : list (string * string) :=
  [("Content-Type", "application/json");
   ("Accept", "application/json");
   ("accesskey", access_key)].

(** [os.environ], and the way the scripts read it. *)
Definition environ : Type := string -> option string.

(** [not s] for an optional string: unset or empty. *)
Definition missing (s : option string) : bool :=
  match s with
  | Some t => String.eqb t EmptyString
  | None => true
  end.

(** [a or b] on optional strings. *)
Definition opt_or (a b : option string) : option string :=
  if missing a then b else a.

(** The text of an optional string that is not [missing]. *)
Definition the (s : option string) : string :=
  match s with Some t => t | None => EmptyString end.

(** [for i, x in enumerate(xs, i0): body i x], for a body with effects. *)
Fixpoint for_each {A} (body : nat -> A -> M unit) (i : nat) (xs : list A)
  : M unit :=
  match xs with
  | [] => ret tt
  | x :: rest => bind (body i x) (fun _ => for_each body (S i) rest)
  end.

(** [for i, x in enumerate(xs, i0): output.extend(body i x)], for a body
    that may raise. *)
Fixpoint for_lines {A} (body : nat -> A -> result (list string))
         (i : nat) (xs : list A) : result (list string) :=
  match xs with
  | [] => Ret []
  | x :: rest =>
      rbind (body i x) (fun ls =>
      rbind (for_lines body (S i) rest) (fun more => Ret (ls ++ more)))
  end.

End Net.

Declare Scope py_scope.
Delimit Scope py_scope with py.
Notation "x <- m ;; k" := (Net.bind m (fun x => k))
  (at level 61, m at next level, right associativity) : py_scope.
Notation "m ;; k" := (Net.bind m (fun _ => k))
  (at level 61, right associativity) : py_scope.

Local Open Scope py_scope.

(** ** contacts-lookup.py *)
Module ContactsLookup.
Import Py Net.

Definition redact_email (email : value) : result value :=
  if negb (truthy email) then Ret email
  else
    rbind (contains_char "@" email) (fun has_at =>
    if negb has_at then Ret email
    else
      match email with
      | PStr s =>
          match split_first "@" s with
          | Some (user, domain) =>
              Ret (PStr (if truthy (PStr user)
                         then str_take 1 user ++ "***@" ++ domain
                         else "***@" ++ domain))
          | None => Raise OtherException
          end
      | _ => Raise OtherException
      end).

(** How one turn of the [while True] loop ends. *)
Inductive flow : Type :=
| Return_ (v : option (list value))
| Break (contacts : list value)
| Continue (contacts : list value).

Definition contacts_query (company_gsid : string) (limit offset : Z) : value :=
  PDict
    [("select",
       PList [PStr "Gsid"; PStr "Person_ID__gr.Gsid";
              PStr "Person_ID__gr.FirstName"; PStr "Person_ID__gr.LastName";
              PStr "Person_ID__gr.Email"; PStr "Role"; PStr "Title";
              PStr "Active"]);
     ("where",
       PDict
         [("conditions",
            PList
              [PDict [("name", PStr "Company_ID"); ("alias", PStr "A");
                      ("operator", PStr "EQ");
                      ("value", PList [PStr company_gsid])];
               PDict [("name", PStr "Active"); ("alias", PStr "B");
                      ("operator", PStr "EQ");
                      ("value", PList [PBool true])]]);
          ("expression", PStr "A AND B")]);
     ("orderBy", PDict [("Person_ID__gr.LastName", PStr "asc")]);
     ("limit", PInt limit);
     ("offset", PInt offset)].

(** [f"{domain.rstrip('/')}/v1/data/objects/query/company_person"] *)
Definition contacts_url (domain : string) : string :=
  (rstrip_char "/" domain ++ "/v1/data/objects/query/company_person")%string.

(** The call of one turn: [requests.post(url, headers=headers,
    data=json.dumps(query), timeout=15)]. *)
Definition page_request (url : string) (headers : list (string * string))
           (company_gsid : string) (limit offset : Z) : request :=
  {| url := url; headers := headers;
     data := contacts_query company_gsid limit offset; timeout := 15 |}.

(** The records of a decoded body's [data] field, [None] for the
    branch "Unexpected data format". *)
Definition records_of (raw_data : value) : option value :=
  match raw_data with
  | PDict kv => lookup "records" kv
  | PList _ => Some raw_data
  | _ => None
  end.

Section WithRuntime.
Context `{Runtime}.

(** One turn of the loop: the body of [while True], its
    [try]/[except] included. *)
Definition fetch_page (url : string) (headers : list (string * string))
           (company_gsid : string) (limit offset : Z)
           (contacts : list value) : M flow :=
  try_request
    (print ("🔍 Querying contacts (offset: " ++ str_of_Z offset
            ++ ", limit: " ++ str_of_Z limit ++ ")...") ;;
     resp <- post (page_request url headers company_gsid limit offset) ;;
     if negb (status_code resp =? 200)%Z then
       print ("   ❌ HTTP " ++ str_of_Z (status_code resp) ++ ": "
              ++ str_take 300 (text resp)) ;;
       ret (Return_ None)
     else
       data <- resp_json resp ;;
       result_ <- lift (get data "result" PNone) ;;
       if negb (truthy result_) then
         err <- lift (get data "errorDesc" (PStr "Unknown error")) ;;
         print ("   ❌ API Error: " ++ to_str err) ;;
         ret (Return_ None)
       else
         raw_data <- lift (get data "data" (PList [])) ;;
         match records_of raw_data with
         | None =>
             print "   ❌ Unexpected data format" ;;
             ret (Return_ None)
         | Some records =>
             items <- lift (iter records) ;;
             let contacts' := contacts ++ items in
             n <- lift (len records) ;;
             print ("   📋 Found " ++ str_of_nat n
                    ++ " contacts in this batch") ;;
             if (Z.of_nat n <? limit)%Z then ret (Break contacts')
             else ret (Continue contacts')
         end)
    (fun e =>
       print ("   ❌ Request error: " ++ e) ;;
       ret (Return_ None)).

Fixpoint fetch_loop (fuel : nat) (url : string)
         (headers : list (string * string)) (company_gsid : string)
         (limit offset : Z) (contacts : list value)
  : M (option (list value)) :=
  match fuel with
  | O => out_of_fuel
  | S fuel' =>
      fl <- fetch_page url headers company_gsid limit offset contacts ;;
      match fl with
      | Return_ v => ret v
      | Break contacts' => ret (Some contacts')
      | Continue contacts' =>
          fetch_loop fuel' url headers company_gsid limit
                     (offset + limit) contacts'
      end
  end.

(** [fetch_contacts_by_company_gsid] with its local constant [limit]
    as a parameter. *)
Definition fetch_contacts_paged (fuel : nat) (limit : Z)
           (domain access_key company_gsid : string)
  : M (option (list value)) :=
  fetch_loop fuel (contacts_url domain) (json_headers access_key)
             company_gsid limit 0 [].

Definition fetch_contacts_by_company_gsid (fuel : nat)
           (domain access_key company_gsid : string)
  : M (option (list value)) :=
  fetch_contacts_paged fuel 1000 domain access_key company_gsid.

(** The body of the [for] loop of [format_contacts_data]: the lines
    appended for the [i]-th contact. *)
Definition contact_lines (redact : bool) (i : nat) (contact : value)
  : result (list string) :=
  rbind (get contact "Person_ID__gr.FirstName" PNone) (fun v =>
  let first_name := por v (PStr "Unknown") in
  rbind (get contact "Person_ID__gr.LastName" PNone) (fun v =>
  let last_name := por v (PStr "Unknown") in
  rbind (get contact "Person_ID__gr.Email" PNone) (fun v =>
  let email := por v (PStr "No email") in
  rbind (get contact "Role" PNone) (fun v =>
  let role := por v (PStr "No role") in
  rbind (get contact "Title" PNone) (fun v =>
  let title := por v (PStr "No title") in
  rbind (if redact && negb (is_str email "No email")
         then redact_email email else Ret email) (fun email =>
  let name := strip (to_str first_name ++ " " ++ to_str last_name) in
  Ret ([("   " ++ str_of_nat i ++ ". 👤 " ++ name)%string;
        ("      📧 " ++ to_str email)%string]
       ++ (if negb (is_str role "No role")
           then [("      🎯 Role: " ++ to_str role)%string] else [])
       ++ (if negb (is_str title "No title")
           then [("      💼 Title: " ++ to_str title)%string] else [])
       ++ [EmptyString]))))))).

(** Lines 102-130.  The separator of the last statement, [return
    "...".join(output)], is stored on lines 129-130 with a line feed
    between its quotes; it is read here as the newline [nl]. *)
Definition format_contacts_data (contacts : list value)
           (company_name : string) (redact : bool) : result string :=
  match contacts with
  | [] => Ret ("   No active contacts found for " ++ company_name)%string
  | _ =>
      let output :=
        [("   📊 Found " ++ str_of_nat (List.length contacts)
          ++ " active contacts for " ++ company_name ++ ":")%string;
         ("   " ++ str_repeat "=" 60)%string] in
      rbind (for_lines (contact_lines redact) 1 contacts) (fun ls =>
      Ret (join nl (output ++ ls)))
  end.

(** The parsed command line of [contacts-lookup.py]. *)
Record args : Type := {
  company_id : option string;
  company_name : option string
}.

(** The literal of the last [print], stored on lines 175-176 with a
    line feed after its opening quote, read as a newline and the text. *)
Definition read_only_banner : string :=
  (nl ++ "🛡️  100% READ-ONLY: No data was modified, only viewed")%string.

(** [main] from the statement after [parser.parse_args()] on (lines
    138-176), with the parsed options as [a]; the parsing is
    [Stored.parse_args].  The literals of the prints on lines 161-162
    and 175-176 are stored with a line feed after the opening quote and
    read as starting with a newline. *)
Definition main (fuel : nat) (env : environ) (a : args) : M unit :=
  let domain := env "GAINSIGHT_DOMAIN" in
  let access_key := env "GAINSIGHT_ACCESS_KEY" in
  let company_gsid := opt_or (company_id a) (env "GAINSIGHT_COMPANY_ID") in
  let company_name :=
    the (opt_or (opt_or (company_name a) (env "GAINSIGHT_COMPANY_NAME"))
                (Some "Unknown Company")) in
  let redact :=
    negb (String.eqb
            (match env "GAINSIGHT_REDACT" with Some v => v | None => "1" end)
            "0") in
  if missing domain || missing access_key then
    print "❌ Missing env vars. Set GAINSIGHT_DOMAIN and GAINSIGHT_ACCESS_KEY." ;;
    sys_exit 1
  else if missing company_gsid then
    print "❌ Missing company ID. Provide --company-id or set GAINSIGHT_COMPANY_ID." ;;
    sys_exit 1
  else
    print "👥 Company Contacts Lookup (READ-ONLY)" ;;
    print ("🌐 Domain: " ++ the domain) ;;
    print ("🏢 Company: " ++ company_name ++ " (" ++ the company_gsid ++ ")") ;;
    print "🔗 Endpoint: v1/data/objects/query/company_person" ;;
    print (str_repeat "=" 60) ;;
    contacts <- fetch_contacts_by_company_gsid
                  fuel (the domain) (the access_key) (the company_gsid) ;;
    match contacts with
    | Some contacts =>
        print (nl ++ "🎯 Results:") ;;
        formatted <- lift (format_contacts_data contacts company_name redact) ;;
        print formatted ;;
        print (str_repeat "-" 40) ;;
        print ("✅ Contact lookup completed! Total: "
               ++ str_of_nat (List.length contacts) ++ " contacts")
    | None =>
        print "❌ Contact lookup failed" ;;
        print "💡 Possible reasons:" ;;
        print "   • Custom Object API endpoint not accessible" ;;
        print "   • Company GSID doesn't exist" ;;
        print "   • No company_person object access" ;;
        print "   • Wrong domain for Custom Object API"
    end ;;
    print read_only_banner.

End WithRuntime.

End ContactsLookup.

(** ** csm-dashboard.py *)
Module CsmDashboard.
Import Py Net.

Definition redact_email (email : value) : result value :=
  if negb (truthy email) then Ret email
  else
    rbind (contains_char "@" email) (fun has_at =>
    if negb has_at then Ret email
    else
      match email with
      | PStr s =>
          match split_first "@" s with
          | Some (user, domain) =>
              Ret (PStr (if truthy (PStr user)
                         then str_take 1 user ++ "***@" ++ domain
                         else "***@" ++ domain))
          | None => Raise OtherException
          end
      | _ => Raise OtherException
      end).

Definition timeline_query (user_email : string) (limit : Z) : value :=
  PDict
    [("select",
       PList [PStr "Gsid"; PStr "CreatedDate"; PStr "Subject"; PStr "Notes";
              PStr "ActivityDate"; PStr "contextname"; PStr "AuthorId";
              PStr "GsCompanyId"; PStr "GsRelationshipId"]);
     ("where",
       PDict
         [("conditions",
            PList
              [PDict [("name", PStr "AuthorId__gr.Email"); ("alias", PStr "A");
                      ("value", PList [PStr user_email]);
                      ("operator", PStr "EQ")]]);
          ("expression", PStr "A")]);
     ("orderBy", PDict [("CreatedDate", PStr "desc")]);
     ("limit", PInt limit);
     ("offset", PInt 0)].

Definition company_query (company_gsid : value) : value :=
  PDict
    [("select", PList [PStr "Gsid"; PStr "Name"; PStr "Industry"]);
     ("where",
       PDict
         [("conditions",
            PList
              [PDict [("name", PStr "Gsid"); ("alias", PStr "A");
                      ("value", PList [company_gsid]);
                      ("operator", PStr "EQ")]]);
          ("expression", PStr "A")]);
     ("limit", PInt 1);
     ("offset", PInt 0)].

Definition contacts_query (company_gsid : value) (limit : Z) : value :=
  PDict
    [("select",
       PList [PStr "Person_ID__gr.FirstName"; PStr "Person_ID__gr.LastName";
              PStr "Person_ID__gr.Email"; PStr "Title"]);
     ("where",
       PDict
         [("conditions",
            PList
              [PDict [("name", PStr "Company_ID"); ("alias", PStr "A");
                      ("operator", PStr "EQ");
                      ("value", PList [company_gsid])];
               PDict [("name", PStr "Active"); ("alias", PStr "B");
                      ("operator", PStr "EQ");
                      ("value", PList [PBool true])]]);
          ("expression", PStr "A AND B")]);
     ("orderBy", PDict [("Person_ID__gr.LastName", PStr "asc")]);
     ("limit", PInt limit);
     ("offset", PInt 0)].

(** [Counter(domains)]: the keys in first-seen order with their counts. *)
Fixpoint bump (k : string) (c : list (string * nat)) : list (string * nat) :=
  match c with
  | [] => [(k, 1%nat)]
  | (k', n) :: rest =>
      if String.eqb k' k then (k', S n) :: rest else (k', n) :: bump k rest
  end.

Definition Counter (domains : list string) : list (string * nat) :=
  fold_left (fun c k => bump k c) domains [].

(** [max(items, key=lambda x: x[1])] from a first item on: the first
    item, in iteration order, whose count is the largest. *)
Fixpoint max_item (best : string * nat) (items : list (string * nat))
  : string * nat :=
  match items with
  | [] => best
  | it :: rest =>
      if (snd best <? snd it)%nat then max_item it rest
      else max_item best rest
  end.

(** [max(domain_counts.items(), key=lambda x: x[1])[0] if domain_counts
    else "Unknown"] *)
Definition primary_domain_of (domain_counts : list (string * nat)) : string :=
  match domain_counts with
  | [] => "Unknown"
  | it :: rest => fst (max_item it rest)
  end.

(** [Counter.most_common()]: by count, largest first, equal counts in
    their first-seen order. *)
Fixpoint insert_by_count (it : string * nat) (sorted : list (string * nat))
  : list (string * nat) :=
  match sorted with
  | [] => [it]
  | x :: rest =>
      if (snd x <? snd it)%nat then it :: sorted
      else x :: insert_by_count it rest
  end.

Definition most_common (c : list (string * nat)) : list (string * nat) :=
  fold_left (fun sorted it => insert_by_count it sorted) c [].

(** The body of the loop of [extract_email_domains]: the domain one
    contact adds, if any. *)
Definition contact_domain (contact : value) : result (option string) :=
  rbind (get contact "Person_ID__gr.Email" (PStr "")) (fun email =>
  if negb (truthy email) then Ret None
  else
    rbind (contains_char "@" email) (fun has_at =>
    if negb has_at then Ret None
    else
      match email with
      | PStr s =>
          match nth_error (split "@" s) 1 with
          | Some d => Ret (Some (lower d))
          | None => Raise OtherException
          end
      | _ => Raise OtherException
      end)).

Fixpoint collect_domains (contacts : list value) : result (list string) :=
  match contacts with
  | [] => Ret []
  | contact :: rest =>
      rbind (contact_domain contact) (fun d =>
      rbind (collect_domains rest) (fun ds =>
      Ret (match d with Some x => x :: ds | None => ds end)))
  end.

Definition extract_email_domains (contacts : value)
  : result (list (string * nat)) :=
  rbind (iter contacts) (fun cs =>
  rbind (collect_domains cs) (fun domains =>
  match domains with
  | [] => Ret []
  | _ => Ret (Counter domains)
  end)).

Section WithRuntime.
Context `{Runtime}.

Definition get_timeline_activities (domain access_key user_email : string)
           (limit : Z) : M value :=
  let url := (rstrip_char "/" domain
              ++ "/v1/data/objects/query/activity_timeline")%string in
  try_request
    (print ("📧 Getting " ++ str_of_Z limit
            ++ " recent timeline activities for " ++ user_email ++ "...") ;;
     resp <- post {| url := url; headers := json_headers access_key;
                     data := timeline_query user_email limit;
                     timeout := 15 |} ;;
     if (status_code resp =? 200)%Z then
       data <- resp_json resp ;;
       result_ <- lift (get data "result" PNone) ;;
       if truthy result_ then
         d <- lift (get data "data" (PDict [])) ;;
         activities <- lift (get d "records" (PList [])) ;;
         n <- lift (len activities) ;;
         print ("   ✅ Found " ++ str_of_nat n ++ " activities") ;;
         ret activities
       else
         err <- lift (get data "errorDesc" PNone) ;;
         print ("   ❌ API Error: " ++ to_str err) ;;
         ret PNone
     else
       print ("   ❌ HTTP " ++ str_of_Z (status_code resp) ++ ": "
              ++ str_take 200 (text resp)) ;;
       ret PNone)
    (fun e =>
       print ("   ❌ Request error: " ++ e) ;;
       ret PNone).

Definition lookup_company_name (domain access_key : string)
           (company_gsid : value) : M value :=
  let url := (rstrip_char "/" domain
              ++ "/v1/data/objects/query/Company")%string in
  try_request
    (resp <- post {| url := url; headers := json_headers access_key;
                     data := company_query company_gsid;
                     timeout := 10 |} ;;
     if (status_code resp =? 200)%Z then
       data <- resp_json resp ;;
       result_ <- lift (get data "result" PNone) ;;
       if truthy result_ then
         d <- lift (get data "data" (PDict [])) ;;
         companies <- lift (get d "records" (PList [])) ;;
         if truthy companies then lift (index0 companies)
         else ret PNone
       else ret PNone
     else ret PNone)
    (fun _ => ret PNone).

Definition get_company_contacts (domain access_key : string)
           (company_gsid : value) (limit : Z) : M value :=
  let url := (rstrip_char "/" domain
              ++ "/v1/data/objects/query/company_person")%string in
  try_request
    (resp <- post {| url := url; headers := json_headers access_key;
                     data := contacts_query company_gsid limit;
                     timeout := 10 |} ;;
     if (status_code resp =? 200)%Z then
       data <- resp_json resp ;;
       result_ <- lift (get data "result" PNone) ;;
       if truthy result_ then
         d <- lift (get data "data" (PDict [])) ;;
         lift (get d "records" (PList []))
       else ret (PList [])
     else ret (PList []))
    (fun _ => ret (PList [])).

(** Lines 192-193: [if subject: subject = subject + "..." if
    len(subject) == 50 else subject]. *)
Definition mark_cut (subject : value) : result value :=
  if truthy subject then
    rbind (len subject) (fun n =>
    if (n =? 50)%nat then add_str subject "..." else Ret subject)
  else Ret subject.

(** The body of the loop of [format_timeline_summary]. *)
Definition summary_lines (i : nat) (activity : value)
  : result (list string) :=
  rbind (get activity "Subject" (PStr "No subject")) (fun v =>
  rbind (slice_to 50 v) (fun subject =>
  rbind (get activity "GsCompanyId" (PStr "No company ID")) (fun company_id =>
  rbind (mark_cut subject) (fun subject =>
  Ret [("   " ++ str_of_nat i ++ ". 📧 " ++ to_str subject)%string;
       ("      🏢 Company ID: " ++ to_str company_id)%string])))).

(** Lines 182-199.  The separator of the last statement is stored on
    lines 198-199 with a line feed between its quotes; it is read here
    as the newline [nl]. *)
Definition format_timeline_summary (activities : value) : result string :=
  if negb (truthy activities) then Ret "   No activities found"
  else
    rbind (len activities) (fun n =>
    let output :=
      [("   📊 Found " ++ str_of_nat n ++ " recent activities:")%string] in
    rbind (iter activities) (fun acts =>
    rbind (for_lines summary_lines 1 acts) (fun ls =>
    Ret (join nl (output ++ ls))))).

(** The parsed command line of [csm-dashboard.py]. *)
Record args : Type := {
  user_email : option string;
  limit : Z
}.

(** One entry of [all_results]. *)
Record company_result : Type := {
  gsid : value;
  name : value;
  industry : value;
  contacts : value;
  domain_counts : list (string * nat);
  primary_domain : string
}.

(** Step 2: the company ids of the activities, each once, in order.
    [company_gsids] is the list built so far. *)
Fixpoint unique_gsids (activities company_gsids : list value)
  : result (list value) :=
  match activities with
  | [] => Ret company_gsids
  | activity :: rest =>
      rbind (get activity "GsCompanyId" PNone) (fun gsid =>
      if truthy gsid && negb (list_mem gsid company_gsids)
      then unique_gsids rest (company_gsids ++ [gsid])
      else unique_gsids rest company_gsids)
  end.

(** Step 3, the body of the loop over [company_gsids] (lines 250-292).
    The f-string of its first [print] is stored on lines 251-252 with a
    line feed after the opening quote and read as starting with a
    newline. *)
Definition process_company (domain access_key : string) (total : nat)
           (i : nat) (company_gsid : value) : M company_result :=
  print (nl ++ "   🔍 Processing Company " ++ str_of_nat i ++ "/"
         ++ str_of_nat total ++ ": " ++ to_str company_gsid) ;;
  print "      📋 Looking up company name..." ;;
  company_info <- lookup_company_name domain access_key company_gsid ;;
  ni <- (if truthy company_info then
           company_name <- lift (get company_info "Name"
                                     (PStr "Unknown Company")) ;;
           v <- lift (get company_info "Industry" PNone) ;;
           let industry := por v (PStr "Unknown Industry") in
           print ("      ✅ Company: " ++ to_str company_name ++ " ("
                  ++ to_str industry ++ ")") ;;
           ret (company_name, industry)
         else
           short <- lift (slice_to 20 company_gsid) ;;
           print "      ❌ Could not lookup company name" ;;
           ret (PStr ("Unknown Company (" ++ to_str short ++ "...)"),
                PStr "Unknown Industry")) ;;
  let (company_name, industry) := ni in
  print "      👥 Getting top 10 contacts..." ;;
  contacts <- get_company_contacts domain access_key company_gsid 10 ;;
  if truthy contacts then
    n <- lift (len contacts) ;;
    print ("      ✅ Found " ++ str_of_nat n ++ " contacts") ;;
    domain_counts <- lift (extract_email_domains contacts) ;;
    let primary_domain := primary_domain_of domain_counts in
    top <- lift (slice_to 10 contacts) ;;
    ret {| gsid := company_gsid; name := company_name;
           industry := industry; contacts := top;
           domain_counts := domain_counts;
           primary_domain := primary_domain |}
  else
    print "      ❌ No contacts found" ;;
    ret {| gsid := company_gsid; name := company_name;
           industry := industry; contacts := PList [];
           domain_counts := []; primary_domain := "Unknown" |}.

Fixpoint process_companies (domain access_key : string) (total : nat)
         (i : nat) (company_gsids : list value)
         (all_results : list company_result) : M (list company_result) :=
  match company_gsids with
  | [] => ret all_results
  | company_gsid :: rest =>
      r <- process_company domain access_key total i company_gsid ;;
      process_companies domain access_key total (S i) rest
                        (all_results ++ [r])
  end.

(** The body of the loop over a company's contacts in the final
    report. *)
Definition print_contact (redact : bool) (j : nat) (contact : value)
  : M unit :=
  first_name <- lift (get contact "Person_ID__gr.FirstName" (PStr "")) ;;
  last_name <- lift (get contact "Person_ID__gr.LastName" (PStr "")) ;;
  let name := strip (to_str first_name ++ " " ++ to_str last_name) in
  email <- lift (get contact "Person_ID__gr.Email" (PStr "No email")) ;;
  v <- lift (get contact "Title" PNone) ;;
  let title := por v (PStr "No title") in
  email <- lift (if redact && negb (is_str email "No email")
                 then redact_email email else Ret email) ;;
  print ("      " ++ str_of_nat j ++ ". " ++ name) ;;
  print ("         📧 " ++ to_str email) ;;
  if negb (is_str title "No title")
  then print ("         💼 " ++ to_str title)
  else ret tt.

(** The body of the loop over [all_results] in the final report (lines
    299-323).  The f-string of its first [print] is stored on lines
    300-301 with a line feed after the opening quote and read as
    starting with a newline. *)
Definition print_result (redact : bool) (i : nat) (r : company_result)
  : M unit :=
  print (nl ++ "🏢 COMPANY " ++ str_of_nat i ++ ": " ++ to_str (name r)) ;;
  print ("   🆔 GSID: " ++ to_str (gsid r)) ;;
  print ("   🏭 Industry: " ++ to_str (industry r)) ;;
  (match domain_counts r with
   | [] => ret tt
   | _ =>
       print "   📊 Email Domains:" ;;
       for_each
         (fun _ (it : string * nat) =>
            let shown_domain :=
              if redact then "redacted-domain" else fst it in
            print ("      • @" ++ shown_domain ++ " ("
                   ++ str_of_nat (snd it) ++ " contacts)"))
         0 (most_common (domain_counts r))
   end) ;;
  n <- lift (len (contacts r)) ;;
  print ("   👥 Top " ++ str_of_nat n ++ " Contacts:") ;;
  top <- lift (slice_to 10 (contacts r)) ;;
  cs <- lift (iter top) ;;
  for_each (print_contact redact) 1 cs.

Definition read_only_banner : string :=
  "🛡️  100% READ-ONLY: No data was modified, only viewed".

(** [main] from the statement after [parser.parse_args()] on (lines
    208-328), with the parsed options as [a]; the parsing is
    [Stored.parse_args].  The literals of the prints on lines 226-227,
    236-237, 246-247, 294-295 and 325-326 are stored with a line feed
    after the opening quote and read as starting with a newline. *)
Definition main (env : environ) (a : args) : M unit :=
  let domain := env "GAINSIGHT_DOMAIN" in
  let access_key := env "GAINSIGHT_ACCESS_KEY" in
  let user_email := opt_or (user_email a) (env "GAINSIGHT_USER_EMAIL") in
  let redact :=
    negb (String.eqb
            (match env "GAINSIGHT_REDACT" with Some v => v | None => "1" end)
            "0") in
  if missing domain || missing access_key then
    print "❌ Missing env vars. Set GAINSIGHT_DOMAIN and GAINSIGHT_ACCESS_KEY." ;;
    sys_exit 1
  else if missing user_email then
    print "❌ Missing user email. Provide --user-email or set GAINSIGHT_USER_EMAIL." ;;
    sys_exit 1
  else
    print "🎯 CSM Complete Dashboard (READ-ONLY)" ;;
    print ("🌐 Domain: " ++ the domain) ;;
    print ("👤 User: " ++ the user_email) ;;
    print (str_repeat "=" 80) ;;
    print (nl ++ "🔄 STEP 1: Getting recent timeline activities...") ;;
    activities <- get_timeline_activities
                    (the domain) (the access_key) (the user_email)
                    (limit a) ;;
    if negb (truthy activities) then
      print "❌ Failed to get timeline activities" ;;
      sys_exit 1
    else
      summary <- lift (format_timeline_summary activities) ;;
      print summary ;;
      print (nl ++ "🔄 STEP 2: Extracting company GSIDs...") ;;
      acts <- lift (iter activities) ;;
      company_gsids <- lift (unique_gsids acts []) ;;
      print ("   🏢 Found " ++ str_of_nat (List.length company_gsids)
             ++ " unique companies") ;;
      print (nl ++ "🔄 STEP 3: Processing each company...") ;;
      all_results <- process_companies
                       (the domain) (the access_key)
                       (List.length company_gsids) 1 company_gsids [] ;;
      print (nl ++ str_repeat "=" 80) ;;
      print "🎯 FINAL DASHBOARD RESULTS" ;;
      print (str_repeat "=" 80) ;;
      for_each (print_result redact) 1 all_results ;;
      print (nl ++ str_repeat "=" 80) ;;
      print "✅ CSM Dashboard completed successfully!" ;;
      print read_only_banner.

End WithRuntime.

End CsmDashboard.

(** ** timeline-viewer.py *)
Module TimelineViewer.
Import Py Net.

Definition timeline_query (user_email : string) (limit : Z) : value :=
  PDict
    [("select",
       PList [PStr "Gsid"; PStr "CreatedDate"; PStr "Subject"; PStr "Notes";
              PStr "ActivityDate"; PStr "contextname"; PStr "AuthorId";
              PStr "GsCompanyId"; PStr "GsRelationshipId"]);
     ("where",
       PDict
         [("conditions",
            PList
              [PDict [("name", PStr "AuthorId__gr.Email"); ("alias", PStr "A");
                      ("value", PList [PStr user_email]);
                      ("operator", PStr "EQ")]]);
          ("expression", PStr "A")]);
     ("orderBy", PDict [("CreatedDate", PStr "desc")]);
     ("limit", PInt limit);
     ("offset", PInt 0)].

(** The activities of a body's [data] field, [None] for the branch
    "Unexpected data format". *)
Definition records_of (records : value) : option value :=
  match records with
  | PDict kv => lookup "records" kv
  | PList _ => Some records
  | _ => None
  end.

Section WithRuntime.
Context `{Runtime}.

Definition safe_timeline_query (domain access_key user_email : string)
           (limit : Z) : M value :=
  let url := (rstrip_char "/" domain
              ++ "/v1/data/objects/query/activity_timeline")%string in
  try_request
    (print ("🔍 Querying Timeline activities for " ++ user_email
            ++ " (limit: " ++ str_of_Z limit ++ ")...") ;;
     resp <- post {| url := url; headers := json_headers access_key;
                     data := timeline_query user_email limit;
                     timeout := 15 |} ;;
     if (status_code resp =? 200)%Z then resp_json resp
     else
       print ("   ❌ HTTP " ++ str_of_Z (status_code resp) ++ ": "
              ++ str_take 200 (text resp)) ;;
       ret PNone)
    (fun e =>
       print ("   ❌ Request error: " ++ e) ;;
       ret PNone).

(** One turn of the loop over the date fields: the formatted date of
    a field that is present, truthy and parses; the [try] catches
    every failure. *)
Definition date_of_field (kv : list (string * value)) (date_field : string)
  : option string :=
  match lookup date_field kv with
  | Some (PStr s) =>
      if truthy (PStr s)
      then iso_to_minute (replace_char "Z" "+00:00" s)
      else None
  | _ => None
  end.

Definition date_str_of (kv : list (string * value)) : string :=
  match date_of_field kv "ActivityDate" with
  | Some d => d
  | None =>
      match date_of_field kv "CreatedDate" with
      | Some d => d
      | None => "Unknown date"
      end
  end.

(** Lines 94-96: the subject, cut when longer than 50. *)
Definition shown_subject (activity : value) : result value :=
  rbind (get activity "Subject" (PStr "No subject")) (fun subject =>
  if truthy subject then
    rbind (len subject) (fun n =>
    if (50 <? n)%nat then
      rbind (slice_to 50 subject) (fun cut => add_str cut "...")
    else Ret subject)
  else Ret subject).

(** The body of the loop of [format_timeline_data].  A value that is
    not a dict fails the date test or, at the latest, the first
    [.get]. *)
Definition activity_lines (i : nat) (activity : value)
  : result (list string) :=
  match activity with
  | PDict kv =>
      let date_str := date_str_of kv in
      rbind (get activity "contextname" (PStr "Unknown")) (fun context =>
      rbind (shown_subject activity) (fun subject =>
      rbind (get activity "Gsid" (PStr "Unknown")) (fun g =>
      rbind (slice_to 10 g) (fun g10 =>
      rbind (add_str g10 "...") (fun gsid =>
      Ret ([("   " ++ str_of_nat i ++ ". [" ++ date_str ++ "] "
             ++ to_str context ++ " context")%string]
           ++ (if truthy subject && negb (is_str subject "No subject")
               then [("      📧 " ++ to_str subject)%string] else [])
           ++ [("      🆔 " ++ to_str gsid)%string]))))))
  | _ => Raise OtherException
  end.

(** Lines 65-106.  The separator of the last statement is stored on
    lines 105-106 with a line feed between its quotes; it is read here
    as the newline [nl]. *)
Definition format_timeline_data (data : value) : result string :=
  if negb (truthy data) then Ret "   No Timeline data available"
  else
    rbind (get data "result" PNone) (fun result_ =>
    if negb (truthy result_) then Ret "   No Timeline data available"
    else
      rbind (get data "data" (PDict [])) (fun records =>
      match records_of records with
      | None => Ret "   Unexpected data format from Timeline API"
      | Some activities =>
          if negb (truthy activities)
          then Ret "   No activities found in Timeline"
          else
            rbind (len activities) (fun n =>
            let output :=
              [("   📊 Found " ++ str_of_nat n
                ++ " Timeline activities:")%string] in
            rbind (iter activities) (fun acts =>
            rbind (for_lines activity_lines 1 acts) (fun ls =>
            Ret (join nl (output ++ ls)))))
      end)).

(** The parsed command line of [timeline-viewer.py]. *)
Record args : Type := {
  user_email : option string;
  limit : Z;
  debug : bool
}.

(** The literal of the last [print], stored on lines 151-152 with a
    line feed after its opening quote, read as a newline and the text. *)
Definition read_only_banner : string :=
  (nl ++ "🛡️  100% READ-ONLY: No data was modified, only viewed")%string.

(** [main] from the statement after [parser.parse_args()] on (lines
    115-152), with the parsed options as [a]; the parsing is
    [Stored.parse_args].  The literals of the prints on lines 138-139
    and 151-152 are stored with a line feed after the opening quote and
    read as starting with a newline. *)
Definition main (env : environ) (a : args) : M unit :=
  let domain := env "GAINSIGHT_DOMAIN" in
  let access_key := env "GAINSIGHT_ACCESS_KEY" in
  let user_email := opt_or (user_email a) (env "GAINSIGHT_USER_EMAIL") in
  if missing domain || missing access_key then
    print "❌ Missing env vars. Set GAINSIGHT_DOMAIN and GAINSIGHT_ACCESS_KEY." ;;
    sys_exit 1
  else if missing user_email then
    print "❌ Missing user email. Provide --user-email or set GAINSIGHT_USER_EMAIL." ;;
    sys_exit 1
  else
    print "👤 Timeline Activity Viewer (READ-ONLY)" ;;
    print ("🌐 Domain: " ++ the domain) ;;
    print ("🧑 User: " ++ the user_email) ;;
    print (str_repeat "=" 60) ;;
    data <- safe_timeline_query
              (the domain) (the access_key) (the user_email) (limit a) ;;
    (if truthy data then
       (if debug a then
          print "📝 Raw JSON:" ;;
          print (json_dumps_indent2 data) ;;
          print (nl ++ str_repeat "=" 80)
        else ret tt) ;;
       formatted <- lift (format_timeline_data data) ;;
       print formatted ;;
       print (str_repeat "-" 40) ;;
       print "✅ Successfully accessed Timeline API!"
     else
       print "❌ Timeline API not accessible" ;;
       print "💡 Possible reasons:" ;;
       print "   • Timeline features not enabled on your instance" ;;
       print "   • API key lacks Timeline read permissions" ;;
       print "   • No Timeline activities in the system") ;;
    print read_only_banner.

End WithRuntime.

End TimelineViewer.

(** ** company-lookup.py *)
Module CompanyLookup.
Import Py Net.

Definition company_query (company_id : string) : value :=
  PDict
    [("select",
       PList [PStr "Gsid"; PStr "Name"; PStr "Industry"; PStr "ModifiedDate"]);
     ("where",
       PDict
         [("conditions",
            PList
              [PDict [("name", PStr "Gsid"); ("alias", PStr "A");
                      ("value", PList [PStr company_id]);
                      ("operator", PStr "EQ")]]);
          ("expression", PStr "A")]);
     ("limit", PInt 1);
     ("offset", PInt 0)].

Section WithRuntime.
Context `{Runtime}.

Definition lookup_company_by_id (domain access_key company_id : string)
  : M value :=
  let url := (rstrip_char "/" domain
              ++ "/v1/data/objects/query/Company")%string in
  try_request
    (print ("🔍 Looking up company with ID: " ++ company_id) ;;
     resp <- post {| url := url; headers := json_headers access_key;
                     data := company_query company_id;
                     timeout := 15 |} ;;
     if (status_code resp =? 200)%Z then resp_json resp
     else
       print ("   ❌ HTTP " ++ str_of_Z (status_code resp) ++ ": "
              ++ str_take 300 (text resp)) ;;
       ret PNone)
    (fun e =>
       print ("   ❌ Request error: " ++ e) ;;
       ret PNone).

Definition format_company_data (data : value) : result string :=
  if negb (truthy data) then Ret "   No company data available"
  else
    rbind (get data "result" PNone) (fun result_ =>
    if negb (truthy result_) then Ret "   No company data available"
    else
      rbind (get data "data" (PDict [])) (fun data_section =>
      rbind (get data_section "records" (PList [])) (fun companies =>
      if negb (truthy companies) then Ret "   No company found with that ID"
      else
        rbind (index0 companies) (fun company =>
        rbind (get company "Name" (PStr "Unknown Company")) (fun name =>
        rbind (get company "Industry" (PStr "No industry")) (fun industry =>
        rbind (get company "Gsid" (PStr "Unknown ID")) (fun gsid =>
        Ret ("   ✅ Company found:" ++ nl
             ++ "   📊 Name: " ++ to_str name ++ nl
             ++ "   🏭 Industry: " ++ to_str industry ++ nl
             ++ "   🆔 Gsid: " ++ to_str gsid)%string))))))).

(** The parsed command line of [company-lookup.py]. *)
Record args : Type := {
  company_id : option string
}.

(** The literal of the last [print], stored on lines 112-113 with a
    line feed after its opening quote, read as a newline and the text. *)
Definition read_only_banner : string :=
  (nl ++ "🛡️  100% READ-ONLY: No data was modified, only viewed")%string.

(** [main] from the statement after [parser.parse_args()] on (lines
    79-113), with the parsed options as [a]; the parsing is
    [Stored.parse_args].  The literal of the print on lines 112-113 is
    stored with a line feed after the opening quote and read as starting
    with a newline. *)
Definition main (env : environ) (a : args) : M unit :=
  let domain := env "GAINSIGHT_DOMAIN" in
  let access_key := env "GAINSIGHT_ACCESS_KEY" in
  let company_id := opt_or (company_id a) (env "GAINSIGHT_COMPANY_ID") in
  if missing domain || missing access_key then
    print "❌ Missing env vars. Set GAINSIGHT_DOMAIN and GAINSIGHT_ACCESS_KEY." ;;
    sys_exit 1
  else if missing company_id then
    print "❌ Missing company ID. Provide --company-id or set GAINSIGHT_COMPANY_ID." ;;
    sys_exit 1
  else
    print "🏢 Company Name Lookup (READ-ONLY)" ;;
    print ("🌐 Domain: " ++ the domain) ;;
    print ("🆔 Target Company ID: " ++ the company_id) ;;
    print "📖 Endpoint: v1/data/objects/query/Company" ;;
    print (str_repeat "=" 60) ;;
    data <- lookup_company_by_id
              (the domain) (the access_key) (the company_id) ;;
    (if truthy data then
       print "🎯 Result:" ;;
       formatted <- lift (format_company_data data) ;;
       print formatted ;;
       print (str_repeat "-" 40) ;;
       print "✅ Company lookup completed!"
     else
       print "❌ Company lookup failed" ;;
       print "💡 Possible reasons:" ;;
       print "   • Company ID doesn't exist" ;;
       print "   • API key lacks Company read permissions" ;;
       print "   • Company object not accessible") ;;
    print read_only_banner.

End WithRuntime.

End CompanyLookup.

(** ** gainsight-api-hello-world.py *)
Module HelloWorld.
Import Py Net.

Definition body : value :=
  PDict
    [("includeTotal", PBool true);
     ("limit", PInt 1);
     ("page", PInt 0);
     ("orderBy", PDict [("ModifiedDate", PStr "desc")]);
     ("select",
       PList [PStr "Name"; PStr "Email"; PStr "SFDCUserName";
              PStr "LicenseType"; PStr "ModifiedDate"])].

Section WithRuntime.
Context `{Runtime}.

Definition main (env : environ) : M unit :=
  let domain := env "GAINSIGHT_DOMAIN" in
  let access_key := env "GAINSIGHT_ACCESS_KEY" in
  if missing domain || missing access_key then
    print "Missing env vars. Set GAINSIGHT_DOMAIN and GAINSIGHT_ACCESS_KEY." ;;
    sys_exit 1
  else
    let url := (rstrip_char "/" (the domain)
                ++ "/v1/users/services/list")%string in
    try_request
      (resp <- post {| url := url;
                       headers := json_headers (the access_key);
                       data := body; timeout := 20 |} ;;
       print ("HTTP " ++ str_of_Z (status_code resp)) ;;
       try_exception
         (v <- resp_json resp ;; print (json_dumps_indent2 v))
         (print (text resp)) ;;
       raise_for_status url resp ;;
       print (nl ++ "✅ API key looks valid and endpoint reachable."))
      (fun e =>
         print (nl ++ "❌ Request failed.") ;;
         print e).

End WithRuntime.

End HelloWorld.

(** ** The files as stored, and the command line *)
Module Stored.
Import Py Net.

(** The double quote, which a Rocq string does not hold as typed. *)
Definition dq : string := String "034"%char EmptyString.

Definition is_quote (a : ascii) : bool :=
  Ascii.eqb a "034"%char || Ascii.eqb a "'"%char.

(** The quote [a] is followed by two more of its kind: a triple-quoted
    literal opens, which may run over several lines. *)
Definition triple (a : ascii) (rest : string) : bool :=
  match rest with
  | String b (String c _) => Ascii.eqb b a && Ascii.eqb c a
  | _ => false
  end.

(** Python's tokenizer along one physical line: [Some q] while a
    literal opened by the quote [q] is open.  Outside a literal a '#'
    ends the line; inside one a backslash takes the next character with
    it, and at the end of the line it continues the literal on the next
    line.  The scan stops where a triple-quoted literal opens. *)
Fixpoint scan (q : option ascii) (s : string) : option ascii :=
  match s with
  | EmptyString => q
  | String a s' =>
      match q with
      | Some c =>
          if Ascii.eqb a "\"%char then
            match s' with
            | EmptyString => None
            | String _ s'' => scan q s''
            end
          else if Ascii.eqb a c then scan None s'
          else scan q s'
      | None =>
          if Ascii.eqb a "#"%char then None
          else if is_quote a then
            if triple a s' then None else scan (Some a) s'
          else scan None s'
      end
  end.

(** The line ends inside a literal it opened: "unterminated string
    literal". *)
Definition unterminated (line : string) : bool :=
  match scan None line with
  | Some _ => true
  | None => false
  end.

(** The lines of each file, outside its triple-quoted literals, that end
    inside a literal they open, with their numbers.  In each case the
    text of the literal and its closing quote stand on the next line: a
    line feed is stored where the statement has a newline to print or to
    join with.  The four files hold no backslash. *)
Definition contacts_lookup_lines : list (nat * string) :=
  [(129%nat, ("    return " ++ dq)%string);
   (161%nat, ("        print(" ++ dq)%string);
   (175%nat, ("    print(" ++ dq)%string)].

Definition csm_dashboard_lines : list (nat * string) :=
  [(198%nat, ("    return " ++ dq)%string);
   (226%nat, ("    print(" ++ dq)%string);
   (236%nat, ("    print(" ++ dq)%string);
   (246%nat, ("    print(" ++ dq)%string);
   (251%nat, ("        print(f" ++ dq)%string);
   (294%nat, ("    print(" ++ dq)%string);
   (300%nat, ("        print(f" ++ dq)%string);
   (325%nat, ("    print(" ++ dq)%string)].

Definition timeline_viewer_lines : list (nat * string) :=
  [(105%nat, ("    return " ++ dq)%string);
   (138%nat, ("            print(" ++ dq)%string);
   (151%nat, ("    print(" ++ dq)%string)].

Definition company_lookup_lines : list (nat * string) :=
  [(112%nat, ("    print(" ++ dq)%string)].

(** Python compiles a file whole before it runs its first statement,
    and one unterminated literal is enough for it to refuse the file. *)
Definition loads (lines : list (nat * string)) : bool :=
  negb (existsb (fun l => unterminated (snd l)) lines).

(** [python file.py]: the body runs if the file loads; otherwise the
    [SyntaxError] ends the process, an ordinary exception that nothing
    catches, with nothing on the console and status 1. *)
Definition run_file {A} (lines : list (nat * string)) (body : M A) : M A :=
  if loads lines then body else raise OtherException.

(** What [parser.parse_args()] makes of the command line: it prints the
    help and leaves with status 0 (--help), rejects the line and leaves
    with status 2 after a message on stderr, or returns the parsed
    options. *)
Inductive command_line (args : Type) : Type :=
| Help (text : string)
| Rejected
| Parsed (a : args).

Arguments Help {args} text.
Arguments Rejected {args}.
Arguments Parsed {args} a.

Definition parse_args {args : Type} (c : command_line args) : M args :=
  match c with
  | Help text => bind (print text) (fun _ => sys_exit 0)
  | Rejected => sys_exit 2
  | Parsed a => ret a
  end.

Section WithRuntime.
Context `{Runtime}.

(** The four scripts as the files stand: [main()] under
    [if __name__ == "__main__"], which parses the command line first. *)
Definition contacts_lookup (fuel : nat) (env : environ)
           (c : command_line ContactsLookup.args) : M unit :=
  run_file contacts_lookup_lines
           (bind (parse_args c) (ContactsLookup.main fuel env)).

Definition csm_dashboard (env : environ)
           (c : command_line CsmDashboard.args) : M unit :=
  run_file csm_dashboard_lines
           (bind (parse_args c) (CsmDashboard.main env)).

Definition timeline_viewer (env : environ)
           (c : command_line TimelineViewer.args) : M unit :=
  run_file timeline_viewer_lines
           (bind (parse_args c) (TimelineViewer.main env)).

Definition company_lookup (env : environ)
           (c : command_line CompanyLookup.args) : M unit :=
  run_file company_lookup_lines
           (bind (parse_args c) (CompanyLookup.main env)).

End WithRuntime.

End Stored.

(** ** Services and environments the statements are about *)
Module Service.
Import Py Net.

(** The integer a request's query holds under [k] ([limit], [offset]). *)
Definition query_field (k : string) (rq : request) : Z :=
  match data rq with
  | PDict kv => match lookup k kv with Some (PInt z) => z | _ => 0%Z end
  | _ => 0%Z
  end.

(** The records [offset, offset + limit) of a collection. *)
Definition window (db : list value) (offset limit : Z) : list value :=
  firstn (Z.to_nat limit) (skipn (Z.to_nat offset) db).

(** The documented success body: [{result: true, data: {records: page}}]. *)
Definition success_body (page : list value) : value :=
  PDict [("result", PBool true); ("data", PDict [("records", PList page)])].

(** The reply [a] is a 200 whose body carries [page]. *)
Definition carries (a : reply) (page : list value) : Prop :=
  exists r, a = Replied r /\ status_code r = 200%Z
            /\ json r = Some (success_body page).

(** A service that holds the records [db] and answers every query with
    the window its [offset] and [limit] select. *)
Definition serves (srv : nat -> request -> reply) (db : list value) : Prop :=
  forall k rq,
    carries (srv k rq)
            (window db (query_field "offset" rq) (query_field "limit" rq)).

Definition paged_service (db : list value) : nat -> request -> reply :=
  fun _ rq =>
    Replied {| status_code := 200; text := EmptyString;
               json := Some (success_body
                               (window db (query_field "offset" rq)
                                       (query_field "limit" rq))) |}.

(** The other shape the scripts accept: [{result: true, data: page}]. *)
Definition bare_body (page : list value) : value :=
  PDict [("result", PBool true); ("data", PList page)].

(** The count a counting structure holds for [k], 0 when absent. *)
Fixpoint count_of (k : string) (c : list (string * nat)) : nat :=
  match c with
  | [] => 0%nat
  | (k', n) :: rest => if String.eqb k' k then n else count_of k rest
  end.

(** The first 50 characters and "..." for a text of 50 characters or more,
    the text itself when it is shorter. *)
Definition summary_form (s : string) : string :=
  if (50 <=? String.length s)%nat then (str_take 50 s ++ "...")%string else s.

(** Activities with a subject of exactly 50 and of 51 characters. *)
Definition subject50 : string :=
  "Quarterly business review with the platform team 1".

Definition subject51 : string :=
  "Quarterly business review with the platform team 12".

Definition activity_of (subject : string) : list (string * value) :=
  [("Gsid", PStr "1I0054U9FAKXZ0H26HO92M3F"); ("Subject", PStr subject);
   ("contextname", PStr "Company"); ("GsCompanyId", PStr "1P02A8QY")].

(** The domain of an address as the specification reads it: the text
    after the '@', lower-cased. *)
Definition domain_after_at (email : string) : option string :=
  match split_first "@" email with
  | Some (_, d) => Some (lower d)
  | None => None
  end.

(** The record [c] holds the address [email]. *)
Definition has_email (c : value) (email : string) : Prop :=
  exists kv, c = PDict kv /\ lookup "Person_ID__gr.Email" kv = Some (PStr email).

(** A contact with the given email address. *)
Definition contact_of (email : string) : value :=
  PDict [("Person_ID__gr.Email", PStr email)].

(** The replies the paginated fetcher treats as a failed fetch: a status
    other than 200; a body whose [result] is false (or null, or
    missing); a body whose [data] is neither a mapping with [records]
    nor a list. *)
Definition is_records_mapping (d : value) : bool :=
  match d with PDict kv => has_key "records" kv | _ => false end.

Definition is_list (d : value) : bool :=
  match d with PList _ => true | _ => false end.

Inductive bad_reply : reply -> Prop :=
| bad_status (r : response) :
    status_code r <> 200%Z -> bad_reply (Replied r)
| bad_result (r : response) (kv : list (string * value)) :
    status_code r = 200%Z ->
    json r = Some (PDict kv) ->
    truthy (match lookup "result" kv with Some v => v | None => PNone end)
    = false ->
    bad_reply (Replied r)
| bad_data (r : response) (kv : list (string * value)) (d : value) :
    status_code r = 200%Z ->
    json r = Some (PDict kv) ->
    lookup "data" kv = Some d ->
    is_records_mapping d = false ->
    is_list d = false ->
    bad_reply (Replied r).

(** The service answers the next call of the world [w] with [a],
    whatever is asked. *)
Definition next_reply (w : world) (a : reply) : Prop :=
  forall rq, remote w (List.length (calls w)) rq = a.

(** The replies the scripts treat as a failed remote call: a transport
    error, or a response whose status is not 200. *)
Definition failed_call (a : reply) : Prop :=
  (exists msg, a = Failed msg)
  \/ (exists r, a = Replied r /\ status_code r <> 200%Z).

(** The configuration each script requires before it calls the
    service. *)
Definition has_var (env : environ) (k : string) : bool :=
  negb (missing (env k)).

Definition has_keys (env : environ) : bool :=
  has_var env "GAINSIGHT_DOMAIN" && has_var env "GAINSIGHT_ACCESS_KEY".

Definition contacts_config (env : environ) (a : ContactsLookup.args) : bool :=
  has_keys env
  && negb (missing (opt_or (ContactsLookup.company_id a)
                           (env "GAINSIGHT_COMPANY_ID"))).

Definition timeline_config (env : environ) (a : TimelineViewer.args) : bool :=
  has_keys env
  && negb (missing (opt_or (TimelineViewer.user_email a)
                           (env "GAINSIGHT_USER_EMAIL"))).

(** Every page but the last holds [p] records, the last one fewer. *)
Fixpoint short_terminated (p : nat) (pages : list (list value)) : Prop :=
  match pages with
  | [] => False
  | [pg] => (List.length pg < p)%nat
  | pg :: rest => List.length pg = p /\ short_terminated p rest
  end.

(** The ceiling of [m / n]. *)
Definition ceil_div (m n : Z) : Z := ((m + n - 1) / n)%Z.

(** Example data: three and four records. *)
Definition record_of (id : string) : value := PDict [("Gsid", PStr id)].

Definition three_records : list value :=
  [record_of "c1"; record_of "c2"; record_of "c3"].

Definition four_records : list value :=
  [record_of "c1"; record_of "c2"; record_of "c3"; record_of "c4"].

(** A service that delivers one full page of 1000 records and then
    fails with a status 500. *)
Definition full_page : list value := repeat (record_of "c") 1000.

Definition flaky_service : nat -> request -> reply :=
  fun k _ =>
    match k with
    | O => Replied {| status_code := 200; text := EmptyString;
                      json := Some (success_body full_page) |}
    | _ => Replied {| status_code := 500; text := "Internal Server Error";
                      json := None |}
    end.

(** A service that delivers one full page and then drops the
    connection. *)
Definition dropping_service : nat -> request -> reply :=
  fun k _ =>
    match k with
    | O => Replied {| status_code := 200; text := EmptyString;
                      json := Some (success_body full_page) |}
    | _ => Failed "Connection aborted."
    end.

(** A service that answers every call with the same reply. *)
Definition always (a : reply) : nat -> request -> reply := fun _ _ => a.

(** An environment holding the given variables. *)
Fixpoint env_of (vars : list (string * string)) : environ :=
  fun k =>
    match vars with
    | [] => None
    | (k', v) :: rest => if String.eqb k' k then Some v else env_of rest k
    end.

(** A complete configuration for the examples. *)
Definition demo_env : environ :=
  env_of [("GAINSIGHT_DOMAIN", "https://demo.example.com/");
          ("GAINSIGHT_ACCESS_KEY", "key");
          ("GAINSIGHT_COMPANY_ID", "1P02A8QY");
          ("GAINSIGHT_USER_EMAIL", "csm@example.com")].

Definition contacts_args : ContactsLookup.args :=
  {| ContactsLookup.company_id := None; ContactsLookup.company_name := None |}.

Definition dashboard_args : CsmDashboard.args :=
  {| CsmDashboard.user_email := None; CsmDashboard.limit := 3 |}.

Definition timeline_args : TimelineViewer.args :=
  {| TimelineViewer.user_email := None; TimelineViewer.limit := 3;
     TimelineViewer.debug := false |}.

Definition company_args : CompanyLookup.args :=
  {| CompanyLookup.company_id := None |}.

Definition not_found : response :=
  {| status_code := 404; text := "Not Found"; json := None |}.

(** A runtime for the examples. *)
Definition plain_runtime : Runtime :=
  {| repr_other := fun _ => "<object>";
     json_dumps_indent2 := fun _ => "<json>";
     iso_to_minute := fun _ => None;
     json_decode_error := Some "Expecting value";
     http_error_text := fun status url =>
       (str_of_Z status ++ " Error for url: " ++ url)%string |}.

End Service.

(** ** What a computation lets out, and services that fail later *)
Module Behaviour.
Import Py Net Service.

Definition is_exit (e : exn) : bool :=
  match e with SystemExit _ => true | _ => false end.

Definition is_request (e : exn) : bool :=
  match e with RequestException _ => true | _ => false end.

(** [SystemExit] and [RequestException]: what a fetch function must not
    let out. *)
Definition caught (e : exn) : bool := is_exit e || is_request e.

(** The outcome is an exception of the kind [bad]. *)
Definition escapes {A} (bad : exn -> bool) (r : result A) : bool :=
  match r with Raise e => bad e | _ => false end.

(** No run of [m] ends on an exception of the kind [bad]. *)
Definition never {A} (bad : exn -> bool) (m : M A) : Prop :=
  forall w, escapes bad (fst (m w)) = false.

(** A pure outcome other than a value or an ordinary exception. *)
Definition wild {A} (r : result A) : bool :=
  match r with
  | Ret _ => false
  | Raise OtherException => false
  | _ => true
  end.

(** The sum of the counts of a counting structure. *)
Definition total (c : list (string * nat)) : nat :=
  fold_right (fun p n => (snd p + n)%nat) 0%nat c.

(** A computation that sends the request [rq], once, and nothing
    else. *)
Definition one_call {A} (rq : request) (m : M A) : Prop :=
  forall w,
    remote (snd (m w)) = remote w
    /\ calls (snd (m w))
       = calls w ++ [(rq, remote w (List.length (calls w)) rq)].

(** A computation that prints nothing. *)
Definition silent {A} (m : M A) : Prop :=
  forall w, stdout (snd (m w)) = stdout w.

(** The replies [raise_for_status] lets through. *)
Definition passes (a : reply) : bool :=
  match a with
  | Failed _ => false
  | Replied r => negb ((400 <=? status_code r) && (status_code r <? 600))%Z
  end.

(** No element of the list is equal, under [==], to an earlier one. *)
Fixpoint distinct_values (l : list value) : bool :=
  match l with
  | [] => true
  | x :: rest => forallb (fun y => negb (py_eq y x)) rest && distinct_values rest
  end.

(** The domain [extract_email_domains] counts for an address: the text
    between the first '@' and the next one (or the end), lower-cased;
    none for an address without '@'. *)
Definition email_domain (email : string) : option string :=
  match split_first "@" email with
  | Some (_, rest) =>
      Some (lower (match split_first "@" rest with
                   | Some (d, _) => d
                   | None => rest
                   end))
  | None => None
  end.

Definition domains_of (emails : list string) : list string :=
  flat_map (fun e => match email_domain e with
                     | Some d => [d]
                     | None => []
                     end) emails.

(** The field [k] of a record holds a string, or is missing. *)
Definition str_or_absent (k : string) (kv : list (string * value)) : bool :=
  match lookup k kv with
  | None | Some (PStr _) => true
  | _ => false
  end.

(** The field [k] of a record holds a string or null, or is missing. *)
Definition str_or_null (k : string) (kv : list (string * value)) : bool :=
  match lookup k kv with
  | None | Some PNone | Some (PStr _) => true
  | _ => false
  end.

(** The records each presenter handles without raising. *)
Definition viewer_record (activity : value) : bool :=
  match activity with
  | PDict kv => str_or_null "Subject" kv && str_or_absent "Gsid" kv
  | _ => false
  end.

Definition summary_record (activity : value) : bool :=
  match activity with
  | PDict kv => str_or_absent "Subject" kv
  | _ => false
  end.

Definition contact_record (contact : value) : bool :=
  match contact with
  | PDict kv => str_or_null "Person_ID__gr.Email" kv
  | _ => false
  end.

(** Two environments that agree on every variable but the two an option
    of the command line can replace. *)
Definition same_but_options (env env' : environ) : Prop :=
  forall k,
    k <> "GAINSIGHT_COMPANY_ID" -> k <> "GAINSIGHT_USER_EMAIL" ->
    env k = env' k.

(** Two environments that agree on every variable but GAINSIGHT_REDACT. *)
Definition same_but_redact (env env' : environ) : Prop :=
  forall k, k <> "GAINSIGHT_REDACT" -> env k = env' k.

(** The environment [env] with GAINSIGHT_REDACT set to [v]. *)
Definition with_redact (v : string) (env : environ) : environ :=
  fun k => if String.eqb k "GAINSIGHT_REDACT" then Some v else env k.

End Behaviour.

(** * Part II: properties *)

(** ** Loops that gather lines *)
Module Lines.
Import Py Net.

(** The lines a loop gathers split around those of its [j]-th item. *)
Lemma for_lines_split {A} (body : nat -> A -> result (list string)) :
  forall (xs : list A) (i0 j : nat) (x : A) (ls : list string),
    nth_error xs j = Some x ->
    for_lines body i0 xs = Ret ls ->
    exists pre l post,
      for_lines body i0 (firstn j xs) = Ret pre
      /\ body (i0 + j)%nat x = Ret l
      /\ for_lines body (i0 + S j)%nat (skipn (S j) xs) = Ret post
      /\ ls = pre ++ l ++ post.
Proof.
  induction xs as [| y xs IH]; intros i0 j x ls Hnth Hrun.
  - destruct j; discriminate Hnth.
  - cbn [for_lines] in Hrun.
    destruct (body i0 y) as [l0 | |] eqn:Hy; try discriminate Hrun.
    cbn [rbind] in Hrun.
    destruct (for_lines body (S i0) xs) as [more | |] eqn:Hmore;
      try discriminate Hrun.
    cbn [rbind] in Hrun. injection Hrun as <-.
    destruct j as [| j].
    + injection Hnth as ->. exists [], l0, more.
      rewrite Nat.add_0_r, Nat.add_1_r. cbn [firstn skipn for_lines app].
      repeat split; assumption.
    + cbn [nth_error] in Hnth.
      destruct (IH (S i0) j x more Hnth Hmore)
        as (pre & l & post & Hpre & Hl & Hpost & ->).
      exists (l0 ++ pre), l, post.
      cbn [firstn skipn for_lines]. rewrite Hy, Hpre. cbn [rbind].
      replace (i0 + S j)%nat with (S i0 + j)%nat by lia.
      replace (i0 + S (S j))%nat with (S i0 + S j)%nat by lia.
      repeat split; try assumption. now rewrite <- app_assoc.
Qed.

(** A loop whose body always yields [k] lines yields [k] lines per item. *)
Lemma for_lines_length {A} (body : nat -> A -> result (list string)) (k : nat) :
  (forall i x l, body i x = Ret l -> List.length l = k) ->
  forall (xs : list A) (i0 : nat) (ls : list string),
    for_lines body i0 xs = Ret ls ->
    List.length ls = (k * List.length xs)%nat.
Proof.
  intros Hk. induction xs as [| y xs IH]; intros i0 ls Hrun.
  - injection Hrun as <-. cbn. lia.
  - cbn [for_lines] in Hrun.
    destruct (body i0 y) as [l0 | |] eqn:Hy; try discriminate Hrun.
    cbn [rbind] in Hrun.
    destruct (for_lines body (S i0) xs) as [more | |] eqn:Hmore;
      try discriminate Hrun.
    injection Hrun as <-.
    rewrite length_app, (Hk _ _ _ Hy), (IH _ _ Hmore). cbn [List.length]. lia.
Qed.

Lemma length_str_take (n : nat) (s : string) :
  String.length (str_take n s) = Nat.min n (String.length s).
Proof.
  revert s. induction n as [| n IH]; intros [| a s]; cbn; try reflexivity.
  now rewrite IH.
Qed.

Lemma str_take_all (n : nat) (s : string) :
  (String.length s <= n)%nat -> str_take n s = s.
Proof.
  revert s. induction n as [| n IH]; intros [| a s]; cbn; intros Hle;
    try reflexivity; try lia.
  rewrite IH; [reflexivity | lia].
Qed.

End Lines.

(** ** The paginated fetcher *)
Module Pagination.
Import Py Net Service ContactsLookup.

Lemma ceil_div_calls (m n : Z) :
  (0 < n)%Z -> (0 <= m)%Z ->
  (ceil_div m n + (if (m mod n =? 0)%Z then 1 else 0) = m / n + 1)%Z.
Proof.
  intros Hn Hm. unfold ceil_div.
  pose proof (Z.div_mod m n) as E.
  pose proof (Z.mod_pos_bound m n Hn) as B.
  destruct (Z.eqb_spec (m mod n) 0) as [Z0 | NZ].
  - assert ((m + n - 1) / n = m / n)%Z as ->; [| lia].
    symmetry. apply Z.div_unique with (r := (n - 1)%Z); lia.
  - assert ((m + n - 1) / n = m / n + 1)%Z as ->; [| lia].
    symmetry. apply Z.div_unique with (r := (m mod n - 1)%Z); lia.
Qed.

Lemma short_terminated_count (p : nat) (pages : list (list value)) :
  (0 < p)%nat -> short_terminated p pages ->
  List.length pages = S (List.length (concat pages) / p).
Proof.
  intros Hp. induction pages as [| pg rest IH]; [intros [] |].
  destruct rest as [| pg' rest'].
  - cbn. intros Hlt. rewrite app_nil_r, Nat.div_small; [reflexivity | exact Hlt].
  - intros [Hfull Hrest]. specialize (IH Hrest).
    change (concat (pg :: pg' :: rest')) with (pg ++ concat (pg' :: rest')).
    rewrite length_app, Hfull.
    change (List.length (pg :: pg' :: rest')) with (S (List.length (pg' :: rest'))).
    rewrite IH. f_equal.
    replace (p + List.length (concat (pg' :: rest')))%nat
      with (List.length (concat (pg' :: rest')) + 1 * p)%nat by lia.
    rewrite Nat.div_add by lia. lia.
Qed.

Section WithRuntime.
Context `{Runtime}.

(** One turn of the loop on a reply that carries a page. *)
Lemma fetch_page_carries url hd gsid limit offset contacts w page :
  carries (remote w (List.length (calls w))
                  (page_request url hd gsid limit offset)) page ->
  exists w',
    fetch_page url hd gsid limit offset contacts w
    = (Ret (if (Z.of_nat (List.length page) <? limit)%Z
            then Break (contacts ++ page)
            else Continue (contacts ++ page)), w')
    /\ remote w' = remote w
    /\ calls w' = calls w ++ [(page_request url hd gsid limit offset,
                               remote w (List.length (calls w))
                                      (page_request url hd gsid limit offset))].
Proof.
  intros (r & Ha & Hs & Hj).
  unfold fetch_page, try_request, bind, print, post, resp_json, lift, ret.
  cbn [remote calls stdout].
  rewrite Ha, Hs, Hj. cbn.
  destruct (Z.of_nat (List.length page) <? limit)%Z;
    eexists; (split; [reflexivity | split; reflexivity]).
Qed.

Lemma page_request_offset url hd gsid limit offset :
  query_field "offset" (page_request url hd gsid limit offset) = offset.
Proof. reflexivity. Qed.

Lemma page_request_limit url hd gsid limit offset :
  query_field "limit" (page_request url hd gsid limit offset) = limit.
Proof. reflexivity. Qed.

Lemma offsets_step (o p n : nat) :
  Z.of_nat o :: map (fun i => Z.of_nat (o + p + i * p)) (seq 0 n)
  = map (fun i => Z.of_nat (o + i * p)) (seq 0 (S n)).
Proof.
  cbn [seq map]. f_equal; [f_equal; lia |].
  rewrite <- seq_shift, map_map.
  apply map_ext. intros i. f_equal. lia.
Qed.

(** The loop against a service that holds [db], entered at the record
    [o] with [contacts] gathered so far: it ends with the remaining
    records appended, after one call per page. *)
Lemma fetch_loop_serves url hd gsid (p : nat) (db : list value) :
  (0 < p)%nat ->
  forall fuel o contacts w,
    serves (remote w) db ->
    (o <= List.length db)%nat ->
    ((List.length db - o) / p < fuel)%nat ->
    exists w' pages newcalls,
      fetch_loop fuel url hd gsid (Z.of_nat p) (Z.of_nat o) contacts w
      = (Ret (Some (contacts ++ skipn o db)), w')
      /\ remote w' = remote w
      /\ calls w' = calls w ++ newcalls
      /\ concat pages = skipn o db
      /\ short_terminated p pages
      /\ Forall2 (fun c pg => carries (snd c) pg) newcalls pages
      /\ map (fun c => query_field "offset" (fst c)) newcalls
         = map (fun i => Z.of_nat (o + i * p)) (seq 0 (List.length pages)).
Proof.
  intros Hp. induction fuel as [| fuel IH]; intros o contacts w Hsrv Ho Hfuel;
    [lia |].
  set (rq := page_request url hd gsid (Z.of_nat p) (Z.of_nat o)).
  set (page := firstn p (skipn o db)).
  assert (carries (remote w (List.length (calls w)) rq) page) as Hc.
  { pose proof (Hsrv (List.length (calls w)) rq) as Hc.
    unfold rq in Hc at 2 3.
    rewrite page_request_offset, page_request_limit in Hc.
    unfold window in Hc. rewrite !Nat2Z.id in Hc. exact Hc. }
  destruct (fetch_page_carries url hd gsid (Z.of_nat p) (Z.of_nat o)
                               contacts w page Hc)
    as (w1 & Hrun & Hrem & Hcalls).
  fold rq in Hcalls.
  cbn [fetch_loop]. unfold bind at 1. rewrite Hrun.
  assert (List.length (skipn o db) = List.length db - o)%nat as Hlen
      by apply length_skipn.
  destruct (Z.ltb_spec (Z.of_nat (List.length page)) (Z.of_nat p)) as [Hshort | Hfull].
  - (* a short page: the loop breaks *)
    assert (page = skipn o db) as Hpage.
    { unfold page. apply firstn_all2.
      unfold page in Hshort. rewrite length_firstn in Hshort. lia. }
    exists w1, [page], [(rq, remote w (List.length (calls w)) rq)].
    repeat split.
    + unfold ret. now rewrite Hpage.
    + exact Hrem.
    + exact Hcalls.
    + cbn. now rewrite app_nil_r.
    + cbn. lia.
    + constructor; [exact Hc | constructor].
    + cbn. do 2 f_equal. lia.
  - (* a full page: the loop goes on at [o + p] *)
    assert (List.length page = p) as Hp_len.
    { unfold page in *. rewrite length_firstn in *. lia. }
    assert (o + p <= List.length db)%nat as Ho'.
    { unfold page in Hp_len. rewrite length_firstn in Hp_len. lia. }
    assert (((List.length db - (o + p)) / p < fuel)%nat) as Hfuel'.
    { replace (List.length db - o)%nat
        with ((List.length db - (o + p)) + 1 * p)%nat in Hfuel by lia.
      rewrite Nat.div_add in Hfuel by lia. lia. }
    assert (serves (remote w1) db) as Hsrv1 by (now rewrite Hrem).
    replace (Z.of_nat o + Z.of_nat p)%Z with (Z.of_nat (o + p)) by lia.
    destruct (IH (o + p)%nat (contacts ++ page) w1 Hsrv1 Ho' Hfuel')
      as (w2 & pages & newcalls & Hrun2 & Hrem2 & Hcalls2 & Hcat & Hst & Hf2 & Hoff).
    assert (skipn o db = page ++ skipn (o + p) db) as Hsplit.
    { unfold page. rewrite Nat.add_comm, <- skipn_skipn.
      symmetry. apply firstn_skipn. }
    exists w2, (page :: pages), ((rq, remote w (List.length (calls w)) rq) :: newcalls).
    repeat split.
    + rewrite Hrun2, Hsplit. now rewrite <- app_assoc.
    + now rewrite Hrem2.
    + rewrite Hcalls2, Hcalls. now rewrite <- app_assoc.
    + cbn [concat]. now rewrite Hcat.
    + destruct pages as [| pg rest]; [destruct Hst |].
      split; [exact Hp_len | exact Hst].
    + constructor; [exact Hc | exact Hf2].
    + cbn [map fst List.length]. rewrite Hoff.
      unfold rq at 1. rewrite page_request_offset.
      apply offsets_step.
Qed.

(** C1.  Against a service that holds M = [length db] records and
    answers each query with the window its offset and limit select,
    and for every page size N > 0, the paginated fetcher run with
    enough fuel returns exactly the M records in the service's order.
    It makes ceil(M/N) + (1 if N divides M else 0) calls, at the
    offsets 0, N, 2N, ...; the replies carry pages that are all full
    except the last, which is the first short one, and whose
    concatenation is the result.  Whatever else a service does, an
    empty first page ends the fetch after one call with the empty
    list, not with the failure value. *)
Theorem fetch_contacts_paged_complete
        (N : Z) (db : list value) (srv : nat -> request -> reply)
        (fuel : nat) (domain access_key company_gsid : string) :
  (0 < N)%Z ->
  serves srv db ->
  (List.length db / Z.to_nat N < fuel)%nat ->
  (exists w pages,
      fetch_contacts_paged fuel N domain access_key company_gsid (boot srv)
      = (Ret (Some db), w)
      /\ Z.of_nat (List.length (calls w))
         = (ceil_div (Z.of_nat (List.length db)) N
            + (if (Z.of_nat (List.length db) mod N =? 0)%Z then 1 else 0))%Z
      /\ map (fun c => query_field "offset" (fst c)) (calls w)
         = map (fun i => (Z.of_nat i * N)%Z) (seq 0 (List.length (calls w)))
      /\ Forall2 (fun c pg => carries (snd c) pg) (calls w) pages
      /\ short_terminated (Z.to_nat N) pages
      /\ concat pages = db)
  /\ (forall srv0,
         carries (srv0 0%nat (page_request (contacts_url domain)
                                          (json_headers access_key)
                                          company_gsid N 0)) [] ->
         exists w,
           fetch_contacts_paged fuel N domain access_key company_gsid
                                (boot srv0)
           = (Ret (Some []), w)
           /\ List.length (calls w) = 1%nat).
Proof.
  intros HN Hsrv Hfuel.
  set (p := Z.to_nat N).
  assert (0 < p)%nat as Hp by (unfold p; lia).
  assert (N = Z.of_nat p) as HNp by (unfold p; lia).
  split.
  - destruct (fetch_loop_serves (contacts_url domain) (json_headers access_key)
                company_gsid p db Hp fuel 0%nat [] (boot srv) Hsrv
                (Nat.le_0_l _))
      as (w & pages & newcalls & Hrun & _ & Hcalls & Hcat & Hst & Hf2 & Hoff).
    { now rewrite Nat.sub_0_r. }
    cbn [boot calls app skipn] in *.
    exists w, pages. subst newcalls.
    pose proof (Forall2_length Hf2) as Hlen.
    pose proof (short_terminated_count p pages Hp Hst) as Hcount.
    rewrite Hcat in Hcount.
    repeat split.
    + unfold fetch_contacts_paged. rewrite HNp. exact Hrun.
    + rewrite ceil_div_calls by lia.
      rewrite Hlen, Hcount, HNp, Nat2Z.inj_succ, Nat2Z.inj_div. lia.
    + rewrite Hoff, Hlen. apply map_ext. intros i. lia.
    + exact Hf2.
    + exact Hst.
    + exact Hcat.
  - intros srv0 Hempty. destruct fuel as [| fuel']; [lia |].
    destruct (fetch_page_carries (contacts_url domain) (json_headers access_key)
                company_gsid N 0 [] (boot srv0) [] Hempty)
      as (w1 & Hrun & _ & Hcalls).
    exists w1. unfold fetch_contacts_paged. cbn [fetch_loop].
    unfold bind at 1. rewrite Hrun.
    replace (Z.of_nat (List.length (@nil value)) <? N)%Z with true
      by (symmetry; apply Z.ltb_lt; cbn; lia).
    split; [reflexivity |]. now rewrite Hcalls.
Qed.

End WithRuntime.

Lemma paged_service_serves (db : list value) : serves (paged_service db) db.
Proof.
  intros k rq. unfold paged_service, carries.
  eexists. split; [reflexivity |]. split; reflexivity.
Qed.

Section Abort.
Context `{Runtime}.
Variables (url : string) (hd : list (string * string)) (gsid : string)
          (limit : Z).

Ltac run_page :=
  unfold fetch_page, try_request, bind, print, post, resp_json, lift,
    ret, raise;
  cbn [remote calls stdout].

Ltac same_log :=
  first [ split; reflexivity
        | match goal with e : exn |- _ => destruct e; split; reflexivity end ].

(** A turn of the loop makes exactly one call, whatever comes back. *)
Lemma fetch_page_calls offset contacts w :
  let rq := page_request url hd gsid limit offset in
  let a := remote w (List.length (calls w)) rq in
  remote (snd (fetch_page url hd gsid limit offset contacts w)) = remote w
  /\ calls (snd (fetch_page url hd gsid limit offset contacts w))
     = calls w ++ [(rq, a)].
Proof.
  intros rq a. subst rq a. run_page.
  destruct (remote w _ _) as [msg | r]; [split; reflexivity |].
  destruct (status_code r =? 200)%Z; cbn; [| split; reflexivity].
  destruct (json r) as [body |]; cbn;
    [| destruct json_decode_error; split; reflexivity].
  destruct (get body "result" PNone) as [res | e |]; cbn; try same_log.
  destruct (truthy res); cbn.
  - destruct (get body "data" (PList [])) as [raw | e |]; cbn; try same_log.
    destruct (records_of raw) as [records |]; cbn; [| same_log].
    destruct (iter records) as [items | e |]; cbn; try same_log.
    destruct (len records) as [n | e |]; cbn; try same_log.
    destruct (Z.of_nat n <? limit)%Z; same_log.
  - destruct (get body "errorDesc" (PStr "Unknown error")) as [err | e |];
      cbn; same_log.
Qed.

(** A transport error is caught and printed, and the turn returns the
    failure value. *)
Lemma fetch_page_failed offset contacts w msg :
  let rq := page_request url hd gsid limit offset in
  remote w (List.length (calls w)) rq = Failed msg ->
  fetch_page url hd gsid limit offset contacts w
  = (Ret (Return_ None),
     logged w rq (Failed msg)
            [("🔍 Querying contacts (offset: " ++ str_of_Z offset
              ++ ", limit: " ++ str_of_Z limit ++ ")...")%string;
             ("   ❌ Request error: " ++ msg)%string]).
Proof.
  intros rq Ha. subst rq. run_page. rewrite Ha. cbn.
  unfold logged. cbn. now rewrite <- app_assoc.
Qed.

(** A status other than 200 is printed and the turn returns the
    failure value. *)
Lemma fetch_page_status offset contacts w r :
  let rq := page_request url hd gsid limit offset in
  remote w (List.length (calls w)) rq = Replied r ->
  status_code r <> 200%Z ->
  fetch_page url hd gsid limit offset contacts w
  = (Ret (Return_ None),
     logged w rq (Replied r)
            [("🔍 Querying contacts (offset: " ++ str_of_Z offset
              ++ ", limit: " ++ str_of_Z limit ++ ")...")%string;
             ("   ❌ HTTP " ++ str_of_Z (status_code r) ++ ": "
              ++ str_take 300 (text r))%string]).
Proof.
  intros rq Ha Hs. subst rq. run_page. rewrite Ha. cbn.
  apply Z.eqb_neq in Hs. rewrite Hs. cbn.
  unfold logged. cbn. now rewrite <- app_assoc.
Qed.

Lemma records_of_none (d : value) :
  is_records_mapping d = false -> is_list d = false -> records_of d = None.
Proof.
  destruct d; cbn; try reflexivity; try discriminate.
  unfold has_key. destruct (lookup "records" kv); [discriminate | reflexivity].
Qed.

(** A rejected reply makes the turn return the failure value,
    whatever was gathered before. *)
Lemma fetch_page_bad offset contacts w :
  bad_reply (remote w (List.length (calls w))
                    (page_request url hd gsid limit offset)) ->
  fst (fetch_page url hd gsid limit offset contacts w) = Ret (Return_ None).
Proof.
  intros Hbad. inversion Hbad as [r Hs Ha | r kv Hs Hj Hres Ha
                                  | r kv d Hs Hj Hd Hm Hl Ha]; symmetry in Ha.
  - now rewrite (fetch_page_status offset contacts w r Ha Hs).
  - run_page. rewrite Ha, Hs, Hj. cbn. rewrite Hres. cbn.
    destruct (lookup "errorDesc" kv); reflexivity.
  - run_page. rewrite Ha, Hs, Hj. cbn.
    destruct (truthy match lookup "result" kv with
                     | Some v => v | None => PNone end); cbn.
    + rewrite Hd, (records_of_none d Hm Hl). reflexivity.
    + destruct (lookup "errorDesc" kv); reflexivity.
Qed.

Lemma fetch_page_aborting offset contacts w :
  let a := remote w (List.length (calls w))
                  (page_request url hd gsid limit offset) in
  bad_reply a \/ (exists msg, a = Failed msg) ->
  fst (fetch_page url hd gsid limit offset contacts w) = Ret (Return_ None).
Proof.
  intros a [Hbad | [msg Hf]].
  - now apply fetch_page_bad.
  - now rewrite (fetch_page_failed offset contacts w msg Hf).
Qed.

Lemma fetch_loop_S fuel offset contacts w :
  fetch_loop (S fuel) url hd gsid limit offset contacts w
  = match fetch_page url hd gsid limit offset contacts w with
    | (Ret (Return_ v), w1) => (Ret v, w1)
    | (Ret (Break cs), w1) => (Ret (Some cs), w1)
    | (Ret (Continue cs), w1) =>
        fetch_loop fuel url hd gsid limit (offset + limit) cs w1
    | (Raise e, w1) => (Raise e, w1)
    | (OutOfFuel, w1) => (OutOfFuel, w1)
    end.
Proof.
  cbn [fetch_loop]. unfold bind.
  destruct (fetch_page url hd gsid limit offset contacts w)
    as [[[v | cs | cs] | e |] w1]; reflexivity.
Qed.

(** The calls of a run of the loop: a rejected reply or a transport
    error can only be the last of them, and the run then returns the
    failure value. *)
Lemma fetch_loop_abort fuel :
  forall offset contacts w,
  exists newcalls,
    calls (snd (fetch_loop fuel url hd gsid limit offset contacts w))
    = calls w ++ newcalls
    /\ forall pre c post,
         newcalls = pre ++ c :: post ->
         bad_reply (snd c) \/ (exists msg, snd c = Failed msg) ->
         fst (fetch_loop fuel url hd gsid limit offset contacts w)
         = Ret None
         /\ post = [].
Proof.
  induction fuel as [| fuel IH]; intros offset contacts w.
  - exists []. split; [cbn; now rewrite app_nil_r |].
    intros [| x pre] c post E; discriminate E.
  - pose proof (fetch_page_calls offset contacts w) as [Hrem Hcalls].
    pose proof (fetch_page_aborting offset contacts w) as Habort.
    cbn zeta in Hrem, Hcalls, Habort.
    set (rq := page_request url hd gsid limit offset) in *.
    set (a := remote w (List.length (calls w)) rq) in *.
    rewrite fetch_loop_S.
    destruct (fetch_page url hd gsid limit offset contacts w) as [fl w1].
    cbn [fst snd] in *.
    assert (forall pre c post,
               [(rq, a)] = pre ++ c :: post -> pre = [] /\ c = (rq, a) /\ post = [])
      as Hone.
    { intros [| x pre] c post E.
      - injection E as <- <-. now repeat split.
      - destruct pre; discriminate E. }
    destruct fl as [[v | cs | cs] | e |].
    + exists [(rq, a)]. split; [exact Hcalls |].
      intros pre c post E Hc. destruct (Hone pre c post E) as (-> & -> & ->).
      specialize (Habort Hc). injection Habort as ->.
      split; reflexivity.
    + exists [(rq, a)]. split; [exact Hcalls |].
      intros pre c post E Hc. destruct (Hone pre c post E) as (-> & -> & ->).
      specialize (Habort Hc). discriminate Habort.
    + destruct (IH (offset + limit)%Z cs w1) as (more & Hmore & Hlast).
      exists ((rq, a) :: more). split.
      * rewrite Hmore, Hcalls, <- app_assoc. reflexivity.
      * intros [| x pre] c post E Hc.
        -- injection E as <- _. specialize (Habort Hc). discriminate Habort.
        -- injection E as _ E. exact (Hlast pre c post E Hc).
    + exists [(rq, a)]. split; [exact Hcalls |].
      intros pre c post E Hc. destruct (Hone pre c post E) as (-> & -> & ->).
      specialize (Habort Hc). discriminate Habort.
    + exists [(rq, a)]. split; [exact Hcalls |].
      intros pre c post E Hc. destruct (Hone pre c post E) as (-> & -> & ->).
      specialize (Habort Hc). discriminate Habort.
Qed.

(** When the last call of a run met a transport error, the last line
    printed reports it. *)
Lemma fetch_loop_failed fuel :
  forall offset contacts w,
  exists newcalls,
    calls (snd (fetch_loop fuel url hd gsid limit offset contacts w))
    = calls w ++ newcalls
    /\ forall pre c msg,
         newcalls = pre ++ [c] ->
         snd c = Failed msg ->
         exists out,
           stdout (snd (fetch_loop fuel url hd gsid limit offset contacts w))
           = out ++ [("   ❌ Request error: " ++ msg)%string].
Proof.
  induction fuel as [| fuel IH]; intros offset contacts w.
  - exists []. split; [cbn; now rewrite app_nil_r |].
    intros [| x pre] c msg E; discriminate E.
  - pose proof (fetch_page_calls offset contacts w) as [_ Hcalls].
    pose proof (fetch_page_failed offset contacts w) as Hfail.
    cbn zeta in Hcalls, Hfail.
    set (rq := page_request url hd gsid limit offset) in *.
    set (a := remote w (List.length (calls w)) rq) in *.
    rewrite fetch_loop_S.
    assert (forall pre c msg,
               [(rq, a)] = pre ++ [c] -> snd c = Failed msg ->
               fetch_page url hd gsid limit offset contacts w
               = (Ret (Return_ None),
                  logged w rq (Failed msg)
                    [("🔍 Querying contacts (offset: " ++ str_of_Z offset
                      ++ ", limit: " ++ str_of_Z limit ++ ")...")%string;
                     ("   ❌ Request error: " ++ msg)%string]))
      as Hone.
    { intros [| x pre] c msg E Hc.
      - injection E as <-. cbn in Hc. now apply Hfail.
      - destruct pre; discriminate E. }
    destruct (fetch_page url hd gsid limit offset contacts w)
      as [fl w1] eqn:Hpage.
    cbn [fst snd] in *.
    destruct fl as [[v | cs | cs] | e |].
    + exists [(rq, a)]. split; [exact Hcalls |].
      intros pre c msg E Hc. specialize (Hone pre c msg E Hc).
      injection Hone as _ ->.
      eexists (stdout w ++ [_]). cbn [logged stdout snd].
      now rewrite <- app_assoc.
    + exists [(rq, a)]. split; [exact Hcalls |].
      intros pre c msg E Hc. specialize (Hone pre c msg E Hc).
      discriminate Hone.
    + destruct (IH (offset + limit)%Z cs w1) as (more & Hmore & Hlast).
      exists ((rq, a) :: more). split.
      * rewrite Hmore, Hcalls, <- app_assoc. reflexivity.
      * intros [| x pre] c msg E Hc.
        -- injection E as Ec _. subst c.
           assert (a = Failed msg) as Ha by exact Hc.
           discriminate (Hfail msg Ha).
        -- injection E as _ E. exact (Hlast pre c msg E Hc).
    + exists [(rq, a)]. split; [exact Hcalls |].
      intros pre c msg E Hc. specialize (Hone pre c msg E Hc).
      discriminate Hone.
    + exists [(rq, a)]. split; [exact Hcalls |].
      intros pre c msg E Hc. specialize (Hone pre c msg E Hc).
      discriminate Hone.
Qed.

End Abort.

(** C8.  In every run of the paginated fetcher, a call that met a
    status other than 200, a body whose [result] is false, or a body
    whose [data] is neither a mapping with [records] nor a list is the
    last call of the run, and the run returns the failure value [None],
    not the records gathered before. *)
Theorem fetch_aborts_on_bad_reply
        `{Runtime} (srv : nat -> request -> reply) (fuel : nat)
        (domain access_key company_gsid : string) (c : request * reply) :
  In c (calls (snd (fetch_contacts_by_company_gsid
                      fuel domain access_key company_gsid (boot srv)))) ->
  bad_reply (snd c) ->
  fst (fetch_contacts_by_company_gsid
         fuel domain access_key company_gsid (boot srv))
  = Ret None
  /\ exists earlier,
       calls (snd (fetch_contacts_by_company_gsid
                     fuel domain access_key company_gsid (boot srv)))
       = earlier ++ [c].
Proof.
  unfold fetch_contacts_by_company_gsid, fetch_contacts_paged.
  intros Hin Hbad.
  destruct (fetch_loop_abort (contacts_url domain) (json_headers access_key)
              company_gsid 1000 fuel 0%Z [] (boot srv))
    as (newcalls & Hcalls & Hlast).
  cbn [boot calls app] in Hcalls. rewrite Hcalls in Hin |- *.
  destruct (in_split _ _ Hin) as (pre & post & E).
  destruct (Hlast pre c post E (or_introl Hbad)) as [Hres ->].
  split; [exact Hres |]. exists pre. exact E.
Qed.

(** C8 on a service that delivers a full page of 1000 records and then
    answers 500: the second call is the last, and the 1000 records are
    not returned. *)
Lemma fetch_aborts_on_bad_reply_witness :
  fst (@fetch_contacts_by_company_gsid plain_runtime 5
         "https://demo.example.com" "key" "1P02" (boot flaky_service))
  = Ret None
  /\ exists earlier,
       calls (snd (@fetch_contacts_by_company_gsid plain_runtime 5
                     "https://demo.example.com" "key" "1P02"
                     (boot flaky_service)))
       = earlier ++ [(page_request (contacts_url "https://demo.example.com")
                                   (json_headers "key") "1P02" 1000 1000,
                      Replied {| status_code := 500;
                                 text := "Internal Server Error";
                                 json := None |})].
Proof.
  apply (@fetch_aborts_on_bad_reply plain_runtime flaky_service 5
           "https://demo.example.com" "key" "1P02").
  - vm_compute. right. left. reflexivity.
  - apply bad_status. cbn. discriminate.
Defined.

(** C1 at the source's page size, 1000, on three records: one call. *)
Lemma fetch_contacts_paged_complete_witness :
  (0 < 1000)%Z
  /\ serves (paged_service three_records) three_records
  /\ (List.length three_records / Z.to_nat 1000 < 1)%nat
  /\ (exists w pages,
         @fetch_contacts_paged plain_runtime 1 1000
           "https://demo.example.com/" "key" "1P02"
           (boot (paged_service three_records))
         = (Ret (Some three_records), w)
         /\ Z.of_nat (List.length (calls w))
            = (ceil_div (Z.of_nat (List.length three_records)) 1000
               + (if (Z.of_nat (List.length three_records) mod 1000 =? 0)%Z
                  then 1 else 0))%Z
         /\ map (fun c => query_field "offset" (fst c)) (calls w)
            = map (fun i => (Z.of_nat i * 1000)%Z)
                  (seq 0 (List.length (calls w)))
         /\ Forall2 (fun c pg => carries (snd c) pg) (calls w) pages
         /\ short_terminated (Z.to_nat 1000) pages
         /\ concat pages = three_records).
Proof.
  assert (0 < 1000)%Z as H1 by lia.
  assert (List.length three_records / Z.to_nat 1000 < 1)%nat as H3
      by (vm_compute; lia).
  pose proof (paged_service_serves three_records) as H2.
  repeat split; try assumption.
  exact (proj1 (@fetch_contacts_paged_complete plain_runtime 1000 three_records
                  (paged_service three_records) 1
                  "https://demo.example.com/" "key" "1P02" H1 H2 H3)).
Defined.

(** The source's function on the same service: the three records after
    one call at offset 0. *)
Example fetch_three_records :
  let (r, w) := @fetch_contacts_by_company_gsid plain_runtime 1
                  "https://demo.example.com/" "key" "1P02"
                  (boot (paged_service three_records)) in
  r = Ret (Some three_records)
  /\ map (fun c => query_field "offset" (fst c)) (calls w) = [0%Z]
  /\ map (fun c => url (fst c)) (calls w)
     = ["https://demo.example.com/v1/data/objects/query/company_person"].
Proof. vm_compute. repeat split. Qed.

(** Exactly 1000 records: the source's function asks once more and gets
    an empty page. *)
Example fetch_one_full_page :
  let (r, w) := @fetch_contacts_by_company_gsid plain_runtime 2
                  "https://demo.example.com/" "key" "1P02"
                  (boot (paged_service full_page)) in
  r = Ret (Some full_page)
  /\ map (fun c => query_field "offset" (fst c)) (calls w) = [0; 1000]%Z.
Proof. vm_compute. split; reflexivity. Qed.

(** Page size 2: three records take two calls, four records take three
    (the last page is empty). *)
Example fetch_pages_of_two :
  let (r3, w3) := @fetch_contacts_paged plain_runtime 9 2 "d" "k" "g"
                    (boot (paged_service three_records)) in
  let (r4, w4) := @fetch_contacts_paged plain_runtime 9 2 "d" "k" "g"
                    (boot (paged_service four_records)) in
  r3 = Ret (Some three_records)
  /\ map (fun c => query_field "offset" (fst c)) (calls w3) = [0; 2]%Z
  /\ r4 = Ret (Some four_records)
  /\ map (fun c => query_field "offset" (fst c)) (calls w4) = [0; 2; 4]%Z.
Proof. vm_compute. repeat split. Qed.

(** Without fuel for the last page the run is cut short, not wrong. *)
Example fetch_starved :
  fst (@fetch_contacts_paged plain_runtime 2 2 "d" "k" "g"
         (boot (paged_service four_records)))
  = OutOfFuel.
Proof. reflexivity. Qed.

End Pagination.

(** ** The redaction transform *)
Module Redaction.
Import Py.

Lemma split_first_app (c : ascii) (user domain : string) :
  has_char c user = false ->
  split_first c (user ++ String c domain) = Some (user, domain).
Proof.
  induction user as [| a user IH]; cbn; intros Hno.
  - now rewrite Ascii.eqb_refl.
  - apply orb_false_elim in Hno as [Ha Hu].
    rewrite Ha, (IH Hu). reflexivity.
Qed.

Lemma has_char_app (c : ascii) (user domain : string) :
  has_char c (user ++ String c domain) = true.
Proof.
  induction user as [| a user IH]; cbn.
  - now rewrite Ascii.eqb_refl.
  - rewrite IH. apply orb_true_r.
Qed.

Lemma split_first_found (c : ascii) (s : string) :
  has_char c s = true ->
  exists user domain,
    split_first c s = Some (user, domain)
    /\ s = (user ++ String c domain)%string
    /\ has_char c user = false.
Proof.
  induction s as [| a s IH]; cbn; [discriminate |].
  destruct (Ascii.eqb_spec a c) as [-> | Hne]; cbn.
  - intros _. exists EmptyString, s. repeat split.
  - intros Hs. destruct (IH Hs) as (u & d & -> & -> & Hu).
    exists (String a u), d. repeat split. cbn.
    destruct (Ascii.eqb_spec a c); [contradiction | exact Hu].
Qed.

Lemma nonempty_truthy (s : string) :
  s <> EmptyString -> truthy (PStr s) = true.
Proof.
  destruct s; [contradiction | reflexivity].
Qed.

(** The masked form of a string with a separator, in one equation. *)
Lemma redact_split (user domain : string) :
  has_char "@" user = false ->
  ContactsLookup.redact_email (PStr (user ++ String "@" domain))
  = Ret (PStr (str_take 1 user ++ "***@" ++ domain)).
Proof.
  intros Hno. unfold ContactsLookup.redact_email.
  rewrite nonempty_truthy by (destruct user; discriminate).
  cbn [negb contains_char rbind]. rewrite has_char_app. cbn [negb].
  rewrite (split_first_app "@" user domain Hno).
  destruct user; reflexivity.
Qed.

Lemma redact_plain (s : string) :
  has_char "@" s = false ->
  ContactsLookup.redact_email (PStr s) = Ret (PStr s).
Proof.
  intros Hno. unfold ContactsLookup.redact_email.
  destruct (truthy (PStr s)); [| reflexivity].
  cbn. now rewrite Hno.
Qed.

Lemma redact_email_same :
  CsmDashboard.redact_email = ContactsLookup.redact_email.
Proof. reflexivity. Qed.

(** C5.  [redact_email], in both scripts that define it, is a function
    of its argument alone.  On a string with an '@' (the text [user]
    before the first '@' holds none) it returns the first character of
    [user] (nothing when [user] is empty), then "***@", then the text
    after that '@' unchanged.  A string without '@', the empty string
    and [None] come back unchanged. *)
Theorem redact_email_masks (user domain s : string) :
  has_char "@" user = false ->
  has_char "@" s = false ->
  (ContactsLookup.redact_email (PStr (user ++ "@" ++ domain))
   = Ret (PStr (str_take 1 user ++ "***@" ++ domain))
   /\ ContactsLookup.redact_email (PStr s) = Ret (PStr s)
   /\ ContactsLookup.redact_email (PStr "") = Ret (PStr "")
   /\ ContactsLookup.redact_email PNone = Ret PNone)
  /\ (CsmDashboard.redact_email (PStr (user ++ "@" ++ domain))
      = Ret (PStr (str_take 1 user ++ "***@" ++ domain))
      /\ CsmDashboard.redact_email (PStr s) = Ret (PStr s)
      /\ CsmDashboard.redact_email (PStr "") = Ret (PStr "")
      /\ CsmDashboard.redact_email PNone = Ret PNone).
Proof.
  intros Hu Hs. rewrite redact_email_same.
  assert (ContactsLookup.redact_email (PStr (user ++ "@" ++ domain))
          = Ret (PStr (str_take 1 user ++ "***@" ++ domain))) as E1
      by exact (redact_split user domain Hu).
  pose proof (redact_plain s Hs) as E2.
  repeat split; first [exact E1 | exact E2 | reflexivity].
Qed.

Lemma redact_email_masks_witness :
  has_char "@" "alice" = false
  /\ has_char "@" "No email" = false
  /\ ContactsLookup.redact_email (PStr "alice@example.com")
     = Ret (PStr "a***@example.com")
  /\ CsmDashboard.redact_email (PStr "alice@example.com")
     = Ret (PStr "a***@example.com")
  /\ ContactsLookup.redact_email (PStr "No email") = Ret (PStr "No email").
Proof.
  assert (has_char "@" "alice" = false) as Hu by reflexivity.
  assert (has_char "@" "No email" = false) as Hs by reflexivity.
  pose proof (redact_email_masks "alice" "example.com" "No email" Hu Hs)
    as [(E1 & E2 & _) (E3 & _)].
  repeat split; assumption.
Defined.

(** The text after the first '@' is kept whole, further '@' included. *)
Example redact_email_two_ats :
  ContactsLookup.redact_email (PStr "a.b@x@Y.org") = Ret (PStr "a***@x@Y.org").
Proof. reflexivity. Qed.

(** A value that is neither text nor empty is not accepted. *)
Example redact_email_number :
  ContactsLookup.redact_email (PInt 7) = Raise OtherException.
Proof. reflexivity. Qed.

(** Applying the transform twice, on a string whose first character is
    not '@'. *)
Lemma redact_twice (c : ascii) (rest : string) :
  c <> "@"%char ->
  rbind (ContactsLookup.redact_email (PStr (String c rest)))
        ContactsLookup.redact_email
  = ContactsLookup.redact_email (PStr (String c rest)).
Proof.
  intros Hc. apply Ascii.eqb_neq in Hc.
  destruct (has_char "@" (String c rest)) eqn:Hat.
  - destruct (split_first_found "@" _ Hat) as (u & d & _ & E & Hu).
    destruct u as [| c' u]; cbn in E.
    + injection E as -> _. now rewrite Ascii.eqb_refl in Hc.
    + injection E as Ec Er. subst c' rest.
      pose proof (redact_split (String c u) d Hu) as R1.
      cbn [append str_take] in R1. rewrite R1. cbn [rbind].
      assert (has_char "@" (String c "***") = false) as Hmask
          by (cbn; now rewrite Hc).
      exact (redact_split (String c "***") d Hmask).
  - rewrite (redact_plain _ Hat). cbn [rbind]. exact (redact_plain _ Hat).
Qed.

(** C9.  For every string that holds no '@', or has at least one
    character before its first '@', redacting twice gives what
    redacting once gives, in both scripts.  A string that begins with
    '@' is the exception: once gives "***@" and the rest, twice gives
    one more '*' in front. *)
Theorem redact_email_idempotent (s d : string) :
  has_char "@" s = false
  \/ (exists c rest, s = String c rest /\ c <> "@"%char) ->
  (rbind (ContactsLookup.redact_email (PStr s)) ContactsLookup.redact_email
   = ContactsLookup.redact_email (PStr s)
   /\ rbind (CsmDashboard.redact_email (PStr s)) CsmDashboard.redact_email
      = CsmDashboard.redact_email (PStr s))
  /\ (ContactsLookup.redact_email (PStr ("@" ++ d)) = Ret (PStr ("***@" ++ d))
      /\ rbind (ContactsLookup.redact_email (PStr ("@" ++ d)))
               ContactsLookup.redact_email
         = Ret (PStr ("*" ++ "***@" ++ d))
      /\ rbind (CsmDashboard.redact_email (PStr ("@" ++ d)))
               CsmDashboard.redact_email
         = Ret (PStr ("*" ++ "***@" ++ d))).
Proof.
  intros Hs. rewrite redact_email_same.
  assert (rbind (ContactsLookup.redact_email (PStr s))
                ContactsLookup.redact_email
          = ContactsLookup.redact_email (PStr s)) as Hidem.
  { destruct Hs as [Hno | (c & rest & -> & Hc)].
    - rewrite (redact_plain s Hno). cbn [rbind]. exact (redact_plain s Hno).
    - exact (redact_twice c rest Hc). }
  repeat split; first [exact Hidem | reflexivity].
Qed.

Lemma redact_email_idempotent_witness :
  (has_char "@" "bob@example.com" = false
   \/ (exists c rest, "bob@example.com" = String c rest /\ c <> "@"%char))
  /\ rbind (ContactsLookup.redact_email (PStr "bob@example.com"))
           ContactsLookup.redact_email
     = ContactsLookup.redact_email (PStr "bob@example.com")
  /\ rbind (ContactsLookup.redact_email (PStr "@example.com"))
           ContactsLookup.redact_email
     = Ret (PStr "****@example.com").
Proof.
  assert (has_char "@" "bob@example.com" = false
          \/ (exists c rest, "bob@example.com" = String c rest /\ c <> "@"%char))
    as Hs.
  { right. exists "b"%char, "ob@example.com". split; [reflexivity | discriminate]. }
  pose proof (redact_email_idempotent "bob@example.com" "example.com" Hs)
    as [[E1 _] (_ & E2 & _)].
  repeat split; assumption.
Defined.

End Redaction.

(** ** The presenters: how a subject is shown *)
Module Presenter.
Import Py Net Service Lines.

Lemma length_append (s t : string) :
  String.length (s ++ t) = (String.length s + String.length t)%nat.
Proof.
  induction s as [| a s IH]; cbn; [reflexivity | now rewrite IH].
Qed.

Lemma truthy_by_length (s : string) :
  (0 < String.length s)%nat -> truthy (PStr s) = true.
Proof.
  destruct s; cbn; [lia | reflexivity].
Qed.

Lemma is_str_length (s t : string) :
  String.length s <> String.length t -> is_str (PStr s) t = false.
Proof.
  intros Hne. unfold is_str. cbn. apply String.eqb_neq.
  intros ->. now apply Hne.
Qed.

Section WithRuntime.
Context `{Runtime}.

(** Lines 189 and 192-193 of csm-dashboard.py on a string. *)
Lemma mark_cut_str (s : string) :
  rbind (slice_to 50 (PStr s)) CsmDashboard.mark_cut
  = Ret (PStr (summary_form s)).
Proof.
  unfold summary_form. cbn [slice_to rbind]. unfold CsmDashboard.mark_cut.
  destruct (Nat.leb_spec 50 (String.length s)) as [Hge | Hlt].
  - assert (String.length (str_take 50 s) = 50%nat) as Hlen
        by (rewrite length_str_take; lia).
    rewrite truthy_by_length by lia.
    cbn [len rbind]. rewrite Hlen. reflexivity.
  - rewrite str_take_all by lia.
    destruct (truthy (PStr s)); [| reflexivity].
    cbn [len rbind].
    destruct (Nat.eqb_spec (String.length s) 50); [lia | reflexivity].
Qed.

Lemma summary_lines_str (i : nat) (kv : list (string * value)) (s : string) :
  lookup "Subject" kv = Some (PStr s) ->
  CsmDashboard.summary_lines i (PDict kv)
  = Ret [("   " ++ str_of_nat i ++ ". 📧 " ++ summary_form s)%string;
         ("      🏢 Company ID: "
          ++ to_str (match lookup "GsCompanyId" kv with
                     | Some v => v
                     | None => PStr "No company ID"
                     end))%string].
Proof.
  intros Hs. unfold CsmDashboard.summary_lines.
  cbn [get rbind]. rewrite Hs.
  pose proof (mark_cut_str s) as Hcut. cbn [slice_to rbind] in Hcut |- *.
  rewrite Hcut. reflexivity.
Qed.

Lemma summary_lines_two (i : nat) (a : value) (l : list string) :
  CsmDashboard.summary_lines i a = Ret l -> List.length l = 2%nat.
Proof.
  unfold CsmDashboard.summary_lines.
  destruct (get a "Subject" (PStr "No subject")) as [v | |];
    try discriminate. cbn [rbind].
  destruct (slice_to 50 v) as [subject | |]; try discriminate. cbn [rbind].
  destruct (get a "GsCompanyId" (PStr "No company ID")) as [c | |];
    try discriminate. cbn [rbind].
  destruct (CsmDashboard.mark_cut subject) as [shown | |]; try discriminate.
  cbn [rbind]. intros E. injection E as <-. reflexivity.
Qed.

(** Every output of [format_timeline_summary] holds, at the place of
    its [j]-th activity, the line of that activity's subject. *)
Lemma summary_output (acts : list value) (j : nat)
      (kv : list (string * value)) (s out : string) :
  nth_error acts j = Some (PDict kv) ->
  lookup "Subject" kv = Some (PStr s) ->
  CsmDashboard.format_timeline_summary (PList acts) = Ret out ->
  exists pre company_line post,
    List.length pre = (1 + 2 * j)%nat
    /\ out = join nl
               (pre
                ++ [("   " ++ str_of_nat (S j) ++ ". 📧 "
                     ++ summary_form s)%string;
                    company_line]
                ++ post).
Proof.
  intros Hnth Hs Hout. unfold CsmDashboard.format_timeline_summary in Hout.
  assert (truthy (PList acts) = true) as Ht
      by (destruct acts; [destruct j; discriminate Hnth | reflexivity]).
  rewrite Ht in Hout. cbn [negb len iter rbind] in Hout.
  destruct (for_lines CsmDashboard.summary_lines 1 acts) as [ls | |] eqn:Hls;
    try discriminate Hout.
  cbn [rbind] in Hout. injection Hout as <-.
  destruct (for_lines_split _ acts 1 j _ ls Hnth Hls)
    as (pre & l & post & Hpre & Hl & _ & ->).
  change (1 + j)%nat with (S j) in Hl.
  rewrite (summary_lines_str (S j) kv s Hs) in Hl. injection Hl as <-.
  eexists (("   📊 Found " ++ str_of_nat (List.length acts)
            ++ " recent activities:")%string :: pre), _, post.
  split.
  - cbn [List.length]. f_equal.
    rewrite (for_lines_length _ 2 summary_lines_two _ _ _ Hpre).
    rewrite length_firstn.
    assert (j < List.length acts)%nat
      by (apply nth_error_Some; rewrite Hnth; discriminate).
    lia.
  - reflexivity.
Qed.

(** C10.  In [format_timeline_summary] of csm-dashboard.py a subject
    of 50 characters or more is shown as its first 50 characters
    followed by "...", a subject of exactly 50 characters included
    (nothing is cut from it), and a shorter subject is shown as it is:
    the loop body yields that line for the activity, and every output
    of the function holds it at the activity's place. *)
Theorem summary_subject_ellipsis
        (acts : list value) (j : nat) (kv : list (string * value))
        (s : string) :
  nth_error acts j = Some (PDict kv) ->
  lookup "Subject" kv = Some (PStr s) ->
  (exists company_line,
      CsmDashboard.summary_lines (S j) (PDict kv)
      = Ret [("   " ++ str_of_nat (S j) ++ ". 📧 "
              ++ (if (50 <=? String.length s)%nat
                  then str_take 50 s ++ "..." else s))%string;
             company_line])
  /\ (forall out,
         CsmDashboard.format_timeline_summary (PList acts) = Ret out ->
         exists pre company_line post,
           List.length pre = (1 + 2 * j)%nat
           /\ out = join nl
                      (pre
                       ++ [("   " ++ str_of_nat (S j) ++ ". 📧 "
                            ++ (if (50 <=? String.length s)%nat
                                then str_take 50 s ++ "..." else s))%string;
                           company_line]
                       ++ post)).
Proof.
  intros Hnth Hs. split.
  - eexists. exact (summary_lines_str (S j) kv s Hs).
  - intros out Hout. exact (summary_output acts j kv s out Hnth Hs Hout).
Qed.

(** Lines 94-96 of timeline-viewer.py on a string longer than 50. *)
Lemma shown_subject_long (kv : list (string * value)) (s : string) :
  lookup "Subject" kv = Some (PStr s) ->
  (50 < String.length s)%nat ->
  TimelineViewer.shown_subject (PDict kv)
  = Ret (PStr (str_take 50 s ++ "...")).
Proof.
  intros Hs Hlen. unfold TimelineViewer.shown_subject.
  cbn [get rbind]. rewrite Hs.
  rewrite truthy_by_length by lia. cbn [len rbind].
  destruct (Nat.ltb_spec 50 (String.length s)); [reflexivity | lia].
Qed.

Lemma activity_lines_long (i : nat) (kv : list (string * value))
      (s : string) (l : list string) :
  lookup "Subject" kv = Some (PStr s) ->
  (50 < String.length s)%nat ->
  TimelineViewer.activity_lines i (PDict kv) = Ret l ->
  exists l1 l3,
    l = [l1; ("      📧 " ++ str_take 50 s ++ "...")%string; l3].
Proof.
  intros Hs Hlen. unfold TimelineViewer.activity_lines.
  rewrite (shown_subject_long kv s Hs Hlen).
  cbn [get rbind].
  destruct (slice_to 10 _) as [g10 | |]; try discriminate. cbn [rbind].
  destruct (add_str g10 "...") as [gsid | |]; try discriminate. cbn [rbind].
  assert (String.length (str_take 50 s ++ "...") = 53%nat) as L
      by (rewrite length_append, length_str_take, Nat.min_l by lia;
          reflexivity).
  rewrite truthy_by_length by lia.
  rewrite is_str_length by (rewrite L; cbn; lia).
  cbn [negb andb app to_str]. intros E. injection E as <-.
  eexists _, _. reflexivity.
Qed.

(** Every output of [format_timeline_data], on a body of either
    accepted shape, holds the cut subject of an activity whose
    subject is longer than 50. *)
Lemma timeline_output (acts : list value) (j : nat)
      (kv : list (string * value)) (s : string) (data : value)
      (out : string) :
  nth_error acts j = Some (PDict kv) ->
  lookup "Subject" kv = Some (PStr s) ->
  (50 < String.length s)%nat ->
  data = success_body acts \/ data = bare_body acts ->
  TimelineViewer.format_timeline_data data = Ret out ->
  exists pre l1 l3 post,
    out = join nl
            (pre
             ++ [l1; ("      📧 " ++ str_take 50 s ++ "...")%string; l3]
             ++ post).
Proof.
  intros Hnth Hs Hlen Hdata Hout.
  assert (truthy (PList acts) = true) as Ht
      by (destruct acts; [destruct j; discriminate Hnth | reflexivity]).
  assert (rbind (for_lines TimelineViewer.activity_lines 1 acts)
                (fun ls =>
                   Ret (join nl
                          ([("   📊 Found " ++ str_of_nat (List.length acts)
                             ++ " Timeline activities:")%string] ++ ls)))
          = Ret out) as Hrun.
  { destruct Hdata as [-> | ->];
      unfold TimelineViewer.format_timeline_data in Hout;
      cbn [success_body bare_body truthy negb get lookup String.eqb
           Ascii.eqb Bool.eqb rbind TimelineViewer.records_of] in Hout;
      unfold truthy in Ht; rewrite Ht in Hout; exact Hout. }
  destruct (for_lines TimelineViewer.activity_lines 1 acts) as [ls | |] eqn:Hls;
    try discriminate Hrun.
  cbn [rbind] in Hrun. injection Hrun as <-.
  destruct (for_lines_split _ acts 1 j _ ls Hnth Hls)
    as (pre & l & post & _ & Hl & _ & ->).
  destruct (activity_lines_long _ kv s l Hs Hlen Hl) as (l1 & l3 & ->).
  eexists (("   📊 Found " ++ str_of_nat (List.length acts)
            ++ " Timeline activities:")%string :: pre), l1, l3, post.
  reflexivity.
Qed.

(** C7.  In both presenters that show a subject, [format_timeline_data]
    of timeline-viewer.py and [format_timeline_summary] of
    csm-dashboard.py, a subject longer than 50 characters (one of 51
    characters for instance) is shown as its first 50 characters
    followed by "...". *)
Theorem subject_over_50_is_cut
        (acts : list value) (j : nat) (kv : list (string * value))
        (s : string) :
  nth_error acts j = Some (PDict kv) ->
  lookup "Subject" kv = Some (PStr s) ->
  (50 < String.length s)%nat ->
  (TimelineViewer.shown_subject (PDict kv)
   = Ret (PStr (str_take 50 s ++ "..."))
   /\ forall data out,
       data = success_body acts \/ data = bare_body acts ->
       TimelineViewer.format_timeline_data data = Ret out ->
       exists pre l1 l3 post,
         out = join nl
                 (pre
                  ++ [l1; ("      📧 " ++ str_take 50 s ++ "...")%string; l3]
                  ++ post))
  /\ ((exists company_line,
          CsmDashboard.summary_lines (S j) (PDict kv)
          = Ret [("   " ++ str_of_nat (S j) ++ ". 📧 "
                  ++ str_take 50 s ++ "...")%string;
                 company_line])
      /\ forall out,
          CsmDashboard.format_timeline_summary (PList acts) = Ret out ->
          exists pre company_line post,
            out = join nl
                    (pre
                     ++ [("   " ++ str_of_nat (S j) ++ ". 📧 "
                          ++ str_take 50 s ++ "...")%string;
                         company_line]
                     ++ post)).
Proof.
  intros Hnth Hs Hlen.
  assert (summary_form s = (str_take 50 s ++ "...")%string) as Hform.
  { unfold summary_form.
    destruct (Nat.leb_spec 50 (String.length s)); [reflexivity | lia]. }
  split; [split | split].
  - exact (shown_subject_long kv s Hs Hlen).
  - intros data out Hdata Hout.
    exact (timeline_output acts j kv s data out Hnth Hs Hlen Hdata Hout).
  - eexists. rewrite <- Hform. exact (summary_lines_str (S j) kv s Hs).
  - intros out Hout.
    destruct (summary_output acts j kv s out Hnth Hs Hout)
      as (pre & cl & post & _ & ->).
    exists pre, cl, post. now rewrite Hform.
Qed.

End WithRuntime.

(** C7 on one activity whose subject has 51 characters. *)
Lemma subject_over_50_is_cut_witness :
  nth_error [PDict (activity_of subject51)] 0 = Some (PDict (activity_of subject51))
  /\ lookup "Subject" (activity_of subject51) = Some (PStr subject51)
  /\ (50 < String.length subject51)%nat
  /\ @TimelineViewer.shown_subject (PDict (activity_of subject51))
     = Ret (PStr "Quarterly business review with the platform team 1...")
  /\ (exists company_line,
         @CsmDashboard.summary_lines plain_runtime 1
           (PDict (activity_of subject51))
         = Ret ["   1. 📧 Quarterly business review with the platform team 1...";
                company_line]).
Proof.
  assert (nth_error [PDict (activity_of subject51)] 0
          = Some (PDict (activity_of subject51))) as H1 by reflexivity.
  assert (lookup "Subject" (activity_of subject51) = Some (PStr subject51))
    as H2 by reflexivity.
  assert (50 < String.length subject51)%nat as H3 by (vm_compute; lia).
  pose proof (@subject_over_50_is_cut plain_runtime
                [PDict (activity_of subject51)] 0 (activity_of subject51)
                subject51 H1 H2 H3) as [[E1 _] [E2 _]].
  repeat split; assumption.
Defined.

(** C10 on one activity whose subject has exactly 50 characters: the
    summary adds "..." though nothing was cut. *)
Lemma summary_subject_ellipsis_witness :
  nth_error [PDict (activity_of subject50)] 0 = Some (PDict (activity_of subject50))
  /\ lookup "Subject" (activity_of subject50) = Some (PStr subject50)
  /\ (exists company_line,
         @CsmDashboard.summary_lines plain_runtime 1
           (PDict (activity_of subject50))
         = Ret ["   1. 📧 Quarterly business review with the platform team 1...";
                company_line]).
Proof.
  assert (nth_error [PDict (activity_of subject50)] 0
          = Some (PDict (activity_of subject50))) as H1 by reflexivity.
  assert (lookup "Subject" (activity_of subject50) = Some (PStr subject50))
    as H2 by reflexivity.
  pose proof (@summary_subject_ellipsis plain_runtime
                [PDict (activity_of subject50)] 0 (activity_of subject50)
                subject50 H1 H2) as [E1 _].
  repeat split; assumption.
Defined.

(** The same subject in timeline-viewer.py, which shows the 50
    characters as they are. *)
Example timeline_viewer_50 :
  @TimelineViewer.shown_subject (PDict (activity_of subject50))
  = Ret (PStr subject50).
Proof. reflexivity. Qed.

Example dashboard_short :
  @CsmDashboard.summary_lines plain_runtime 2
    (PDict [("Subject", PStr "Kick-off call")])
  = Ret ["   2. 📧 Kick-off call"; "      🏢 Company ID: No company ID"].
Proof. reflexivity. Qed.

End Presenter.

(** ** The aggregator: email domains and their counts *)
Module Aggregation.
Import Py Service CsmDashboard.

Lemma count_of_bump (k k' : string) (c : list (string * nat)) :
  count_of k (bump k' c)
  = if String.eqb k' k then S (count_of k c) else count_of k c.
Proof.
  induction c as [| [k0 n] c IH]; cbn.
  - destruct (String.eqb k' k); reflexivity.
  - destruct (String.eqb_spec k0 k') as [-> | Hne]; cbn.
    + destruct (String.eqb k' k); reflexivity.
    + rewrite IH. destruct (String.eqb_spec k0 k) as [-> | Hne'].
      * destruct (String.eqb_spec k' k) as [-> | _]; [contradiction | reflexivity].
      * reflexivity.
Qed.

Lemma count_of_fold (k : string) (domains : list string) :
  forall c,
    count_of k (fold_left (fun c d => bump d c) domains c)
    = (count_occ string_dec domains k + count_of k c)%nat.
Proof.
  induction domains as [| d domains IH]; intros c; cbn [fold_left count_occ].
  - reflexivity.
  - rewrite IH, count_of_bump.
    destruct (string_dec d k) as [-> | Hne].
    + rewrite String.eqb_refl. lia.
    + apply String.eqb_neq in Hne. rewrite Hne. reflexivity.
Qed.

(** [Counter] holds, for every value, the number of its occurrences. *)
Lemma Counter_counts (k : string) (domains : list string) :
  count_of k (Counter domains) = count_occ string_dec domains k.
Proof.
  unfold Counter. rewrite count_of_fold. cbn. lia.
Qed.

Lemma split_plain (c : ascii) (s : string) :
  has_char c s = false -> split c s = [s].
Proof.
  induction s as [| a s IH]; cbn; [reflexivity |].
  intros Hno. apply orb_false_elim in Hno as [Ha Hs].
  rewrite Ha, (IH Hs). reflexivity.
Qed.

Lemma split_after_first (c : ascii) (s u d : string) :
  split_first c s = Some (u, d) -> split c s = u :: split c d.
Proof.
  revert u. induction s as [| a s IH]; cbn; intros u; [discriminate |].
  destruct (Ascii.eqb a c).
  - intros E. injection E as <- <-. reflexivity.
  - destruct (split_first c s) as [[u' d'] |]; [| discriminate].
    intros E. injection E as <- <-. rewrite (IH u' eq_refl). reflexivity.
Qed.

Lemma split_first_has_char (c : ascii) (s u d : string) :
  split_first c s = Some (u, d) -> has_char c s = true.
Proof.
  revert u. induction s as [| a s IH]; cbn; intros u; [discriminate |].
  destruct (Ascii.eqb a c); [reflexivity |].
  destruct (split_first c s) as [[u' d'] |]; [| discriminate].
  intros E. injection E as _ <-. exact (IH u' eq_refl).
Qed.

Lemma lower_char_at (a : ascii) :
  Ascii.eqb (lower_char a) "@" = Ascii.eqb a "@".
Proof.
  destruct a as [[|] [|] [|] [|] [|] [|] [|] [|]]; reflexivity.
Qed.

Lemma has_char_lower (s : string) :
  has_char "@" (lower s) = has_char "@" s.
Proof.
  induction s as [| a s IH]; cbn; [reflexivity |].
  now rewrite lower_char_at, IH.
Qed.

(** What the loop of [extract_email_domains] adds for a record whose
    address has one '@': the text after it, lower-cased. *)
Lemma contact_domain_after_at (c : value) (email d : string) :
  has_email c email ->
  domain_after_at email = Some d ->
  has_char "@" d = false ->
  contact_domain c = Ret (Some d).
Proof.
  intros (kv & -> & Hkv) Hd Hno. unfold domain_after_at in Hd.
  destruct (split_first "@" email) as [[u d0] |] eqn:Hsplit; [| discriminate].
  injection Hd as <-. rewrite has_char_lower in Hno.
  unfold contact_domain. cbn [get rbind]. rewrite Hkv.
  pose proof (split_first_has_char "@" email u d0 Hsplit) as Hat.
  assert (truthy (PStr email) = true) as Ht
      by (destruct email; [discriminate Hat | reflexivity]).
  rewrite Ht. cbn [negb contains_char rbind]. rewrite Hat. cbn [negb].
  rewrite (split_after_first "@" email u d0 Hsplit), (split_plain "@" d0 Hno).
  reflexivity.
Qed.

(** C6.  For contact records whose email domains (the text after the
    '@', lower-cased) are ["a.com"; "a.com"; "b.com"],
    [extract_email_domains] returns the mapping {a.com: 2, b.com: 1},
    and the selection of the most frequent domain made from it in
    [main] gives "a.com". *)
Theorem extract_email_domains_counts
        (contacts : list value) (emails : list string) :
  Forall2 has_email contacts emails ->
  map domain_after_at emails = [Some "a.com"; Some "a.com"; Some "b.com"] ->
  extract_email_domains (PList contacts)
  = Ret [("a.com", 2%nat); ("b.com", 1%nat)]
  /\ rbind (extract_email_domains (PList contacts))
           (fun domain_counts => Ret (primary_domain_of domain_counts))
     = Ret "a.com".
Proof.
  intros Hcs Hds.
  destruct emails as [| e1 [| e2 [| e3 [| e4 rest]]]]; try discriminate Hds.
  injection Hds as H1 H2 H3.
  inversion Hcs as [| c1 x1 cs1 xs1 Hc1 Hr1]; subst.
  inversion Hr1 as [| c2 x2 cs2 xs2 Hc2 Hr2]; subst.
  inversion Hr2 as [| c3 x3 cs3 xs3 Hc3 Hr3]; subst.
  inversion Hr3; subst.
  unfold extract_email_domains. cbn [iter rbind collect_domains].
  rewrite (contact_domain_after_at c1 e1 "a.com" Hc1 H1 eq_refl),
    (contact_domain_after_at c2 e2 "a.com" Hc2 H2 eq_refl),
    (contact_domain_after_at c3 e3 "b.com" Hc3 H3 eq_refl).
  split; reflexivity.
Qed.

Lemma extract_email_domains_counts_witness :
  Forall2 has_email
          [contact_of "ann@A.com"; contact_of "bob@a.com"; contact_of "cy@b.com"]
          ["ann@A.com"; "bob@a.com"; "cy@b.com"]
  /\ map domain_after_at ["ann@A.com"; "bob@a.com"; "cy@b.com"]
     = [Some "a.com"; Some "a.com"; Some "b.com"]
  /\ extract_email_domains
       (PList [contact_of "ann@A.com"; contact_of "bob@a.com";
               contact_of "cy@b.com"])
     = Ret [("a.com", 2%nat); ("b.com", 1%nat)]
  /\ rbind (extract_email_domains
              (PList [contact_of "ann@A.com"; contact_of "bob@a.com";
                      contact_of "cy@b.com"]))
           (fun domain_counts => Ret (primary_domain_of domain_counts))
     = Ret "a.com".
Proof.
  assert (Forall2 has_email
                  [contact_of "ann@A.com"; contact_of "bob@a.com";
                   contact_of "cy@b.com"]
                  ["ann@A.com"; "bob@a.com"; "cy@b.com"]) as Hc.
  { repeat constructor; eexists; split; reflexivity. }
  assert (map domain_after_at ["ann@A.com"; "bob@a.com"; "cy@b.com"]
          = [Some "a.com"; Some "a.com"; Some "b.com"]) as Hd by reflexivity.
  exact (conj Hc (conj Hd (extract_email_domains_counts _ _ Hc Hd))).
Defined.

(** An address with a second '@': the aggregator keeps the text between
    the first two, where the text after the first '@' is longer. *)
Example contact_domain_two_ats :
  contact_domain (contact_of "x@a.com@b.com") = Ret (Some "a.com")
  /\ domain_after_at "x@a.com@b.com" = Some "a.com@b.com".
Proof. split; reflexivity. Qed.

(** Records without a usable address add nothing; the order of the
    records sets the order of the keys, not the counts. *)
Example extract_email_domains_mixed :
  extract_email_domains
    (PList [contact_of "cy@b.com"; contact_of "no address"; contact_of "";
            PDict []; contact_of "ann@A.com"; contact_of "bob@a.com"])
  = Ret [("b.com", 1%nat); ("a.com", 2%nat)]
  /\ primary_domain_of [("b.com", 1%nat); ("a.com", 2%nat)] = "a.com".
Proof. split; reflexivity. Qed.

(** With equal counts the first key wins. *)
Example primary_domain_tie :
  primary_domain_of [("b.com", 1%nat); ("a.com", 1%nat)] = "b.com".
Proof. reflexivity. Qed.

Example extract_email_domains_none :
  extract_email_domains (PList [contact_of "no address"]) = Ret []
  /\ primary_domain_of [] = "Unknown".
Proof. split; reflexivity. Qed.

End Aggregation.

(** ** Failed remote calls, function by function *)
Module Failure.
Import Py Net Service.

Ltac run_call :=
  unfold try_request, bind, print, post, resp_json, lift, ret, raise,
    raise_for_status, try_exception, sys_exit;
  cbn zeta; cbn [remote calls stdout].

Ltac close_log :=
  unfold logged; cbn [remote calls stdout];
  rewrite <- ?app_assoc, ?app_nil_r; reflexivity.

Section WithRuntime.
Context `{Runtime}.
Variables (w : world) (domain access_key : string).

(** *** A transport error *)
Section Transport.
Variable msg : string.
Hypothesis Hnext : next_reply w (Failed msg).

Lemma fetch_contacts_failed (fuel : nat) (company_gsid : string) :
  exists rq,
    ContactsLookup.fetch_contacts_by_company_gsid
      (S fuel) domain access_key company_gsid w
    = (Ret None,
       logged w rq (Failed msg)
              ["🔍 Querying contacts (offset: 0, limit: 1000)...";
               ("   ❌ Request error: " ++ msg)%string]).
Proof.
  eexists. unfold ContactsLookup.fetch_contacts_by_company_gsid,
    ContactsLookup.fetch_contacts_paged.
  cbn [ContactsLookup.fetch_loop]. unfold bind at 1.
  rewrite (Pagination.fetch_page_failed _ _ _ _ _ _ _ msg (Hnext _)).
  reflexivity.
Qed.

Lemma get_timeline_activities_failed (user_email : string) (limit : Z) :
  exists rq,
    CsmDashboard.get_timeline_activities domain access_key user_email
                                         limit w
    = (Ret PNone,
       logged w rq (Failed msg)
              [("📧 Getting " ++ str_of_Z limit
                ++ " recent timeline activities for " ++ user_email
                ++ "...")%string;
               ("   ❌ Request error: " ++ msg)%string]).
Proof.
  eexists. unfold CsmDashboard.get_timeline_activities. run_call.
  rewrite !Hnext. close_log.
Qed.

Lemma lookup_company_name_failed (company_gsid : value) :
  exists rq,
    CsmDashboard.lookup_company_name domain access_key company_gsid w
    = (Ret PNone, logged w rq (Failed msg) []).
Proof.
  eexists. unfold CsmDashboard.lookup_company_name. run_call.
  rewrite !Hnext. close_log.
Qed.

Lemma get_company_contacts_failed (company_gsid : value) (limit : Z) :
  exists rq,
    CsmDashboard.get_company_contacts domain access_key company_gsid
                                      limit w
    = (Ret (PList []), logged w rq (Failed msg) []).
Proof.
  eexists. unfold CsmDashboard.get_company_contacts. run_call.
  rewrite !Hnext. close_log.
Qed.

Lemma safe_timeline_query_failed (user_email : string) (limit : Z) :
  exists rq,
    TimelineViewer.safe_timeline_query domain access_key user_email
                                       limit w
    = (Ret PNone,
       logged w rq (Failed msg)
              [("🔍 Querying Timeline activities for " ++ user_email
                ++ " (limit: " ++ str_of_Z limit ++ ")...")%string;
               ("   ❌ Request error: " ++ msg)%string]).
Proof.
  eexists. unfold TimelineViewer.safe_timeline_query. run_call.
  rewrite !Hnext. close_log.
Qed.

Lemma lookup_company_by_id_failed (company_id : string) :
  exists rq,
    CompanyLookup.lookup_company_by_id domain access_key company_id w
    = (Ret PNone,
       logged w rq (Failed msg)
              [("🔍 Looking up company with ID: " ++ company_id)%string;
               ("   ❌ Request error: " ++ msg)%string]).
Proof.
  eexists. unfold CompanyLookup.lookup_company_by_id. run_call.
  rewrite !Hnext. close_log.
Qed.

End Transport.

(** *** A status other than 200 *)
Section Status.
Variable r : response.
Hypothesis Hnext : next_reply w (Replied r).
Hypothesis Hstatus : status_code r <> 200%Z.

Lemma status_eqb : (status_code r =? 200)%Z = false.
Proof. now apply Z.eqb_neq. Qed.

Lemma fetch_contacts_status (fuel : nat) (company_gsid : string) :
  exists rq,
    ContactsLookup.fetch_contacts_by_company_gsid
      (S fuel) domain access_key company_gsid w
    = (Ret None,
       logged w rq (Replied r)
              ["🔍 Querying contacts (offset: 0, limit: 1000)...";
               ("   ❌ HTTP " ++ str_of_Z (status_code r) ++ ": "
                ++ str_take 300 (text r))%string]).
Proof.
  eexists. unfold ContactsLookup.fetch_contacts_by_company_gsid,
    ContactsLookup.fetch_contacts_paged.
  cbn [ContactsLookup.fetch_loop]. unfold bind at 1.
  rewrite (Pagination.fetch_page_status _ _ _ _ _ _ _ r (Hnext _) Hstatus).
  reflexivity.
Qed.

Lemma get_timeline_activities_status (user_email : string) (limit : Z) :
  exists rq,
    CsmDashboard.get_timeline_activities domain access_key user_email
                                         limit w
    = (Ret PNone,
       logged w rq (Replied r)
              [("📧 Getting " ++ str_of_Z limit
                ++ " recent timeline activities for " ++ user_email
                ++ "...")%string;
               ("   ❌ HTTP " ++ str_of_Z (status_code r) ++ ": "
                ++ str_take 200 (text r))%string]).
Proof.
  eexists. unfold CsmDashboard.get_timeline_activities. run_call.
  rewrite !Hnext, status_eqb. close_log.
Qed.

Lemma lookup_company_name_status (company_gsid : value) :
  exists rq,
    CsmDashboard.lookup_company_name domain access_key company_gsid w
    = (Ret PNone, logged w rq (Replied r) []).
Proof.
  eexists. unfold CsmDashboard.lookup_company_name. run_call.
  rewrite !Hnext, status_eqb. close_log.
Qed.

Lemma get_company_contacts_status (company_gsid : value) (limit : Z) :
  exists rq,
    CsmDashboard.get_company_contacts domain access_key company_gsid
                                      limit w
    = (Ret (PList []), logged w rq (Replied r) []).
Proof.
  eexists. unfold CsmDashboard.get_company_contacts. run_call.
  rewrite !Hnext, status_eqb. close_log.
Qed.

Lemma safe_timeline_query_status (user_email : string) (limit : Z) :
  exists rq,
    TimelineViewer.safe_timeline_query domain access_key user_email
                                       limit w
    = (Ret PNone,
       logged w rq (Replied r)
              [("🔍 Querying Timeline activities for " ++ user_email
                ++ " (limit: " ++ str_of_Z limit ++ ")...")%string;
               ("   ❌ HTTP " ++ str_of_Z (status_code r) ++ ": "
                ++ str_take 200 (text r))%string]).
Proof.
  eexists. unfold TimelineViewer.safe_timeline_query. run_call.
  rewrite !Hnext, status_eqb. close_log.
Qed.

Lemma lookup_company_by_id_status (company_id : string) :
  exists rq,
    CompanyLookup.lookup_company_by_id domain access_key company_id w
    = (Ret PNone,
       logged w rq (Replied r)
              [("🔍 Looking up company with ID: " ++ company_id)%string;
               ("   ❌ HTTP " ++ str_of_Z (status_code r) ++ ": "
                ++ str_take 300 (text r))%string]).
Proof.
  eexists. unfold CompanyLookup.lookup_company_by_id. run_call.
  rewrite !Hnext, status_eqb. close_log.
Qed.

End Status.

(** *** gainsight-api-hello-world.py, whose call sits in [main] *)
Lemma hello_main_failed (env : environ) (msg : string) :
  next_reply w (Failed msg) ->
  has_keys env = true ->
  exists rq,
    HelloWorld.main env w
    = (Ret tt,
       logged w rq (Failed msg) [(nl ++ "❌ Request failed.")%string; msg]).
Proof.
  unfold has_keys, has_var. intros Hnext Hk.
  apply andb_true_iff in Hk as [Hd Ha]. apply negb_true_iff in Hd, Ha.
  eexists. unfold HelloWorld.main. rewrite Hd, Ha. cbn [orb].
  run_call. rewrite !Hnext. close_log.
Qed.

Lemma hello_main_not_found (env : environ) (r : response) :
  next_reply w (Replied r) ->
  status_code r = 404%Z ->
  has_keys env = true ->
  fst (HelloWorld.main env w) = Ret tt
  /\ exists pre url,
       stdout (snd (HelloWorld.main env w))
       = pre ++ [(nl ++ "❌ Request failed.")%string;
                 http_error_text 404 url].
Proof.
  unfold has_keys, has_var. intros Hnext Hs Hk.
  apply andb_true_iff in Hk as [Hd Ha]. apply negb_true_iff in Hd, Ha.
  unfold HelloWorld.main. rewrite Hd, Ha. cbn [orb].
  run_call. rewrite !Hnext, Hs. cbn.
  destruct (json r) as [v |]; [| destruct json_decode_error]; cbn;
    (split; [reflexivity |]); eexists (stdout w ++ [_; _]), _;
    rewrite <- !app_assoc; reflexivity.
Qed.

(** With its two variables set the script returns, whatever the service
    answers: every exception of the call is caught. *)
Lemma hello_main_ends (env : environ) :
  has_keys env = true ->
  fst (HelloWorld.main env w) = Ret tt.
Proof.
  unfold has_keys, has_var. intros Hk.
  apply andb_true_iff in Hk as [Hd Ha]. apply negb_true_iff in Hd, Ha.
  unfold HelloWorld.main. rewrite Hd, Ha. cbn [orb].
  run_call.
  destruct (remote w _ _) as [msg | r]; [reflexivity |].
  cbn [remote calls stdout fst snd].
  destruct (json r) as [v |]; [| destruct json_decode_error];
    cbn [remote calls stdout fst snd];
    destruct ((400 <=? status_code r)%Z && (status_code r <? 600)%Z);
    reflexivity.
Qed.

End WithRuntime.

End Failure.

Module ErrorHandling.
Import Py Net Service.

(** Without its two variables gainsight-api-hello-world.py prints what
    is missing and leaves with [sys.exit(1)] before it calls the
    service. *)
Lemma hello_main_unconfigured `{Runtime} (env : environ) (w : world) :
  has_keys env = false ->
  fst (HelloWorld.main env w) = Raise (SystemExit 1)
  /\ calls (snd (HelloWorld.main env w)) = calls w.
Proof.
  unfold has_keys, has_var, HelloWorld.main.
  destruct (missing (env "GAINSIGHT_DOMAIN")),
           (missing (env "GAINSIGHT_ACCESS_KEY"));
    cbn; try (intros _; split; reflexivity); discriminate.
Qed.

(** The four files with a literal left open: Python refuses each, so a
    run ends on the [SyntaxError] where it started, whatever the
    environment, the command line and the service. *)
Lemma stored_scripts_rejected
      `{Runtime} (fuel : nat) (env : environ)
      (cc : Stored.command_line ContactsLookup.args)
      (cd : Stored.command_line CsmDashboard.args)
      (ct : Stored.command_line TimelineViewer.args)
      (co : Stored.command_line CompanyLookup.args) (w : world) :
  Stored.contacts_lookup fuel env cc w = (Raise OtherException, w)
  /\ Stored.csm_dashboard env cd w = (Raise OtherException, w)
  /\ Stored.timeline_viewer env ct w = (Raise OtherException, w)
  /\ Stored.company_lookup env co w = (Raise OtherException, w).
Proof. split; [| split; [| split]]; reflexivity. Qed.



(** C4, as the code has it.  When the next call meets a transport
    error, every function that calls the service catches it and makes no
    second call.  [fetch_contacts_by_company_gsid],
    [get_timeline_activities], [safe_timeline_query] and
    [lookup_company_by_id] print "Request error" with the error's text
    and return [None]; [lookup_company_name] returns [None] and prints
    nothing; [get_company_contacts] returns the empty list and prints
    nothing; [main] of gainsight-api-hello-world.py prints "Request
    failed." and the error's text and returns.  In the paginated fetcher
    this holds at every turn of the loop: a call that met a transport
    error is the last of the run, the last line printed reports it, and
    the run returns [None]. *)
Theorem transport_error_outcome
        `{Runtime} (w : world) (msg : string) (domain access_key : string) :
  next_reply w (Failed msg) ->
  (forall fuel g, exists rq,
      ContactsLookup.fetch_contacts_by_company_gsid
        (S fuel) domain access_key g w
      = (Ret None,
         logged w rq (Failed msg)
                ["🔍 Querying contacts (offset: 0, limit: 1000)...";
                 ("   ❌ Request error: " ++ msg)%string]))
  /\ (forall u l, exists rq,
         CsmDashboard.get_timeline_activities domain access_key u l w
         = (Ret PNone,
            logged w rq (Failed msg)
                   [("📧 Getting " ++ str_of_Z l
                     ++ " recent timeline activities for " ++ u ++ "...")%string;
                    ("   ❌ Request error: " ++ msg)%string]))
  /\ (forall u l, exists rq,
         TimelineViewer.safe_timeline_query domain access_key u l w
         = (Ret PNone,
            logged w rq (Failed msg)
                   [("🔍 Querying Timeline activities for " ++ u
                     ++ " (limit: " ++ str_of_Z l ++ ")...")%string;
                    ("   ❌ Request error: " ++ msg)%string]))
  /\ (forall c, exists rq,
         CompanyLookup.lookup_company_by_id domain access_key c w
         = (Ret PNone,
            logged w rq (Failed msg)
                   [("🔍 Looking up company with ID: " ++ c)%string;
                    ("   ❌ Request error: " ++ msg)%string]))
  /\ (forall g, exists rq,
         CsmDashboard.lookup_company_name domain access_key g w
         = (Ret PNone, logged w rq (Failed msg) []))
  /\ (forall g l, exists rq,
         CsmDashboard.get_company_contacts domain access_key g l w
         = (Ret (PList []), logged w rq (Failed msg) []))
  /\ (forall env, has_keys env = true ->
       exists rq,
         HelloWorld.main env w
         = (Ret tt,
            logged w rq (Failed msg)
                   [(nl ++ "❌ Request failed.")%string; msg]))
  /\ (forall srv fuel g c text,
         In c (calls (snd (ContactsLookup.fetch_contacts_by_company_gsid
                             fuel domain access_key g (boot srv)))) ->
         snd c = Failed text ->
         fst (ContactsLookup.fetch_contacts_by_company_gsid
                fuel domain access_key g (boot srv))
         = Ret None
         /\ (exists earlier,
                calls (snd (ContactsLookup.fetch_contacts_by_company_gsid
                              fuel domain access_key g (boot srv)))
                = earlier ++ [c])
         /\ (exists out,
                stdout (snd (ContactsLookup.fetch_contacts_by_company_gsid
                               fuel domain access_key g (boot srv)))
                = out ++ [("   ❌ Request error: " ++ text)%string])).
Proof.
  intros Hnext.
  split; [intros fuel g; apply Failure.fetch_contacts_failed; exact Hnext |].
  split; [intros u l; apply Failure.get_timeline_activities_failed; exact Hnext |].
  split; [intros u l; apply Failure.safe_timeline_query_failed; exact Hnext |].
  split; [intros c; apply Failure.lookup_company_by_id_failed; exact Hnext |].
  split; [intros g; apply Failure.lookup_company_name_failed; exact Hnext |].
  split; [intros g l; apply Failure.get_company_contacts_failed; exact Hnext |].
  split; [intros env Hk; apply Failure.hello_main_failed; assumption |].
  intros srv fuel g c text.
  unfold ContactsLookup.fetch_contacts_by_company_gsid,
    ContactsLookup.fetch_contacts_paged.
  intros Hin Hc.
  destruct (Pagination.fetch_loop_abort
              (ContactsLookup.contacts_url domain) (json_headers access_key)
              g 1000 fuel 0%Z [] (boot srv))
    as (newcalls & Hcalls & Hlast).
  destruct (Pagination.fetch_loop_failed
              (ContactsLookup.contacts_url domain) (json_headers access_key)
              g 1000 fuel 0%Z [] (boot srv))
    as (newcalls' & Hcalls' & Hprint).
  cbn [boot calls app] in Hcalls, Hcalls'.
  assert (newcalls' = newcalls) as -> by (now rewrite <- Hcalls, <- Hcalls').
  rewrite Hcalls in Hin |- *.
  destruct (in_split _ _ Hin) as (pre & post & E).
  destruct (Hlast pre c post E (or_intror (ex_intro _ text Hc))) as [Hres ->].
  split; [exact Hres |]. split; [exists pre; exact E |].
  exact (Hprint pre c text E Hc).
Qed.





(** C4 as stated fails on csm-dashboard.py: on a transport error
    [get_company_contacts] returns the empty list, not [None], and
    prints nothing; [lookup_company_name] returns [None] but prints
    nothing either. *)
Lemma company_contacts_swallow_error :
  @CsmDashboard.get_company_contacts plain_runtime
    "https://demo.example.com/" "key" (PStr "1P02A8QY") 10
    (boot (always (Failed "Read timed out.")))
  = (Ret (PList []),
     logged (boot (always (Failed "Read timed out.")))
            {| url := "https://demo.example.com/v1/data/objects/query/company_person";
               headers := json_headers "key";
               data := CsmDashboard.contacts_query (PStr "1P02A8QY") 10;
               timeout := 10 |}
            (Failed "Read timed out.") [])
  /\ PList [] <> PNone
  /\ stdout (snd (@CsmDashboard.lookup_company_name plain_runtime
                    "https://demo.example.com/" "key" (PStr "1P02A8QY")
                    (boot (always (Failed "Read timed out.")))))
     = [].
Proof. repeat split. discriminate. Qed.

(** C4 on a world whose next call times out. *)
Lemma transport_error_outcome_witness :
  next_reply (boot (always (Failed "Read timed out."))) (Failed "Read timed out.")
  /\ (exists rq,
         @ContactsLookup.fetch_contacts_by_company_gsid plain_runtime 1
           "https://demo.example.com/" "key" "1P02A8QY"
           (boot (always (Failed "Read timed out.")))
         = (Ret None,
            logged (boot (always (Failed "Read timed out."))) rq
                   (Failed "Read timed out.")
                   ["🔍 Querying contacts (offset: 0, limit: 1000)...";
                    "   ❌ Request error: Read timed out."])).
Proof.
  assert (next_reply (boot (always (Failed "Read timed out.")))
                     (Failed "Read timed out.")) as H1
      by (intros rq; reflexivity).
  split; [exact H1 |].
  exact (proj1 (@transport_error_outcome plain_runtime _ _
                  "https://demo.example.com/" "key" H1) 0%nat "1P02A8QY").
Defined.

(** The paginated fetcher when the connection drops after a full page:
    two calls, the failure value, the error on the last line. *)
Example fetch_dropped_after_full_page :
  let (r, w) := @ContactsLookup.fetch_contacts_by_company_gsid plain_runtime 5
                  "https://demo.example.com/" "key" "1P02A8QY"
                  (boot dropping_service) in
  r = Ret None
  /\ map (fun c => query_field "offset" (fst c)) (calls w) = [0; 1000]%Z
  /\ stdout w
     = ["🔍 Querying contacts (offset: 0, limit: 1000)...";
        "   📋 Found 1000 contacts in this batch";
        "🔍 Querying contacts (offset: 1000, limit: 1000)...";
        "   ❌ Request error: Connection aborted."].
Proof. vm_compute. repeat split. Qed.

(** Outside the failures above: a record with a null field where the
    loop of a presenter slices it makes the loop raise.
    timeline-viewer.py tests the subject before it slices it and
    csm-dashboard.py does not; timeline-viewer.py slices the [Gsid]
    untested. *)
Example dashboard_null_subject_raises :
  @CsmDashboard.summary_lines plain_runtime 1
    (PDict [("Subject", PNone); ("GsCompanyId", PStr "1P02A8QY")])
  = Raise OtherException
  /\ TimelineViewer.shown_subject
       (PDict [("Subject", PNone); ("GsCompanyId", PStr "1P02A8QY")])
     = Ret PNone.
Proof. split; reflexivity. Qed.

Example timeline_viewer_null_gsid_raises :
  @TimelineViewer.activity_lines plain_runtime 1 (PDict [("Gsid", PNone)])
  = Raise OtherException.
Proof. reflexivity. Qed.

End ErrorHandling.

(** * Part III: further properties of the scripts *)

(** ** Which exceptions get out *)
Module Outcomes.
Import Py Net Service Behaviour.

Lemma wild_rbind {A B} (r : result A) (k : A -> result B) :
  wild r = false -> (forall a, wild (k a) = false) -> wild (rbind r k) = false.
Proof.
  destruct r as [a | e |]; cbn; intros Hr Hk; [apply Hk | exact Hr | exact Hr].
Qed.

Lemma wild_get (x : value) (k : string) (d : value) : wild (get x k d) = false.
Proof. destruct x; reflexivity. Qed.

Lemma wild_iter (x : value) : wild (iter x) = false.
Proof. destruct x; reflexivity. Qed.

Lemma wild_len (x : value) : wild (len x) = false.
Proof. destruct x; reflexivity. Qed.

Lemma wild_slice_to (n : nat) (x : value) : wild (slice_to n x) = false.
Proof. destruct x; reflexivity. Qed.

Lemma wild_add_str (x : value) (s : string) : wild (add_str x s) = false.
Proof. destruct x; reflexivity. Qed.

Lemma wild_index0 (x : value) : wild (index0 x) = false.
Proof. destruct x as [| | | | [| a s] | [| v l] |]; reflexivity. Qed.

Lemma wild_contains_char (c : ascii) (x : value) :
  wild (contains_char c x) = false.
Proof. destruct x; reflexivity. Qed.

Ltac tame :=
  repeat first
    [ reflexivity
    | apply wild_get | apply wild_iter | apply wild_len | apply wild_slice_to
    | apply wild_add_str | apply wild_index0 | apply wild_contains_char
    | apply wild_rbind; [| intros ?]
    | match goal with
      | |- wild (if ?c then _ else _) = false => destruct c
      | |- wild (match ?x with _ => _ end) = false => destruct x
      end ].

End Outcomes.

(** ** Exceptions the fetch functions and the scripts never let out *)
Module Escapes.
Import Py Net Service Behaviour Outcomes.

Lemma never_ret {A} (bad : exn -> bool) (a : A) : never bad (ret a).
Proof. intros w. reflexivity. Qed.

Lemma never_print (bad : exn -> bool) (s : string) : never bad (print s).
Proof. intros w. reflexivity. Qed.

Lemma never_lift {A} (bad : exn -> bool) (r : result A) :
  bad OtherException = false -> wild r = false -> never bad (lift r).
Proof.
  intros Hb Hr w. unfold lift. cbn.
  destruct r as [a | [msg | | c] |]; cbn in *; congruence.
Qed.

Lemma never_bind {A B} (bad : exn -> bool) (m : M A) (k : A -> M B) :
  never bad m -> (forall a, never bad (k a)) -> never bad (bind m k).
Proof.
  intros Hm Hk w. unfold bind. specialize (Hm w).
  destruct (m w) as [[a | e |] w']; cbn in *; [apply Hk | exact Hm | reflexivity].
Qed.

Lemma never_post (rq : request) : never is_exit (post rq).
Proof. intros w. unfold post. destruct (remote w _ rq); reflexivity. Qed.

Lemma never_resp_json `{Runtime} (r : response) : never is_exit (resp_json r).
Proof.
  intros w. unfold resp_json.
  destruct (json r); [reflexivity |]. destruct json_decode_error; reflexivity.
Qed.

(** [try ... except requests.RequestException]: what the body lets out
    short of [SystemExit] is caught or ordinary. *)
Lemma never_try_request {A} (m : M A) (h : string -> M A) :
  never is_exit m -> (forall e, never caught (h e)) ->
  never caught (try_request m h).
Proof.
  intros Hm Hh w. unfold try_request. specialize (Hm w).
  destruct (m w) as [[a | [msg | | c] |] w']; cbn in *;
    [reflexivity | apply Hh | reflexivity | discriminate | reflexivity].
Qed.

Ltac calm :=
  repeat first
    [ apply never_ret | apply never_print | apply never_post
    | apply never_resp_json
    | apply never_lift; [reflexivity | tame]
    | apply never_bind; [| intros ?]
    | match goal with
      | |- never _ (if ?c then _ else _) => destruct c
      | |- never _ (match ?x with _ => _ end) => destruct x
      end ].

Section WithRuntime.
Context `{Runtime}.

Lemma never_fetch_page url hd gsid limit offset contacts :
  never caught (ContactsLookup.fetch_page url hd gsid limit offset contacts).
Proof.
  unfold ContactsLookup.fetch_page.
  apply never_try_request; [| intros e]; calm.
Qed.

Lemma never_fetch_loop url hd gsid limit fuel :
  forall offset contacts,
    never caught (ContactsLookup.fetch_loop fuel url hd gsid limit offset contacts).
Proof.
  induction fuel as [| fuel IH]; intros offset contacts.
  - intros w. reflexivity.
  - cbn [ContactsLookup.fetch_loop].
    apply never_bind; [apply never_fetch_page |].
    intros [v | cs | cs]; [apply never_ret | apply never_ret | apply IH].
Qed.

Lemma never_get_timeline_activities d k u l :
  never caught (CsmDashboard.get_timeline_activities d k u l).
Proof.
  unfold CsmDashboard.get_timeline_activities. cbn zeta.
  apply never_try_request; [| intros e]; calm.
Qed.

Lemma never_lookup_company_name d k g :
  never caught (CsmDashboard.lookup_company_name d k g).
Proof.
  unfold CsmDashboard.lookup_company_name. cbn zeta.
  apply never_try_request; [| intros e]; calm.
Qed.

Lemma never_get_company_contacts d k g l :
  never caught (CsmDashboard.get_company_contacts d k g l).
Proof.
  unfold CsmDashboard.get_company_contacts. cbn zeta.
  apply never_try_request; [| intros e]; calm.
Qed.

Lemma never_safe_timeline_query d k u l :
  never caught (TimelineViewer.safe_timeline_query d k u l).
Proof.
  unfold TimelineViewer.safe_timeline_query. cbn zeta.
  apply never_try_request; [| intros e]; calm.
Qed.

Lemma never_lookup_company_by_id d k c :
  never caught (CompanyLookup.lookup_company_by_id d k c).
Proof.
  unfold CompanyLookup.lookup_company_by_id. cbn zeta.
  apply never_try_request; [| intros e]; calm.
Qed.

(** X1.  No fetch function of the scripts lets a [RequestException] or a
    [SystemExit] out, whatever the service does and from whatever state:
    a run ends with a value or with an ordinary exception (and, for the
    paginated loop, may run out of fuel). *)
Theorem fetchers_catch_request_errors
        (fuel : nat) (domain access_key company_id user_email : string)
        (company_gsid : value) (limit : Z) :
  never caught (ContactsLookup.fetch_contacts_by_company_gsid
                  fuel domain access_key company_id)
  /\ never caught (CsmDashboard.get_timeline_activities
                     domain access_key user_email limit)
  /\ never caught (CsmDashboard.lookup_company_name
                     domain access_key company_gsid)
  /\ never caught (CsmDashboard.get_company_contacts
                     domain access_key company_gsid limit)
  /\ never caught (TimelineViewer.safe_timeline_query
                     domain access_key user_email limit)
  /\ never caught (CompanyLookup.lookup_company_by_id
                     domain access_key company_id).
Proof.
  split; [apply never_fetch_loop |].
  split; [apply never_get_timeline_activities |].
  split; [apply never_lookup_company_name |].
  split; [apply never_get_company_contacts |].
  split; [apply never_safe_timeline_query |].
  apply never_lookup_company_by_id.
Qed.

End WithRuntime.

End Escapes.

(** ** The requests the fetch functions send *)
Module Requests.
Import Py Net Service Behaviour ContactsLookup.

Lemma iter_len (x : value) (items : list value) (n : nat) :
  iter x = Ret items -> len x = Ret n -> List.length items = n.
Proof.
  destruct x; cbn; try discriminate; intros E1 E2;
    injection E1 as <-; injection E2 as <-.
  - unfold chars. rewrite length_map.
    induction s as [| a s IH]; cbn; [reflexivity | now rewrite IH].
  - reflexivity.
  - apply length_map.
Qed.

Section Loop.
Context `{Runtime}.
Variables (url : string) (hd : list (string * string)) (gsid : string)
          (limit : Z).

Ltac run_turn :=
  unfold fetch_page, try_request, bind, print, post, resp_json, lift,
    ret, raise;
  cbn [remote calls stdout].

(** What a turn of the loop hands back: the failure value, or the list
    grown by the page, by at least [limit] records when the loop goes
    on. *)
Lemma fetch_page_grows offset contacts w :
  match fst (fetch_page url hd gsid limit offset contacts w) with
  | Ret (Return_ v) => v = None
  | Ret (Break cs) =>
      (List.length contacts <= List.length cs)%nat
  | Ret (Continue cs) =>
      (Z.of_nat (List.length contacts) + limit <= Z.of_nat (List.length cs))%Z
  | _ => True
  end.
Proof.
  run_turn.
  destruct (remote w _ _) as [msg | r]; [reflexivity |].
  destruct (status_code r =? 200)%Z; cbn; [| reflexivity].
  destruct (json r) as [body |]; cbn;
    [| destruct json_decode_error; reflexivity].
  destruct (get body "result" PNone) as [res | [] |]; cbn; try exact I; try reflexivity.
  destruct (truthy res); cbn.
  - destruct (get body "data" (PList [])) as [raw | [] |]; cbn; try exact I; try reflexivity.
    destruct (records_of raw) as [records |]; cbn; [| reflexivity].
    destruct (iter records) as [items | [] |] eqn:Ei; cbn; try exact I; try reflexivity.
    destruct (len records) as [n | [] |] eqn:El; cbn; try exact I; try reflexivity.
    pose proof (iter_len records items n Ei El) as Hn.
    destruct (Z.ltb_spec (Z.of_nat n) limit); cbn; rewrite length_app; lia.
  - destruct (get body "errorDesc" (PStr "Unknown error")) as [err | [] |];
      cbn; try exact I; reflexivity.
Qed.

(** The log of a run of the loop, whatever the service does: one page
    request per turn, the offset growing by [limit], each answered by the
    service's next reply; and what a returned list holds at least. *)
Lemma fetch_loop_trace fuel :
  forall offset contacts w,
  exists n,
    (n <= fuel)%nat
    /\ remote (snd (fetch_loop fuel url hd gsid limit offset contacts w))
       = remote w
    /\ calls (snd (fetch_loop fuel url hd gsid limit offset contacts w))
       = calls w
         ++ map (fun i =>
                   (page_request url hd gsid limit
                                 (offset + Z.of_nat i * limit),
                    remote w (List.length (calls w) + i)
                           (page_request url hd gsid limit
                                         (offset + Z.of_nat i * limit))))
                (seq 0 n)
    /\ (forall l,
           (0 <= limit)%Z ->
           fst (fetch_loop fuel url hd gsid limit offset contacts w)
           = Ret (Some l) ->
           (1 <= n)%nat
           /\ (Z.of_nat (List.length contacts) + limit * (Z.of_nat n - 1)
               <= Z.of_nat (List.length l))%Z).
Proof.
  induction fuel as [| fuel IH]; intros offset contacts w.
  - exists 0%nat. cbn. rewrite app_nil_r.
    split; [lia |]. split; [reflexivity |]. split; [reflexivity |].
    intros; discriminate.
  - pose proof (Pagination.fetch_page_calls url hd gsid limit offset contacts w)
      as [Hrem Hcalls].
    pose proof (fetch_page_grows offset contacts w) as Hgrow.
    cbn zeta in Hrem, Hcalls.
    rewrite Pagination.fetch_loop_S.
    destruct (fetch_page url hd gsid limit offset contacts w) as [fl w1].
    cbn [fst snd] in *.
    assert (calls w1
            = calls w
              ++ map (fun i =>
                        (page_request url hd gsid limit
                                      (offset + Z.of_nat i * limit),
                         remote w (List.length (calls w) + i)
                                (page_request url hd gsid limit
                                              (offset + Z.of_nat i * limit))))
                     (seq 0 1)) as Hone.
    { rewrite Hcalls. cbn [seq map]. rewrite Nat.add_0_r.
      replace (offset + Z.of_nat 0 * limit)%Z with offset by (cbn; lia).
      reflexivity. }
    destruct fl as [[v | cs | cs] | e |].
    + exists 1%nat. split; [lia |]. split; [assumption |].
      split; [assumption |]. intros; subst v; discriminate.
    + exists 1%nat. split; [lia |]. split; [assumption |].
      split; [assumption |]. intros l Hl E; injection E as <-; cbn; lia.
    + destruct (IH (offset + limit)%Z cs w1) as (n & Hn & Hrem' & Hcalls' & Hres).
      exists (S n). split; [lia |]. split; [now rewrite Hrem' |]. split.
      * rewrite Hcalls', Hcalls, <- app_assoc. f_equal.
        cbn [seq map app]. rewrite Nat.add_0_r.
        replace (offset + Z.of_nat 0 * limit)%Z with offset by (cbn; lia).
        f_equal. rewrite <- seq_shift, map_map. apply map_ext. intros i.
        rewrite Hrem, length_app. cbn [List.length].
        replace (offset + limit + Z.of_nat i * limit)%Z
          with (offset + Z.of_nat (S i) * limit)%Z by lia.
        replace (List.length (calls w) + 1 + i)%nat
          with (List.length (calls w) + S i)%nat by lia.
        reflexivity.
      * intros l Hl E. destruct (Hres l Hl E) as [H1 H2]. split; [lia |].
        nia.
    + exists 1%nat. split; [lia |]. split; [assumption |].
      split; [assumption |]. intros; discriminate.
    + exists 1%nat. split; [lia |]. split; [assumption |].
      split; [assumption |]. intros; discriminate.
Qed.

End Loop.

(** X3.  Whatever the service answers, the calls of a run of
    [fetch_contacts_by_company_gsid] are page requests and nothing else:
    the [i]-th goes to the company_person endpoint under the domain, with
    the access key, the same query for the company, limit 1000 and offset
    1000 * i, and is answered by the service's [i]-th reply; there are
    no more calls than turns. *)
Theorem fetch_sends_page_requests
        `{Runtime} (srv : nat -> request -> reply) (fuel : nat)
        (domain access_key company_gsid : string) :
  exists n,
    (n <= fuel)%nat
    /\ calls (snd (fetch_contacts_by_company_gsid
                     fuel domain access_key company_gsid (boot srv)))
       = map (fun i =>
                (page_request (contacts_url domain) (json_headers access_key)
                              company_gsid 1000 (1000 * Z.of_nat i),
                 srv i (page_request (contacts_url domain)
                                     (json_headers access_key)
                                     company_gsid 1000 (1000 * Z.of_nat i))))
             (seq 0 n).
Proof.
  unfold fetch_contacts_by_company_gsid, fetch_contacts_paged.
  destruct (fetch_loop_trace (contacts_url domain) (json_headers access_key)
              company_gsid 1000 fuel 0%Z [] (boot srv))
    as (n & Hn & _ & Hcalls & _).
  exists n. split; [exact Hn |]. rewrite Hcalls. cbn [boot calls app remote].
  apply map_ext. intros i. cbn [List.length Nat.add].
  replace (0 + Z.of_nat i * 1000)%Z with (1000 * Z.of_nat i)%Z by lia.
  reflexivity.
Qed.

(** X4.  When [fetch_contacts_by_company_gsid] returns a list after [n]
    calls, the list holds at least 1000 records for each call but the
    last: no page that made the loop go on is lost. *)
Theorem fetch_keeps_every_page
        `{Runtime} (srv : nat -> request -> reply) (fuel : nat)
        (domain access_key company_gsid : string) (l : list value) :
  fst (fetch_contacts_by_company_gsid
         fuel domain access_key company_gsid (boot srv))
  = Ret (Some l) ->
  (1 <= List.length (calls (snd (fetch_contacts_by_company_gsid
                                   fuel domain access_key company_gsid
                                   (boot srv)))))%nat
  /\ (1000 * (List.length
                (calls (snd (fetch_contacts_by_company_gsid
                               fuel domain access_key company_gsid
                               (boot srv)))) - 1)
      <= List.length l)%nat.
Proof.
  unfold fetch_contacts_by_company_gsid, fetch_contacts_paged.
  intros Hres.
  destruct (fetch_loop_trace (contacts_url domain) (json_headers access_key)
              company_gsid 1000 fuel 0%Z [] (boot srv))
    as (n & Hn & _ & Hcalls & Hsize).
  rewrite Hcalls. cbn [boot calls app]. rewrite length_map, length_seq.
  destruct (Hsize l ltac:(lia) Hres) as [H1 H2]. cbn [List.length] in H2.
  split; lia.
Qed.

Lemma fetch_keeps_every_page_witness :
  fst (@fetch_contacts_by_company_gsid plain_runtime 3
         "https://demo.example.com/" "key" "1P02"
         (boot (paged_service full_page)))
  = Ret (Some full_page)
  /\ (1000 * (List.length
                (calls (snd (@fetch_contacts_by_company_gsid plain_runtime 3
                               "https://demo.example.com/" "key" "1P02"
                               (boot (paged_service full_page))))) - 1)
      <= List.length full_page)%nat.
Proof.
  assert (fst (@fetch_contacts_by_company_gsid plain_runtime 3
                 "https://demo.example.com/" "key" "1P02"
                 (boot (paged_service full_page)))
          = Ret (Some full_page)) as Hres by (vm_compute; reflexivity).
  exact (conj Hres
           (proj2 (@fetch_keeps_every_page plain_runtime
                     (paged_service full_page) 3
                     "https://demo.example.com/" "key" "1P02" full_page Hres))).
Defined.

End Requests.

(** ** The fetch functions that send one query *)
Module Calls.
Import Py Net Service Behaviour.

Ltac walk :=
  repeat match goal with
         | |- context [match ?x with _ => _ end] =>
             lazymatch x with
             | context [match _ with _ => _ end] => fail
             | _ => destruct x
             end;
             cbn [remote calls stdout fst snd]
         end.

Ltac run_fetch :=
  unfold try_request, bind, print, post, resp_json, lift, ret, raise;
  cbn zeta; cbn [remote calls stdout fst snd]; walk.

Section WithRuntime.
Context `{Runtime}.

Lemma one_call_get_timeline_activities domain access_key user_email limit :
  one_call {| url := (rstrip_char "/" domain
                      ++ "/v1/data/objects/query/activity_timeline")%string;
              headers := json_headers access_key;
              data := CsmDashboard.timeline_query user_email limit;
              timeout := 15 |}
           (CsmDashboard.get_timeline_activities
              domain access_key user_email limit).
Proof.
  intros w. unfold CsmDashboard.get_timeline_activities. run_fetch.
  all: split; reflexivity.
Qed.

Lemma one_call_lookup_company_name domain access_key company_gsid :
  one_call {| url := (rstrip_char "/" domain
                      ++ "/v1/data/objects/query/Company")%string;
              headers := json_headers access_key;
              data := CsmDashboard.company_query company_gsid;
              timeout := 10 |}
           (CsmDashboard.lookup_company_name domain access_key company_gsid).
Proof.
  intros w. unfold CsmDashboard.lookup_company_name. run_fetch.
  all: split; reflexivity.
Qed.

Lemma one_call_get_company_contacts domain access_key company_gsid limit :
  one_call {| url := (rstrip_char "/" domain
                      ++ "/v1/data/objects/query/company_person")%string;
              headers := json_headers access_key;
              data := CsmDashboard.contacts_query company_gsid limit;
              timeout := 10 |}
           (CsmDashboard.get_company_contacts
              domain access_key company_gsid limit).
Proof.
  intros w. unfold CsmDashboard.get_company_contacts. run_fetch.
  all: split; reflexivity.
Qed.

Lemma one_call_safe_timeline_query domain access_key user_email limit :
  one_call {| url := (rstrip_char "/" domain
                      ++ "/v1/data/objects/query/activity_timeline")%string;
              headers := json_headers access_key;
              data := TimelineViewer.timeline_query user_email limit;
              timeout := 15 |}
           (TimelineViewer.safe_timeline_query
              domain access_key user_email limit).
Proof.
  intros w. unfold TimelineViewer.safe_timeline_query. run_fetch.
  all: split; reflexivity.
Qed.

Lemma one_call_lookup_company_by_id domain access_key company_id :
  one_call {| url := (rstrip_char "/" domain
                      ++ "/v1/data/objects/query/Company")%string;
              headers := json_headers access_key;
              data := CompanyLookup.company_query company_id;
              timeout := 15 |}
           (CompanyLookup.lookup_company_by_id domain access_key company_id).
Proof.
  intros w. unfold CompanyLookup.lookup_company_by_id. run_fetch.
  all: split; reflexivity.
Qed.

Lemma silent_lookup_company_name domain access_key company_gsid :
  silent (CsmDashboard.lookup_company_name domain access_key company_gsid).
Proof.
  intros w. unfold CsmDashboard.lookup_company_name. run_fetch.
  all: reflexivity.
Qed.

Lemma silent_get_company_contacts domain access_key company_gsid limit :
  silent (CsmDashboard.get_company_contacts
            domain access_key company_gsid limit).
Proof.
  intros w. unfold CsmDashboard.get_company_contacts. run_fetch.
  all: reflexivity.
Qed.

(** X5.  Each of the five fetch functions that do not paginate sends
    exactly one request, whatever the service answers: a POST to its
    object's query endpoint under the domain with the trailing slashes
    removed, with the access key in the headers, the query built from its
    arguments, and the timeout of its call (15 seconds, 10 for the two
    lookups inside the dashboard's loop). *)
Theorem fetchers_send_one_query
        (domain access_key user_email company_id : string)
        (company_gsid : value) (limit : Z) :
  one_call {| url := (rstrip_char "/" domain
                      ++ "/v1/data/objects/query/activity_timeline")%string;
              headers := json_headers access_key;
              data := CsmDashboard.timeline_query user_email limit;
              timeout := 15 |}
           (CsmDashboard.get_timeline_activities
              domain access_key user_email limit)
  /\ one_call {| url := (rstrip_char "/" domain
                         ++ "/v1/data/objects/query/Company")%string;
                 headers := json_headers access_key;
                 data := CsmDashboard.company_query company_gsid;
                 timeout := 10 |}
              (CsmDashboard.lookup_company_name
                 domain access_key company_gsid)
  /\ one_call {| url := (rstrip_char "/" domain
                         ++ "/v1/data/objects/query/company_person")%string;
                 headers := json_headers access_key;
                 data := CsmDashboard.contacts_query company_gsid limit;
                 timeout := 10 |}
              (CsmDashboard.get_company_contacts
                 domain access_key company_gsid limit)
  /\ one_call {| url := (rstrip_char "/" domain
                         ++ "/v1/data/objects/query/activity_timeline")%string;
                 headers := json_headers access_key;
                 data := TimelineViewer.timeline_query user_email limit;
                 timeout := 15 |}
              (TimelineViewer.safe_timeline_query
                 domain access_key user_email limit)
  /\ one_call {| url := (rstrip_char "/" domain
                         ++ "/v1/data/objects/query/Company")%string;
                 headers := json_headers access_key;
                 data := CompanyLookup.company_query company_id;
                 timeout := 15 |}
              (CompanyLookup.lookup_company_by_id
                 domain access_key company_id).
Proof.
  split; [apply one_call_get_timeline_activities |].
  split; [apply one_call_lookup_company_name |].
  split; [apply one_call_get_company_contacts |].
  split; [apply one_call_safe_timeline_query |].
  apply one_call_lookup_company_by_id.
Qed.

(** X6.  [lookup_company_name] and [get_company_contacts] of
    csm-dashboard.py print nothing, whatever the service answers: what
    the dashboard shows about a lookup is printed by its caller. *)
Theorem dashboard_lookups_print_nothing
        (domain access_key : string) (company_gsid : value) (limit : Z) :
  silent (CsmDashboard.lookup_company_name domain access_key company_gsid)
  /\ silent (CsmDashboard.get_company_contacts
               domain access_key company_gsid limit).
Proof.
  split; [apply silent_lookup_company_name
         | apply silent_get_company_contacts].
Qed.

(** X7.  With its two variables set, gainsight-api-hello-world.py sends
    one request and returns, whatever the service answers: it never
    exits with an error status.  Its last line is the success message
    when the reply is a response whose status is outside 400..599, and
    the text of the error otherwise, after the line "Request failed." *)
Theorem hello_world_always_returns (env : environ) (w : world) :
  has_keys env = true ->
  let rq := {| url := (rstrip_char "/" (the (env "GAINSIGHT_DOMAIN"))
                       ++ "/v1/users/services/list")%string;
               headers := json_headers (the (env "GAINSIGHT_ACCESS_KEY"));
               data := HelloWorld.body; timeout := 20 |} in
  let a := remote w (List.length (calls w)) rq in
  fst (HelloWorld.main env w) = Ret tt
  /\ calls (snd (HelloWorld.main env w)) = calls w ++ [(rq, a)]
  /\ (passes a = true ->
      last (stdout (snd (HelloWorld.main env w))) EmptyString
      = (nl ++ "✅ API key looks valid and endpoint reachable.")%string)
  /\ (passes a = false ->
      stdout (snd (HelloWorld.main env w))
      = stdout w
        ++ match a with
           | Failed msg => [(nl ++ "❌ Request failed.")%string; msg]
           | Replied r =>
               [("HTTP " ++ str_of_Z (status_code r))%string;
                match json r with
                | Some v => json_dumps_indent2 v
                | None => text r
                end;
                (nl ++ "❌ Request failed.")%string;
                http_error_text (status_code r) (url rq)]
           end).
Proof.
  unfold has_keys, has_var. intros Hk.
  apply andb_prop in Hk as [Hd Ha].
  apply negb_true_iff in Hd, Ha.
  cbn zeta. unfold HelloWorld.main. rewrite Hd, Ha. cbn [orb].
  unfold try_request, try_exception, raise_for_status, bind, print, post,
    resp_json, lift, ret, raise.
  cbn zeta. cbn [remote calls stdout fst snd].
  destruct (remote w _ _) as [msg | r]; cbn [remote calls stdout fst snd passes].
  - split; [reflexivity |]. split; [reflexivity |].
    split; [discriminate |]. intros _.
    rewrite <- ?app_assoc. reflexivity.
  - destruct (json r) as [v |]; cbn [remote calls stdout fst snd].
    + destruct ((400 <=? status_code r) && (status_code r <? 600))%Z;
        cbn [remote calls stdout fst snd negb].
      * split; [reflexivity |]. split; [reflexivity |].
        split; [discriminate |]. intros _.
        rewrite <- ?app_assoc. cbn [app]. reflexivity.
      * split; [reflexivity |]. split; [reflexivity |].
        split; [| discriminate]. intros _. now rewrite last_last.
    + destruct json_decode_error;
        cbn [remote calls stdout fst snd];
        destruct ((400 <=? status_code r) && (status_code r <? 600))%Z;
        cbn [remote calls stdout fst snd negb].
      all: split; [reflexivity |]; split; [reflexivity |].
      all: split; [try discriminate | try discriminate].
      all: try (intros _; rewrite <- ?app_assoc; cbn [app];
                reflexivity).
      all: intros _; now rewrite last_last.
Qed.

End WithRuntime.

Lemma hello_world_always_returns_witness :
  has_keys demo_env = true
  /\ fst (@HelloWorld.main plain_runtime demo_env
            (boot (always (Replied not_found))))
     = Ret tt.
Proof.
  split; [reflexivity |].
  exact (proj1 (@hello_world_always_returns plain_runtime demo_env
                  (boot (always (Replied not_found))) eq_refl)).
Defined.

End Calls.

(** ** The dashboard's bookkeeping: company ids and email domains *)
Module Bookkeeping.
Import Py Net Service Behaviour CsmDashboard.

Lemma distinct_values_snoc (seen : list value) (g : value) :
  distinct_values seen = true -> list_mem g seen = false ->
  distinct_values (seen ++ [g]) = true.
Proof.
  induction seen as [| x seen IH]; cbn; [reflexivity |].
  intros Hd Hm. apply andb_prop in Hd as [Hx Hd].
  apply orb_false_elim in Hm as [Hgx Hm].
  rewrite forallb_app, Hx, (IH Hd Hm). cbn. now rewrite Hgx.
Qed.

Lemma list_mem_app (g : value) (l m : list value) :
  list_mem g (l ++ m) = list_mem g l || list_mem g m.
Proof. unfold list_mem. apply existsb_app. Qed.

(** The loop of step 2, from any list built so far. *)
Lemma unique_gsids_from (acts : list value) :
  forall seen l,
    unique_gsids acts seen = Ret l ->
    exists more,
      l = seen ++ more
      /\ (distinct_values seen = true -> distinct_values l = true)
      /\ (forall g, In g more ->
            truthy g = true
            /\ exists a, In a acts /\ get a "GsCompanyId" PNone = Ret g)
      /\ (forall a g, In a acts -> get a "GsCompanyId" PNone = Ret g ->
            truthy g = true -> In g l \/ list_mem g l = true).
Proof.
  induction acts as [| a acts IH]; intros seen l; cbn [unique_gsids].
  - intros E. injection E as <-. exists []. rewrite app_nil_r.
    split; [reflexivity |]. split; [tauto |].
    split; intros; contradiction.
  - destruct (get a "GsCompanyId" PNone) as [g | e |] eqn:Hg;
      cbn [rbind]; try discriminate.
    destruct (truthy g) eqn:Ht; cbn [andb].
    + destruct (list_mem g seen) eqn:Hm; cbn [negb]; intros E.
      * destruct (IH seen l E) as (more & -> & Hd & Hfrom & Hall).
        exists more. split; [reflexivity |]. split; [exact Hd |]. split.
        -- intros g' Hin. destruct (Hfrom g' Hin) as [Ht' (a' & Ha' & Hg')].
           split; [exact Ht' |]. exists a'. split; [now right | exact Hg'].
        -- intros a' g' [<- | Hin] Hg' Ht'.
           ++ rewrite Hg in Hg'. injection Hg' as <-. right.
              rewrite list_mem_app, Hm. reflexivity.
           ++ exact (Hall a' g' Hin Hg' Ht').
      * destruct (IH (seen ++ [g]) l E) as (more & -> & Hd & Hfrom & Hall).
        exists (g :: more). rewrite <- app_assoc. split; [reflexivity |].
        split; [| split].
        -- intros Hs. rewrite <- app_assoc in Hd. apply Hd.
           now apply distinct_values_snoc.
        -- intros g' [<- | Hin].
           ++ split; [exact Ht |]. exists a. split; [now left | exact Hg].
           ++ destruct (Hfrom g' Hin) as [Ht' (a' & Ha' & Hg')].
              split; [exact Ht' |]. exists a'. split; [now right | exact Hg'].
        -- intros a' g' [<- | Hin] Hg' Ht'.
           ++ rewrite Hg in Hg'. injection Hg' as <-. left.
              apply in_or_app. right. now left.
           ++ rewrite <- app_assoc in Hall. exact (Hall a' g' Hin Hg' Ht').
    + intros E.
      destruct (IH seen l E) as (more & -> & Hd & Hfrom & Hall).
      exists more. split; [reflexivity |]. split; [exact Hd |]. split.
      * intros g' Hin. destruct (Hfrom g' Hin) as [Ht' (a' & Ha' & Hg')].
        split; [exact Ht' |]. exists a'. split; [now right | exact Hg'].
      * intros a' g' [<- | Hin] Hg' Ht'.
        -- rewrite Hg in Hg'. injection Hg' as <-. congruence.
        -- exact (Hall a' g' Hin Hg' Ht').
Qed.

(** X8.  Step 2 of csm-dashboard.py: when the loop over the activities
    returns, the list of company ids holds no element equal to an
    earlier one, every element is the truthy [GsCompanyId] of an
    activity, and every truthy [GsCompanyId] of an activity is in the
    list or equal to an element of it. *)
Theorem unique_gsids_distinct (acts l : list value) :
  unique_gsids acts [] = Ret l ->
  distinct_values l = true
  /\ (forall g, In g l ->
        truthy g = true
        /\ exists a, In a acts /\ get a "GsCompanyId" PNone = Ret g)
  /\ (forall a g, In a acts -> get a "GsCompanyId" PNone = Ret g ->
        truthy g = true -> In g l \/ list_mem g l = true).
Proof.
  intros E. destruct (unique_gsids_from acts [] l E) as (more & -> & Hd & Hfrom & Hall).
  cbn [app] in *. split; [now apply Hd |]. split; assumption.
Qed.

Lemma unique_gsids_distinct_witness :
  unique_gsids [PDict (activity_of "Kickoff");
                PDict [("GsCompanyId", PStr "1P05")];
                PDict [("Subject", PStr "No company")];
                PDict (activity_of "Renewal")] []
  = Ret [PStr "1P02A8QY"; PStr "1P05"]
  /\ distinct_values [PStr "1P02A8QY"; PStr "1P05"] = true.
Proof.
  assert (unique_gsids [PDict (activity_of "Kickoff");
                        PDict [("GsCompanyId", PStr "1P05")];
                        PDict [("Subject", PStr "No company")];
                        PDict (activity_of "Renewal")] []
          = Ret [PStr "1P02A8QY"; PStr "1P05"]) as E by reflexivity.
  exact (conj E (proj1 (unique_gsids_distinct _ _ E))).
Defined.

(** The item [max] selects: it is in the list, no item before it
    reaches its count and no item after it exceeds it. *)
Lemma max_item_first (items : list (string * nat)) :
  forall best,
  exists pre post,
    best :: items = pre ++ max_item best items :: post
    /\ (forall p, In p pre -> (snd p < snd (max_item best items))%nat)
    /\ (forall p, In p post -> (snd p <= snd (max_item best items))%nat).
Proof.
  induction items as [| it items IH]; intros best; cbn [max_item].
  - exists [], []. split; [reflexivity |]. split; intros p [].
  - destruct (Nat.ltb_spec (snd best) (snd it)) as [Hlt | Hge].
    + destruct (IH it) as (pre & post & E & Hpre & Hpost).
      exists (best :: pre), post. split; [cbn; now rewrite E |].
      split; [| exact Hpost].
      intros p [<- | Hin]; [| now apply Hpre].
      destruct pre as [| x pre]; cbn in E; injection E as E1 E2.
      * rewrite <- E1. exact Hlt.
      * subst x. specialize (Hpre it (or_introl eq_refl)). lia.
    + destruct (IH best) as (pre & post & E & Hpre & Hpost).
      destruct pre as [| x pre]; cbn in E; injection E as E1 E2.
      * exists [], (it :: items). split; [cbn; now rewrite <- E1 |].
        split; [intros p [] |].
        intros p [<- | Hin]; [rewrite <- E1; exact Hge |].
        apply Hpost. rewrite <- E2. exact Hin.
      * subst x. exists (best :: it :: pre), post.
        split; [cbn [app]; do 2 f_equal; exact E2 |]. split; [| exact Hpost].
        pose proof (Hpre best (or_introl eq_refl)) as Hb.
        intros p [<- | [<- | Hin]]; [exact Hb | lia |].
        apply Hpre. now right.
Qed.

(** X9.  The primary domain csm-dashboard.py shows for a company is
    "Unknown" when no domain was counted; otherwise it is a domain of
    the counts whose count no other domain exceeds, and the first such
    domain in the order of the counts. *)
Theorem primary_domain_is_first_maximum (domain_counts : list (string * nat)) :
  match domain_counts with
  | [] => primary_domain_of domain_counts = "Unknown"
  | _ =>
      exists n pre post,
        domain_counts = pre ++ (primary_domain_of domain_counts, n) :: post
        /\ (forall p, In p pre -> (snd p < n)%nat)
        /\ (forall p, In p post -> (snd p <= n)%nat)
  end.
Proof.
  destruct domain_counts as [| it rest]; [reflexivity |].
  destruct (max_item_first rest it) as (pre & post & E & Hpre & Hpost).
  unfold primary_domain_of.
  exists (snd (max_item it rest)), pre, post.
  rewrite <- surjective_pairing. split; [exact E |]. split; assumption.
Qed.

Lemma bump_keys (k : string) (c : list (string * nat)) :
  map fst (bump k c)
  = if existsb (String.eqb k) (map fst c) then map fst c
    else map fst c ++ [k].
Proof.
  induction c as [| [k0 n] c IH]; cbn; [reflexivity |].
  rewrite (String.eqb_sym k k0).
  destruct (String.eqb k0 k); cbn; [reflexivity |].
  rewrite IH. destruct (existsb (String.eqb k) (map fst c)); reflexivity.
Qed.

Lemma bump_NoDup (k : string) (c : list (string * nat)) :
  NoDup (map fst c) -> NoDup (map fst (bump k c)).
Proof.
  intros Hc. rewrite bump_keys.
  destruct (existsb (String.eqb k) (map fst c)) eqn:Hk; [exact Hc |].
  apply NoDup_app; [exact Hc | repeat constructor; intros [] |].
  intros x Hx [E | []]. subst x.
  assert (existsb (String.eqb k) (map fst c) = true) as Hex
      by (apply existsb_exists; exists k; split;
          [exact Hx | apply String.eqb_refl]).
  congruence.
Qed.

Lemma bump_total (k : string) (c : list (string * nat)) :
  total (bump k c) = S (total c).
Proof.
  induction c as [| [k0 n] c IH]; cbn; [reflexivity |].
  destruct (String.eqb k0 k); cbn; [reflexivity |].
  unfold total in IH. rewrite IH. lia.
Qed.

Lemma bump_positive (k : string) (c : list (string * nat)) :
  Forall (fun p => (0 < snd p)%nat) c ->
  Forall (fun p => (0 < snd p)%nat) (bump k c).
Proof.
  induction c as [| [k0 n] c IH]; cbn; intros Hc.
  - repeat constructor.
  - inversion Hc as [| x l Hx Hl]; subst.
    destruct (String.eqb k0 k); constructor; cbn; try lia; auto.
Qed.

Lemma Counter_shape (domains : list string) :
  forall c,
    NoDup (map fst c) -> Forall (fun p => (0 < snd p)%nat) c ->
    NoDup (map fst (fold_left (fun c k => bump k c) domains c))
    /\ Forall (fun p => (0 < snd p)%nat)
              (fold_left (fun c k => bump k c) domains c)
    /\ total (fold_left (fun c k => bump k c) domains c)
       = (List.length domains + total c)%nat.
Proof.
  induction domains as [| d domains IH]; intros c Hn Hp; cbn [fold_left].
  - repeat split; assumption.
  - destruct (IH (bump d c) (bump_NoDup d c Hn) (bump_positive d c Hp))
      as (H1 & H2 & H3).
    split; [exact H1 |]. split; [exact H2 |].
    rewrite H3, bump_total. cbn [List.length]. lia.
Qed.

Lemma split_first_none (c : ascii) (s : string) :
  split_first c s = None -> has_char c s = false.
Proof.
  induction s as [| a s IH]; cbn; [reflexivity |].
  destruct (Ascii.eqb a c); [discriminate |].
  destruct (split_first c s) as [[u d] |]; [discriminate |].
  intros _. now apply IH.
Qed.

(** The domain one contact adds, for a contact whose address is a
    string. *)
Lemma contact_domain_email (c : value) (email : string) :
  has_email c email -> contact_domain c = Ret (email_domain email).
Proof.
  intros (kv & -> & Hkv). unfold contact_domain, email_domain.
  cbn [get rbind]. rewrite Hkv.
  destruct email as [| a email]; [reflexivity |].
  cbn [truthy negb contains_char rbind].
  destruct (split_first "@" (String a email)) as [[u rest] |] eqn:Hs.
  - rewrite (Aggregation.split_first_has_char "@" _ u rest Hs). cbn [negb].
    rewrite (Aggregation.split_after_first "@" _ u rest Hs). cbn [nth_error].
    destruct (split_first "@" rest) as [[d r2] |] eqn:Hs2.
    + rewrite (Aggregation.split_after_first "@" _ d r2 Hs2). reflexivity.
    + rewrite (Aggregation.split_plain "@" rest (split_first_none _ _ Hs2)).
      reflexivity.
  - rewrite (split_first_none _ _ Hs). reflexivity.
Qed.

Lemma collect_domains_emails (contacts : list value) (emails : list string) :
  Forall2 has_email contacts emails ->
  collect_domains contacts = Ret (domains_of emails).
Proof.
  induction 1 as [| c e cs es Hc Hcs IH]; [reflexivity |].
  cbn [collect_domains]. rewrite (contact_domain_email c e Hc). cbn [rbind].
  rewrite IH. cbn [rbind]. unfold domains_of. cbn [flat_map].
  destruct (email_domain e); reflexivity.
Qed.

(** X10.  On contacts whose addresses are strings, whatever they
    hold, [extract_email_domains] returns a mapping: each domain appears
    once, with the number of addresses that have it (the text between
    the first '@' and the next, lower-cased), never with a count of 0,
    and the counts add up to the number of addresses with an '@'. *)
Theorem extract_email_domains_tally
        (contacts : list value) (emails : list string) :
  Forall2 has_email contacts emails ->
  exists domain_counts,
    extract_email_domains (PList contacts) = Ret domain_counts
    /\ NoDup (map fst domain_counts)
    /\ (forall k,
          count_of k domain_counts
          = count_occ string_dec (domains_of emails) k)
    /\ Forall (fun p => (0 < snd p)%nat) domain_counts
    /\ total domain_counts
       = List.length (filter (has_char "@") emails).
Proof.
  intros Hcs. exists (Counter (domains_of emails)).
  assert (List.length (domains_of emails)
          = List.length (filter (has_char "@") emails)) as Hlen.
  { clear. induction emails as [| e emails IH]; [reflexivity |].
    unfold domains_of in *. cbn [flat_map filter]. rewrite length_app, IH.
    unfold email_domain.
    destruct (split_first "@" e) as [[u rest] |] eqn:Hs.
    - rewrite (Aggregation.split_first_has_char "@" e u rest Hs). reflexivity.
    - rewrite (split_first_none _ _ Hs). reflexivity. }
  destruct (Counter_shape (domains_of emails) [] (NoDup_nil _) (Forall_nil _))
    as (Hn & Hp & Ht).
  split.
  - unfold extract_email_domains. cbn [iter rbind].
    rewrite (collect_domains_emails contacts emails Hcs). cbn [rbind].
    destruct (domains_of emails); reflexivity.
  - split; [exact Hn |].
    split; [intros k; apply Aggregation.Counter_counts |].
    split; [exact Hp |]. unfold Counter.
    rewrite Ht, <- Hlen. cbn. lia.
Qed.

Lemma extract_email_domains_tally_witness :
  Forall2 has_email
          [contact_of "ann@A.com"; contact_of "none"; contact_of "x@b.org@a.com"]
          ["ann@A.com"; "none"; "x@b.org@a.com"]
  /\ exists domain_counts,
       extract_email_domains
         (PList [contact_of "ann@A.com"; contact_of "none";
                 contact_of "x@b.org@a.com"])
       = Ret domain_counts
       /\ total domain_counts = 2%nat.
Proof.
  assert (Forall2 has_email
            [contact_of "ann@A.com"; contact_of "none";
             contact_of "x@b.org@a.com"]
            ["ann@A.com"; "none"; "x@b.org@a.com"]) as Hcs.
  { repeat constructor; eexists; split; reflexivity. }
  split; [exact Hcs |].
  destruct (extract_email_domains_tally _ _ Hcs)
    as (domain_counts & E & _ & _ & _ & Ht).
  exists domain_counts. split; [exact E | exact Ht].
Defined.

End Bookkeeping.

(** ** The loops of the presenters on well-formed records *)
Module Layout.
Import Py Net Service Behaviour.

(** A loop whose body returns between [lo] and [hi] lines on the items
    of a list returns, with that many lines per item. *)
Lemma for_lines_bounds {A} (body : nat -> A -> result (list string))
      (ok : A -> bool) (lo hi : nat) :
  (forall i x, ok x = true ->
     exists l, body i x = Ret l
               /\ (lo <= List.length l)%nat /\ (List.length l <= hi)%nat) ->
  forall (xs : list A) (i0 : nat),
    forallb ok xs = true ->
    exists ls,
      for_lines body i0 xs = Ret ls
      /\ (lo * List.length xs <= List.length ls)%nat
      /\ (List.length ls <= hi * List.length xs)%nat.
Proof.
  intros Hb. induction xs as [| x xs IH]; intros i0 Hok.
  - exists []. cbn. split; [reflexivity | lia].
  - cbn [forallb] in Hok. apply andb_prop in Hok as [Hx Hxs].
    destruct (Hb i0 x Hx) as (l & El & Hlo & Hhi).
    destruct (IH (S i0) Hxs) as (ls & Els & Hlo' & Hhi').
    exists (l ++ ls). cbn [for_lines]. rewrite El. cbn [rbind].
    rewrite Els. cbn [rbind]. split; [reflexivity |].
    rewrite length_app. cbn [List.length]. lia.
Qed.

Section WithRuntime.
Context `{Runtime}.

Lemma activity_lines_returns (i : nat) (activity : value) :
  viewer_record activity = true ->
  exists l, TimelineViewer.activity_lines i activity = Ret l
            /\ (2 <= List.length l)%nat /\ (List.length l <= 3)%nat.
Proof.
  destruct activity as [| | | | | | kv]; try discriminate.
  cbn [viewer_record]. unfold str_or_null, str_or_absent. intros Hok.
  apply andb_prop in Hok as [Hs Hg].
  unfold TimelineViewer.activity_lines, TimelineViewer.shown_subject.
  cbn [get rbind].
  destruct (lookup "Subject" kv) as [[| | | | s | |] |]; try discriminate;
    destruct (lookup "Gsid" kv) as [[| | | | g | |] |]; try discriminate;
    cbn [truthy rbind len slice_to add_str].
  all: repeat match goal with
         | |- context [if ?c then _ else _] => destruct c; cbn [rbind len slice_to add_str]
         end.
  all: eexists; split; [reflexivity |]; cbn; lia.
Qed.

Lemma summary_lines_returns (i : nat) (activity : value) :
  summary_record activity = true ->
  exists l, CsmDashboard.summary_lines i activity = Ret l
            /\ (2 <= List.length l)%nat /\ (List.length l <= 2)%nat.
Proof.
  destruct activity as [| | | | | | kv]; try discriminate.
  cbn [summary_record]. unfold str_or_absent. intros Hs.
  unfold CsmDashboard.summary_lines, CsmDashboard.mark_cut.
  cbn [get rbind].
  destruct (lookup "Subject" kv) as [[| | | | s | |] |]; try discriminate;
    cbn [truthy rbind len slice_to add_str].
  all: repeat match goal with
         | |- context [if ?c then _ else _] => destruct c; cbn [rbind len slice_to add_str]
         end.
  all: eexists; split; [reflexivity |]; cbn; lia.
Qed.

Lemma contact_lines_returns (redact : bool) (i : nat) (contact : value) :
  contact_record contact = true ->
  exists l, ContactsLookup.contact_lines redact i contact = Ret l
            /\ (3 <= List.length l)%nat /\ (List.length l <= 5)%nat.
Proof.
  destruct contact as [| | | | | | kv]; try discriminate.
  cbn [contact_record]. unfold str_or_null. intros He.
  unfold ContactsLookup.contact_lines. cbn [get rbind].
  assert (exists e,
             (if redact
                 && negb (is_str (por (match lookup "Person_ID__gr.Email" kv with
                                       | Some v => v
                                       | None => PNone
                                       end) (PStr "No email")) "No email")
              then ContactsLookup.redact_email
                     (por (match lookup "Person_ID__gr.Email" kv with
                           | Some v => v
                           | None => PNone
                           end) (PStr "No email"))
              else Ret (por (match lookup "Person_ID__gr.Email" kv with
                             | Some v => v
                             | None => PNone
                             end) (PStr "No email")))
             = Ret e) as [e ->].
  { destruct (redact && _); [| eexists; reflexivity].
    destruct (lookup "Person_ID__gr.Email" kv) as [[| | | | s | |] |];
      try discriminate; try (eexists; reflexivity).
    unfold por. destruct (truthy (PStr s)) eqn:Ht; [| eexists; reflexivity].
    unfold ContactsLookup.redact_email. rewrite Ht.
    cbn [negb contains_char rbind].
    destruct (has_char "@" s) eqn:Hat; cbn [negb]; [| eexists; reflexivity].
    destruct (Redaction.split_first_found "@" s Hat) as (u & d & -> & _ & _).
    eexists; reflexivity. }
  cbn [rbind]. eexists. split; [reflexivity |].
  rewrite !length_app. cbn [List.length].
  destruct (negb (is_str _ "No role")), (negb (is_str _ "No title"));
    cbn [List.length]; lia.
Qed.


(** X12.  The loop of [format_timeline_summary] in csm-dashboard.py
    (lines 188-196): over activities that each have a string (or no)
    [Subject] it runs to its end without raising and appends exactly two
    lines for each activity. *)
Theorem summary_loop_returns (acts : list value) (i0 : nat) :
  forallb summary_record acts = true ->
  exists ls,
    for_lines CsmDashboard.summary_lines i0 acts = Ret ls
    /\ List.length ls = (2 * List.length acts)%nat.
Proof.
  intros Hok.
  destruct (for_lines_bounds CsmDashboard.summary_lines summary_record 2 2
              summary_lines_returns acts i0 Hok) as (ls & Els & Hlo & Hhi).
  exists ls. split; [exact Els | lia].
Qed.

(** X13.  The loop of [format_contacts_data] in contacts-lookup.py
    (lines 109-127): over contacts whose address is a string or null (or
    missing) it runs to its end without raising, with redaction on or
    off, and appends between three and five lines for each contact. *)
Theorem contacts_loop_returns
        (contacts : list value) (redact : bool) (i0 : nat) :
  forallb contact_record contacts = true ->
  exists ls,
    for_lines (ContactsLookup.contact_lines redact) i0 contacts = Ret ls
    /\ (3 * List.length contacts <= List.length ls)%nat
    /\ (List.length ls <= 5 * List.length contacts)%nat.
Proof.
  intros Hok.
  destruct (for_lines_bounds (ContactsLookup.contact_lines redact)
              contact_record 3 5 (contact_lines_returns redact)
              contacts i0 Hok) as (ls & Els & Hlo & Hhi).
  exists ls. split; [exact Els |]. split; assumption.
Qed.

Lemma redact_empty (e : string) :
  ContactsLookup.redact_email (PStr e) = Ret (PStr EmptyString) ->
  e = EmptyString.
Proof.
  destruct e as [| a e]; [reflexivity |].
  unfold ContactsLookup.redact_email. cbn [truthy String.eqb negb].
  cbn [contains_char rbind].
  destruct (has_char "@" (String a e)) eqn:Hat; cbn [negb];
    [| discriminate].
  destruct (Redaction.split_first_found "@" _ Hat) as (u & d & -> & _ & _).
  destruct u as [| b u]; discriminate.
Qed.

(** X14.  With redaction on, the lines printed for a contact show of
    its address only the redacted form: two contacts that differ in
    their address alone, by addresses that [redact_email] maps to the
    same text, give the same lines in [format_contacts_data] of
    contacts-lookup.py and the same output in the final report of
    csm-dashboard.py. *)
Theorem redacted_listing_hides_address
        (i : nat) (kv : list (string * value)) (e e' : string) (w : world) :
  e <> "No email" -> e' <> "No email" ->
  ContactsLookup.redact_email (PStr e) = ContactsLookup.redact_email (PStr e') ->
  ContactsLookup.contact_lines
    true i (PDict (("Person_ID__gr.Email", PStr e) :: kv))
  = ContactsLookup.contact_lines
      true i (PDict (("Person_ID__gr.Email", PStr e') :: kv))
  /\ CsmDashboard.print_contact
       true i (PDict (("Person_ID__gr.Email", PStr e) :: kv)) w
     = CsmDashboard.print_contact
         true i (PDict (("Person_ID__gr.Email", PStr e') :: kv)) w.
Proof.
  intros He He' Hred. apply String.eqb_neq in He, He'. split.
  - unfold ContactsLookup.contact_lines.
    cbn [get lookup String.eqb Ascii.eqb Bool.eqb rbind andb].
    destruct (String.eqb_spec e EmptyString) as [-> | Hne];
      destruct (String.eqb_spec e' EmptyString) as [-> | Hne'].
    + reflexivity.
    + symmetry in Hred. apply redact_empty in Hred. contradiction.
    + apply redact_empty in Hred. contradiction.
    + assert (truthy (PStr e) = true) as Ht
          by (apply negb_true_iff, String.eqb_neq; exact Hne).
      assert (truthy (PStr e') = true) as Ht'
          by (apply negb_true_iff, String.eqb_neq; exact Hne').
      unfold por. rewrite Ht, Ht'.
      assert (forall x, is_str (PStr x) "No email" = String.eqb x "No email")
        as Hstr by reflexivity.
      rewrite !Hstr, He, He'. cbn [negb]. rewrite Hred. reflexivity.
  - unfold CsmDashboard.print_contact, bind, lift.
    cbn [get lookup String.eqb Ascii.eqb Bool.eqb rbind andb].
    assert (forall x, is_str (PStr x) "No email" = String.eqb x "No email")
      as Hstr by reflexivity.
    rewrite !Hstr, He, He'. cbn [negb].
    change CsmDashboard.redact_email with ContactsLookup.redact_email.
    rewrite Hred. reflexivity.
Qed.

End WithRuntime.


Lemma summary_loop_returns_witness :
  forallb summary_record
          [PDict (activity_of "Kickoff"); PDict [("GsCompanyId", PNone)]]
  = true
  /\ exists ls,
       for_lines (@CsmDashboard.summary_lines plain_runtime) 1
                 [PDict (activity_of "Kickoff");
                  PDict [("GsCompanyId", PNone)]]
       = Ret ls
       /\ List.length ls = 4%nat.
Proof.
  split; [reflexivity |].
  exact (@summary_loop_returns plain_runtime
           [PDict (activity_of "Kickoff"); PDict [("GsCompanyId", PNone)]]
           1 eq_refl).
Defined.

Lemma contacts_loop_returns_witness :
  forallb contact_record
          [contact_of "ann@a.com"; PDict [("Person_ID__gr.Email", PNone)]]
  = true
  /\ exists ls,
       for_lines (@ContactsLookup.contact_lines plain_runtime true) 1
                 [contact_of "ann@a.com";
                  PDict [("Person_ID__gr.Email", PNone)]]
       = Ret ls
       /\ (List.length ls <= 10)%nat.
Proof.
  split; [reflexivity |].
  destruct (@contacts_loop_returns plain_runtime
              [contact_of "ann@a.com"; PDict [("Person_ID__gr.Email", PNone)]]
              true 1 eq_refl) as (ls & E & _ & Hhi).
  exists ls. split; [exact E | exact Hhi].
Defined.

Lemma redacted_listing_hides_address_witness :
  ContactsLookup.redact_email (PStr "alice@example.com")
  = ContactsLookup.redact_email (PStr "adam@example.com")
  /\ @ContactsLookup.contact_lines plain_runtime
       true 1 (PDict [("Person_ID__gr.Email", PStr "alice@example.com");
                      ("Title", PStr "CTO")])
     = @ContactsLookup.contact_lines plain_runtime
         true 1 (PDict [("Person_ID__gr.Email", PStr "adam@example.com");
                        ("Title", PStr "CTO")]).
Proof.
  split; [reflexivity |].
  exact (proj1 (@redacted_listing_hides_address plain_runtime 1
                  [("Title", PStr "CTO")]
                  "alice@example.com" "adam@example.com" (boot (always (Failed "x")))
                  ltac:(discriminate) ltac:(discriminate) eq_refl)).
Defined.

End Layout.

(** ** What the scripts read of the command line and the environment *)
Module Closing.
Import Py Net Service Behaviour.

Section WithRuntime.
Context `{Runtime}.

(** X17.  An option given on the command line replaces its variable:
    with a non-empty --company-id (--user-email), the scripts run the
    same in any two environments that differ in GAINSIGHT_COMPANY_ID
    and GAINSIGHT_USER_EMAIL only, so the variable is not consulted. *)
Theorem option_overrides_variable
        (fuel : nat) (env env' : environ) (c u : string)
        (name : option string) (limit : Z) (debug : bool) (w : world) :
  same_but_options env env' ->
  c <> EmptyString -> u <> EmptyString ->
  ContactsLookup.main fuel env
    {| ContactsLookup.company_id := Some c;
       ContactsLookup.company_name := name |} w
  = ContactsLookup.main fuel env'
      {| ContactsLookup.company_id := Some c;
         ContactsLookup.company_name := name |} w
  /\ CsmDashboard.main env
       {| CsmDashboard.user_email := Some u; CsmDashboard.limit := limit |} w
     = CsmDashboard.main env'
         {| CsmDashboard.user_email := Some u; CsmDashboard.limit := limit |} w
  /\ TimelineViewer.main env
       {| TimelineViewer.user_email := Some u; TimelineViewer.limit := limit;
          TimelineViewer.debug := debug |} w
     = TimelineViewer.main env'
         {| TimelineViewer.user_email := Some u; TimelineViewer.limit := limit;
            TimelineViewer.debug := debug |} w
  /\ CompanyLookup.main env {| CompanyLookup.company_id := Some c |} w
     = CompanyLookup.main env' {| CompanyLookup.company_id := Some c |} w.
Proof.
  intros Hsame Hc Hu.
  apply String.eqb_neq in Hc, Hu.
  assert (forall x, opt_or (Some c) x = Some c) as Hoc
      by (intros x; unfold opt_or, missing; now rewrite Hc).
  assert (forall x, opt_or (Some u) x = Some u) as Hou
      by (intros x; unfold opt_or, missing; now rewrite Hu).
  assert (env "GAINSIGHT_DOMAIN" = env' "GAINSIGHT_DOMAIN") as Ed
      by (apply Hsame; discriminate).
  assert (env "GAINSIGHT_ACCESS_KEY" = env' "GAINSIGHT_ACCESS_KEY") as Ek
      by (apply Hsame; discriminate).
  assert (env "GAINSIGHT_COMPANY_NAME" = env' "GAINSIGHT_COMPANY_NAME") as En
      by (apply Hsame; discriminate).
  assert (env "GAINSIGHT_REDACT" = env' "GAINSIGHT_REDACT") as Er
      by (apply Hsame; discriminate).
  split; [| split; [| split]].
  - unfold ContactsLookup.main.
    cbn [ContactsLookup.company_id ContactsLookup.company_name].
    rewrite !Hoc, Ed, Ek, En, Er. reflexivity.
  - unfold CsmDashboard.main.
    cbn [CsmDashboard.user_email CsmDashboard.limit].
    rewrite !Hou, Ed, Ek, Er. reflexivity.
  - unfold TimelineViewer.main.
    cbn [TimelineViewer.user_email TimelineViewer.limit TimelineViewer.debug].
    rewrite !Hou, Ed, Ek. reflexivity.
  - unfold CompanyLookup.main. cbn [CompanyLookup.company_id].
    rewrite !Hoc, Ed, Ek. reflexivity.
Qed.


End WithRuntime.

Lemma option_overrides_variable_witness :
  same_but_options demo_env
    (env_of [("GAINSIGHT_DOMAIN", "https://demo.example.com/");
             ("GAINSIGHT_ACCESS_KEY", "key")])
  /\ @CompanyLookup.main plain_runtime demo_env
       {| CompanyLookup.company_id := Some "1P05" |}
       (boot (always (Replied not_found)))
     = @CompanyLookup.main plain_runtime
         (env_of [("GAINSIGHT_DOMAIN", "https://demo.example.com/");
                  ("GAINSIGHT_ACCESS_KEY", "key")])
         {| CompanyLookup.company_id := Some "1P05" |}
         (boot (always (Replied not_found))).
Proof.
  assert (same_but_options demo_env
            (env_of [("GAINSIGHT_DOMAIN", "https://demo.example.com/");
                     ("GAINSIGHT_ACCESS_KEY", "key")])) as Hsame.
  { intros k Hc Hu. unfold demo_env. cbn [env_of].
    destruct (String.eqb "GAINSIGHT_DOMAIN" k); [reflexivity |].
    destruct (String.eqb "GAINSIGHT_ACCESS_KEY" k); [reflexivity |].
    destruct (String.eqb_spec "GAINSIGHT_COMPANY_ID" k) as [E | _];
      [now symmetry in E |].
    destruct (String.eqb_spec "GAINSIGHT_USER_EMAIL" k) as [E | _];
      [now symmetry in E |].
    reflexivity. }
  split; [exact Hsame |].
  apply (@option_overrides_variable plain_runtime 1 demo_env _ "1P05" "u@x.org"
           None 3%Z false _ Hsame); discriminate.
Defined.


End Closing.

(** ** The looser bodies the paginated fetcher accepts *)
Module Runs.
Import Py Net Service Behaviour.

Section WithRuntime.
Context `{Runtime}.

(** X20.  The paginated fetcher also accepts the looser success
    bodies: when the first reply is a 200 whose body has a true
    [result] and either no [data] field at all or a bare list of fewer
    than 1000 records as [data], [fetch_contacts_by_company_gsid]
    returns that list (the empty list when [data] is missing) after
    this one call. *)
Theorem fetch_accepts_loose_bodies
        (srv : nat -> request -> reply) (fuel : nat)
        (domain access_key company_gsid : string)
        (r : response) (kv : list (string * value)) (page : list value) :
  srv 0%nat (ContactsLookup.page_request
               (ContactsLookup.contacts_url domain) (json_headers access_key)
               company_gsid 1000 0)
  = Replied r ->
  status_code r = 200%Z ->
  json r = Some (PDict kv) ->
  truthy (match lookup "result" kv with Some v => v | None => PNone end)
  = true ->
  (lookup "data" kv = None /\ page = [])
  \/ (lookup "data" kv = Some (PList page)
      /\ (List.length page < 1000)%nat) ->
  exists w,
    ContactsLookup.fetch_contacts_by_company_gsid
      (S fuel) domain access_key company_gsid (boot srv)
    = (Ret (Some page), w)
    /\ calls w
       = [(ContactsLookup.page_request
             (ContactsLookup.contacts_url domain) (json_headers access_key)
             company_gsid 1000 0, Replied r)].
Proof.
  intros Hsrv Hs Hj Ht Hdata.
  unfold ContactsLookup.fetch_contacts_by_company_gsid,
    ContactsLookup.fetch_contacts_paged.
  cbn [ContactsLookup.fetch_loop].
  unfold ContactsLookup.fetch_page, try_request, bind, print, post,
    resp_json, lift, ret.
  cbn [remote calls stdout boot List.length]. rewrite Hsrv, Hs, Hj.
  cbn [Z.eqb Pos.eqb negb get rbind]. rewrite Ht. cbn [negb].
  destruct Hdata as [[Hd ->] | [Hd Hlen]]; rewrite Hd;
    cbn [ContactsLookup.records_of iter len rbind app List.length].
  - cbn. eexists. split; reflexivity.
  - assert ((Z.of_nat (List.length page) <? 1000)%Z = true) as ->
        by (apply Z.ltb_lt; lia).
    eexists. split; reflexivity.
Qed.

End WithRuntime.

Lemma fetch_accepts_loose_bodies_witness :
  exists w,
    @ContactsLookup.fetch_contacts_by_company_gsid plain_runtime 1
      "https://demo.example.com/" "key" "1P02A8QY"
      (boot (always (Replied {| status_code := 200; text := EmptyString;
                                json := Some (bare_body three_records) |})))
    = (Ret (Some three_records), w)
    /\ List.length (calls w) = 1%nat.
Proof.
  destruct (@fetch_accepts_loose_bodies plain_runtime
              (always (Replied {| status_code := 200; text := EmptyString;
                                  json := Some (bare_body three_records) |}))
              0 "https://demo.example.com/" "key" "1P02A8QY"
              {| status_code := 200; text := EmptyString;
                 json := Some (bare_body three_records) |}
              [("result", PBool true); ("data", PList three_records)]
              three_records eq_refl eq_refl eq_refl eq_refl
              (or_intror (conj eq_refl (proj1 (Nat.ltb_lt 3 1000) eq_refl))))
    as (w & E & Hc).
  exists w. split; [exact E |]. rewrite Hc. reflexivity.
Defined.

End Runs.
